(** * MotionBlinds BLE device: connection and command orchestration

    A shallow embedding of [motionblinds_ble/device.py] and the properties
    of its connection coordinator, command dispatcher, disconnect timer,
    notification decoder and precondition guards.

    Python's [async def] functions are trees of synchronous steps and
    [await] points ([Coro]); plain [def] functions are state transformers
    over the [World] (the device object, the event-loop bookkeeping and the
    log of calls that leave the device object).  The constants of
    [const.py] and the cipher of [crypt.py] are interfaces ([Const],
    [MotionCrypt]). *)

From Stdlib Require Import ZArith Lia List Bool String Ascii Sorted.
From Stdlib Require Import Floats.PrimFloat Floats.FloatOps Floats.SpecFloat.
From Stdlib Require Import Numbers.Cyclic.Int63.Uint63.
Import ListNotations.
Open Scope string_scope.
Open Scope Z_scope.

Set Implicit Arguments.

(* ================================================================== *)
(** ** Python built-ins used by the device *)
(* ================================================================== *)

Module Py.

(** Objects whose truth value matters: [bool] and [int]. *)
Inductive pyval : Type :=
| PyBool (b : bool)
| PyInt (z : Z).

Definition truthy (v : pyval) : bool :=
  match v with
  | PyBool b => b
  | PyInt z => negb (z =? 0)
  end.

(** [a or b] returns [a] when it is truthy and [b] otherwise. *)
Definition py_or (a b : pyval) : pyval := if truthy a then a else b.

(** *** Hexadecimal text *)

Definition hex_digit (n : Z) : ascii :=
  match n with
  | 0 => "0" | 1 => "1" | 2 => "2" | 3 => "3" | 4 => "4" | 5 => "5"
  | 6 => "6" | 7 => "7" | 8 => "8" | 9 => "9" | 10 => "a" | 11 => "b"
  | 12 => "c" | 13 => "d" | 14 => "e" | _ => "f"
  end%char.

Fixpoint hex_digits (fuel : nat) (n : Z) (acc : string) : string :=
  let acc' := String (hex_digit (n mod 16)) acc in
  match fuel with
  | O => acc'
  | S fuel' => if n / 16 =? 0 then acc' else hex_digits fuel' (n / 16) acc'
  end.

(** [hex(n)]: sign, ["0x"], then the digits without leading zeros. *)
Definition hex (n : Z) : string :=
  let digits m := hex_digits (Z.to_nat (Z.log2 m)) m EmptyString in
  if n <? 0 then "-0x" ++ digits (- n) else "0x" ++ digits n.

(** [s[k:]] for [k >= 0]. *)
Fixpoint slice_from (k : nat) (s : string) : string :=
  match k, s with
  | O, _ => s
  | S k', String _ s' => slice_from k' s'
  | S _, EmptyString => EmptyString
  end.

Fixpoint zeros (n : nat) : string :=
  match n with
  | O => EmptyString
  | S n' => String "0" (zeros n')
  end.

(** [s.zfill(width)]: zeros are inserted after a leading sign. *)
Definition zfill (width : nat) (s : string) : string :=
  let pad := zeros (width - String.length s) in
  match s with
  | String c s' =>
      if (Ascii.eqb c "+" || Ascii.eqb c "-")%bool
      then String c (pad ++ s')
      else pad ++ s
  | EmptyString => pad
  end.

(** [bytes.hex()]: two lower-case digits per byte. *)
Fixpoint bytes_hex (bs : list Z) : string :=
  match bs with
  | [] => EmptyString
  | b :: bs' =>
      String (hex_digit (b / 16)) (String (hex_digit (b mod 16)) (bytes_hex bs'))
  end.

Definition hex_value (c : ascii) : option Z :=
  let n := Z.of_nat (nat_of_ascii c) in
  if (48 <=? n) && (n <=? 57) then Some (n - 48)
  else if (97 <=? n) && (n <=? 102) then Some (n - 87)
  else if (65 <=? n) && (n <=? 70) then Some (n - 55)
  else None.

Definition is_space (c : ascii) : bool :=
  let n := nat_of_ascii c in
  (Nat.eqb n 32 || ((9 <=? n)%nat && (n <=? 13)%nat))%bool.

(** [bytes.fromhex(s)]: pairs of hexadecimal digits, ASCII whitespace
    between pairs is skipped; [None] stands for [ValueError]. *)
Fixpoint fromhex (s : string) : option (list Z) :=
  match s with
  | EmptyString => Some []
  | String c rest =>
      if is_space c then fromhex rest
      else
        match rest with
        | EmptyString => None
        | String d rest' =>
            match hex_value c, hex_value d, fromhex rest' with
            | Some h, Some l, Some bs => Some (16 * h + l :: bs)
            | _, _, _ => None
            end
        end
  end.

(** [int.from_bytes(bs)], big-endian (the default byte order). *)
Definition int_from_bytes (bs : list Z) : Z :=
  fold_left (fun acc b => acc * 256 + b) bs 0.

(** [s.startswith(p)]. *)
Definition startswith (s p : string) : bool := String.prefix p s.

(** *** Floating point: [a / b] on integers and [round] *)

(** An [int] below [2^63] in magnitude as a binary64 float (exact below
    [2^53], which covers every use in the device). *)
Definition int_to_float (n : Z) : float :=
  if n <? 0 then PrimFloat.opp (PrimFloat.of_uint63 (Uint63.of_Z (- n)))
  else PrimFloat.of_uint63 (Uint63.of_Z n).

(** [a / b]: true division of two small integers is the binary64
    quotient of their float values. *)
Definition truediv (a b : Z) : float :=
  PrimFloat.div (int_to_float a) (int_to_float b).

(** The integer nearest to [m * 2^e], ties to even. *)
Definition round_half_even (m e : Z) : Z :=
  if 0 <=? e then m * 2 ^ e
  else
    let d := 2 ^ (- e) in
    let q := m / d in
    let r := m mod d in
    if 2 * r <? d then q
    else if d <? 2 * r then q + 1
    else if Z.even q then q else q + 1.

(** [round(x)] of a float: an [int], halves go to the even neighbour;
    [None] stands for the error raised on infinities and NaN. *)
Definition round (x : float) : option Z :=
  match Prim2SF x with
  | S754_zero _ => Some 0
  | S754_finite s m e =>
      let v := round_half_even (Zpos m) e in
      Some (if s then - v else v)
  | S754_infinity _ | S754_nan => None
  end.

(** [xs[i]]: [None] stands for [IndexError]; indices here are never
    negative. *)
Definition index (xs : list Z) (i : nat) : option Z := nth_error xs i.

End Py.

(* ================================================================== *)
(** ** Data model *)
(* ================================================================== *)

(** The members of [MotionConnectionType] that the device uses. *)
Inductive MotionConnectionType : Type :=
| DISCONNECTED
| CONNECTING
| CONNECTED
| DISCONNECTING.

(** [MotionPositionInfo]: [UP] and [DOWN] are [bool]s; [FAVORITE] is
    whatever the [or] expression of the constructor evaluates to. *)
Record MotionPositionInfo : Type := {
  UP : bool;
  DOWN : bool;
  FAVORITE : Py.pyval
}.

(** [MotionPositionInfo.__init__]. *)
Definition new_MotionPositionInfo (end_positions_byte favorite_bytes : Z)
  : MotionPositionInfo :=
  {| UP := negb (Z.land end_positions_byte 8 =? 0);
     DOWN := negb (Z.land end_positions_byte 4 =? 0);
     FAVORITE :=
       Py.py_or (Py.PyBool (negb (Z.land favorite_bytes 65280 =? 0)))
                (Py.PyInt (Z.land favorite_bytes 255)) |}.

(** A [BleakClient] as the device sees it: an identity and the value its
    [is_connected] property currently reads. *)
Record BleakClient : Type := {
  client_id : nat;
  is_connected_now : bool
}.

(** [_disconnect_timer] is either the cancel callable returned by the
    host's [call_later] or an event-loop [TimerHandle]. *)
Inductive DisconnectTimer : Type :=
| HaCancel (id : nat)
| LoopTimerHandle (id : nat).

(** The only coroutine ever wrapped in a task is [_connect]; a [Task]
    records its argument and which [create_task] made it. *)
Record Task : Type := {
  task_id : nat;
  task_use_notification_delay : bool;
  task_by_ha : bool
}.

(** The attributes of [MotionDevice].  Callables supplied by the host are
    represented by whether they are set. *)
Record MotionDevice : Type := {
  end_position_info : option MotionPositionInfo;
  _current_bleak_client : option BleakClient;
  _connection_type : MotionConnectionType;
  _disconnect_time : option Z;
  _disconnect_timer : option DisconnectTimer;
  _ha_create_task : bool;
  _ha_call_later : bool;
  _position_callback : bool;
  _running_callback : bool;
  _connection_callback : bool;
  _status_callback : bool;
  _connection_task : option Task;
  _last_connection_caller_time : option Z
}.

(** Exceptions that can travel through the device's code. *)
Inductive exn : Type :=
| NoEndPositionsException
| NoFavoritePositionException
| AssertionError
| TypeError
| ValueError
| IndexError
| BleakError (tag : nat)
| BleakOutOfConnectionSlotsError
| BleakNotFoundError
| CancelledError.

(** [except BleakError] also catches its two subclasses. *)
Definition isinstance_BleakError (e : exn) : bool :=
  match e with
  | BleakError _ | BleakOutOfConnectionSlotsError | BleakNotFoundError => true
  | _ => false
  end.

Inductive result (A : Type) : Type :=
| Returns (a : A)
| Raises (e : exn).
Arguments Raises {A} e.

(** What a coroutine can suspend on. *)
Inductive awaitable : Type :=
| AwaitTask (t : Task)
| EstablishConnection (max_attempts : Z)
| StartNotify (c : BleakClient) (characteristic : string)
| WriteGattChar (c : BleakClient) (characteristic : string) (data : list Z)
| ClientDisconnect (c : BleakClient)
| Sleep (delay : Z).

(** The value an awaited operation hands back. *)
Inductive value : Type :=
| VNone
| VBool (b : bool)
| VClient (c : BleakClient).

Definition outcome : Type := result value.

(** Calls that leave the device object, in the order they happen. *)
Inductive event : Type :=
| ConnectionCallback (c : MotionConnectionType)
| PositionCallback (position_percentage angle_percentage : Z)
                   (info : MotionPositionInfo)
| StatusCallback (position_percentage angle_percentage battery_percentage : Z)
                 (speed_level : option Z) (info : MotionPositionInfo)
| TimerCancelled (t : DisconnectTimer)
| TimerArmed (t : DisconnectTimer) (timeout : Z)
| TaskCreated (t : Task)
| TaskCancelRequested (t : Task)
| SetDisconnectedCallback (c : BleakClient)
| Awaited (a : awaitable).

(** The device together with its surroundings: the wall clock (the
    [ticks]-th reading of [time_ns()] is [clock ticks]), a supply of
    identities for timers and tasks, and the log of outgoing calls. *)
Record World : Type := {
  dev : MotionDevice;
  log : list event;
  clock : nat -> Z;
  ticks : nat;
  next_id : nat
}.

(* ================================================================== *)
(** ** Synchronous code: state and exceptions *)
(* ================================================================== *)

Definition M (A : Type) : Type := World -> result A * World.

Definition ret {A} (a : A) : M A := fun w => (Returns a, w).
Definition raise {A} (e : exn) : M A := fun w => (Raises e, w).
Definition bind {A B} (m : M A) (k : A -> M B) : M B :=
  fun w =>
    match m w with
    | (Returns a, w') => k a w'
    | (Raises e, w') => (Raises e, w')
    end.

Declare Scope sync_scope.
Delimit Scope sync_scope with M.
Notation "x <- m ;; k" := (bind m (fun x => k))
  (at level 61, m at next level, right associativity) : sync_scope.
Notation "m ;; k" := (bind m (fun _ => k))
  (at level 61, right associativity) : sync_scope.

Definition self : M MotionDevice := fun w => (Returns (dev w), w).

Definition set_self (f : MotionDevice -> MotionDevice) : M unit :=
  fun w =>
    (Returns tt,
     {| dev := f (dev w); log := log w; clock := clock w;
        ticks := ticks w; next_id := next_id w |}).

(** The world after the calls [es] have been made. *)
Definition logged (w : World) (es : list event) : World :=
  {| dev := dev w; log := (log w ++ es)%list; clock := clock w;
     ticks := ticks w; next_id := next_id w |}.

Definition emit (e : event) : M unit :=
  fun w => (Returns tt, logged w [e]).

(** [time_ns()]: the next reading of the wall clock. *)
Definition time_ns : M Z :=
  fun w =>
    (Returns (clock w (ticks w)),
     {| dev := dev w; log := log w; clock := clock w;
        ticks := S (ticks w); next_id := next_id w |}).

Definition fresh : M nat :=
  fun w =>
    (Returns (next_id w),
     {| dev := dev w; log := log w; clock := clock w;
        ticks := ticks w; next_id := S (next_id w) |}).

(** Attribute assignments. *)
Definition with_end_position_info (v : option MotionPositionInfo) (d : MotionDevice) :=
  {| end_position_info := v;
     _current_bleak_client := _current_bleak_client d;
     _connection_type := _connection_type d;
     _disconnect_time := _disconnect_time d;
     _disconnect_timer := _disconnect_timer d;
     _ha_create_task := _ha_create_task d;
     _ha_call_later := _ha_call_later d;
     _position_callback := _position_callback d;
     _running_callback := _running_callback d;
     _connection_callback := _connection_callback d;
     _status_callback := _status_callback d;
     _connection_task := _connection_task d;
     _last_connection_caller_time := _last_connection_caller_time d |}.

Definition with_current_bleak_client (v : option BleakClient) (d : MotionDevice) :=
  {| end_position_info := end_position_info d;
     _current_bleak_client := v;
     _connection_type := _connection_type d;
     _disconnect_time := _disconnect_time d;
     _disconnect_timer := _disconnect_timer d;
     _ha_create_task := _ha_create_task d;
     _ha_call_later := _ha_call_later d;
     _position_callback := _position_callback d;
     _running_callback := _running_callback d;
     _connection_callback := _connection_callback d;
     _status_callback := _status_callback d;
     _connection_task := _connection_task d;
     _last_connection_caller_time := _last_connection_caller_time d |}.

Definition with_connection_type (v : MotionConnectionType) (d : MotionDevice) :=
  {| end_position_info := end_position_info d;
     _current_bleak_client := _current_bleak_client d;
     _connection_type := v;
     _disconnect_time := _disconnect_time d;
     _disconnect_timer := _disconnect_timer d;
     _ha_create_task := _ha_create_task d;
     _ha_call_later := _ha_call_later d;
     _position_callback := _position_callback d;
     _running_callback := _running_callback d;
     _connection_callback := _connection_callback d;
     _status_callback := _status_callback d;
     _connection_task := _connection_task d;
     _last_connection_caller_time := _last_connection_caller_time d |}.

Definition with_disconnect_timer (time : option Z) (timer : option DisconnectTimer)
    (d : MotionDevice) :=
  {| end_position_info := end_position_info d;
     _current_bleak_client := _current_bleak_client d;
     _connection_type := _connection_type d;
     _disconnect_time := time;
     _disconnect_timer := timer;
     _ha_create_task := _ha_create_task d;
     _ha_call_later := _ha_call_later d;
     _position_callback := _position_callback d;
     _running_callback := _running_callback d;
     _connection_callback := _connection_callback d;
     _status_callback := _status_callback d;
     _connection_task := _connection_task d;
     _last_connection_caller_time := _last_connection_caller_time d |}.

Definition with_connection_task (v : option Task) (d : MotionDevice) :=
  {| end_position_info := end_position_info d;
     _current_bleak_client := _current_bleak_client d;
     _connection_type := _connection_type d;
     _disconnect_time := _disconnect_time d;
     _disconnect_timer := _disconnect_timer d;
     _ha_create_task := _ha_create_task d;
     _ha_call_later := _ha_call_later d;
     _position_callback := _position_callback d;
     _running_callback := _running_callback d;
     _connection_callback := _connection_callback d;
     _status_callback := _status_callback d;
     _connection_task := v;
     _last_connection_caller_time := _last_connection_caller_time d |}.

Definition with_last_connection_caller_time (v : option Z) (d : MotionDevice) :=
  {| end_position_info := end_position_info d;
     _current_bleak_client := _current_bleak_client d;
     _connection_type := _connection_type d;
     _disconnect_time := _disconnect_time d;
     _disconnect_timer := _disconnect_timer d;
     _ha_create_task := _ha_create_task d;
     _ha_call_later := _ha_call_later d;
     _position_callback := _position_callback d;
     _running_callback := _running_callback d;
     _connection_callback := _connection_callback d;
     _status_callback := _status_callback d;
     _connection_task := _connection_task d;
     _last_connection_caller_time := v |}.

(* ================================================================== *)
(** ** Coroutines: synchronous steps between [await] points *)
(* ================================================================== *)

Inductive Coro (A : Type) : Type :=
| Ret (a : A)
| Throw (e : exn)
| Sync (X : Type) (f : World -> X * World) (k : X -> Coro A)
| Await (a : awaitable) (k : outcome -> Coro A).
Arguments Throw {A} e.
Arguments Sync {A X} f k.
Arguments Await {A} a k.

Fixpoint cbind {A B} (m : Coro A) (g : A -> Coro B) : Coro B :=
  match m with
  | Ret a => g a
  | Throw e => Throw e
  | Sync f k => Sync f (fun x => cbind (k x) g)
  | Await a k => Await a (fun o => cbind (k o) g)
  end.

(** [try: m except ...: h]: [h e] is [None] when no clause matches [e]. *)
Fixpoint try_except {A} (m : Coro A) (h : exn -> option (Coro A)) : Coro A :=
  match m with
  | Ret a => Ret a
  | Throw e => match h e with Some m' => m' | None => Throw e end
  | Sync f k => Sync f (fun x => try_except (k x) h)
  | Await a k => Await a (fun o => try_except (k o) h)
  end.

(** A plain function called from a coroutine. *)
Definition call {A} (m : M A) : Coro A :=
  Sync m (fun r => match r with Returns a => Ret a | Raises e => Throw e end).

(** [await a]: the operation's value, or the exception it raised. *)
Definition await (a : awaitable) : Coro value :=
  Await a (fun o => match o with Returns v => Ret v | Raises e => Throw e end).

Declare Scope coro_scope.
Delimit Scope coro_scope with C.
Notation "x <- m ;; k" := (cbind m (fun x => k))
  (at level 61, m at next level, right associativity) : coro_scope.
Notation "m ;; k" := (cbind m (fun _ => k))
  (at level 61, right associativity) : coro_scope.

(** Where a coroutine stands after running its synchronous steps. *)
Inductive Susp (A : Type) : Type :=
| Done (r : result A)
| Blocked (a : awaitable) (k : outcome -> Coro A).
Arguments Blocked {A} a k.

(** Run a coroutine up to its next [await] (or to its end). *)
Fixpoint step {A} (m : Coro A) (w : World) : Susp A * World :=
  match m with
  | Ret a => (Done (Returns a), w)
  | Throw e => (Done (Raises e), w)
  | Sync f k => let (x, w') := f w in step (k x) w'
  | Await a k => (Blocked a k, w)
  end.

(** Run a coroutine alone to its end: every [await] is logged and
    answered by the next outcome the surroundings supply.  [None] when the
    supply runs out before the coroutine ends. *)
Fixpoint run {A} (m : Coro A) (answers : list outcome) (w : World)
  : option (result A * World * list outcome) :=
  match m with
  | Ret a => Some (Returns a, w, answers)
  | Throw e => Some (Raises e, w, answers)
  | Sync f k => let (x, w') := f w in run (k x) answers w'
  | Await a k =>
      match answers with
      | [] => None
      | o :: answers' => run (k o) answers' (snd (emit (Awaited a) w))
      end
  end.

(* ================================================================== *)
(** ** The interfaces of [const.py] and [crypt.py] *)
(* ================================================================== *)

(** The settings and enumeration values that [device.py] imports from
    [const.py].  Command and notification types are hexadecimal text. *)
Class Const : Type := {
  SETTING_DISCONNECT_TIME : Z;
  SETTING_MAX_COMMAND_ATTEMPTS : Z;
  SETTING_MAX_CONNECT_ATTEMPTS : Z;
  SETTING_NOTIFICATION_DELAY : Z;
  MotionCharacteristic_COMMAND : string;
  MotionCharacteristic_NOTIFICATION : string;
  MotionCommandType_USER_QUERY : string;
  MotionCommandType_SET_KEY : string;
  MotionCommandType_STATUS_QUERY : string;
  MotionCommandType_POINT_SET_QUERY : string;
  MotionCommandType_SPEED : string;
  MotionCommandType_PERCENT : string;
  MotionCommandType_OPEN : string;
  MotionCommandType_CLOSE : string;
  MotionCommandType_STOP : string;
  MotionCommandType_FAVORITE : string;
  MotionCommandType_ANGLE : string;
  MotionNotificationType_PERCENT : string;
  MotionNotificationType_RUNNING : string;
  MotionNotificationType_STATUS : string;
  (** Whether [MotionSpeedLevel(v)] finds a member with value [v]. *)
  MotionSpeedLevel_has_value : Z -> bool
}.

(** [MotionCrypt]: the cipher on hexadecimal text, and the time stamp
    appended to every command, as a function of the clock reading. *)
Class MotionCrypt : Type := {
  encrypt : string -> string;
  decrypt : string -> string;
  get_time : Z -> string
}.

(* ================================================================== *)
(** ** [MotionDevice] *)
(* ================================================================== *)

Section Device.

Context {K : Const} {crypt : MotionCrypt}.

Local Open Scope sync_scope.

(** [_set_connection] *)
Definition _set_connection (connection_type : MotionConnectionType) : M unit :=
  d <- self ;;
  (if _connection_callback d
   then emit (ConnectionCallback connection_type)
   else ret tt) ;;
  set_self (with_connection_type connection_type).

(** [_cancel_disconnect_timer]: a timer object is always truthy; the
    host's cancel callable is called, a [TimerHandle] is cancelled. *)
Definition _cancel_disconnect_timer : M unit :=
  d <- self ;;
  match _disconnect_timer d with
  | Some (HaCancel id) => emit (TimerCancelled (HaCancel id))
  | Some (LoopTimerHandle id) => emit (TimerCancelled (LoopTimerHandle id))
  | None => ret tt
  end.

(** The value of [float(n)] for an [int] [n]: [n] rounded to 53
    significant bits, ties to even. *)
Definition float_of_int (n : Z) : Z :=
  let a := Z.abs n in
  let e := Z.log2 a - 52 in
  let r := if e <=? 0 then a else Py.round_half_even a (- e) * 2 ^ e in
  if n <? 0 then - r else r.

(** [time_ns() // 1e6 + timeout * 1e3], in milliseconds.  The source
    computes it in binary64; the quotient, the product and the sum are
    integers below [2^53], which binary64 represents exactly, so only the
    conversion of [time_ns()] to a float rounds. *)
Definition new_disconnect_time_of (now_ns timeout : Z) : Z :=
  float_of_int now_ns / 1000000 + timeout * 1000.

(** [SETTING_DISCONNECT_TIME if timeout is None else timeout] *)
Definition seconds_of (timeout : option Z) : Z :=
  match timeout with None => SETTING_DISCONNECT_TIME | Some t => t end.

(** [refresh_disconnect_timer] *)
Definition refresh_disconnect_timer (timeout : option Z) (force : bool) : M unit :=
  let timeout := seconds_of timeout in
  now <- time_ns ;;
  let new_disconnect_time := new_disconnect_time_of now timeout in
  d <- self ;;
  keep <- (if negb force then
             match _disconnect_timer d with
             | Some _ =>
                 match _disconnect_time d with
                 | Some current => ret (current >? new_disconnect_time)
                 | None => raise TypeError
                 end
             | None => ret false
             end
           else ret false) ;;
  if (keep : bool) then ret tt
  else
    _cancel_disconnect_timer ;;
    d <- self ;;
    set_self (with_disconnect_timer (Some new_disconnect_time) (_disconnect_timer d)) ;;
    id <- fresh ;;
    let timer := if _ha_call_later d then HaCancel id else LoopTimerHandle id in
    emit (TimerArmed timer timeout) ;;
    set_self (with_disconnect_timer (Some new_disconnect_time) (Some timer)).

Definition item (xs : list Z) (i : nat) : M Z :=
  match Py.index xs i with
  | Some x => ret x
  | None => raise IndexError
  end.

(** [round(a / b)] for integers [a] and [b]. *)
Definition round_div (a b : Z) : M Z :=
  match Py.round (Py.truediv a b) with
  | Some r => ret r
  | None => raise ValueError
  end.

(** The assignment
    [self.end_position_info = MotionPositionInfo(m[4], int.from_bytes([m[6], m[7]]))]. *)
Definition set_end_position_info (message_bytes : list Z) : M unit :=
  b4 <- item message_bytes 4 ;;
  b6 <- item message_bytes 6 ;;
  b7 <- item message_bytes 7 ;;
  set_self (with_end_position_info
              (Some (new_MotionPositionInfo b4 (Py.int_from_bytes [b6; b7])))).

Definition current_end_position_info : M MotionPositionInfo :=
  d <- self ;;
  match end_position_info d with
  | Some info => ret info
  | None => raise TypeError
  end.

(** [_notification_callback] *)
Definition _notification_callback (byte_array : list Z) : M unit :=
  let decrypted_message := decrypt (Py.bytes_hex byte_array) in
  match Py.fromhex decrypted_message with
  | None => raise ValueError
  | Some decrypted_message_bytes =>
      d <- self ;;
      if Py.startswith decrypted_message MotionNotificationType_PERCENT
         && _position_callback d
      then
        set_end_position_info decrypted_message_bytes ;;
        position_percentage <- item decrypted_message_bytes 6 ;;
        angle <- item decrypted_message_bytes 7 ;;
        angle_percentage <- round_div (100 * angle) 180 ;;
        info <- current_end_position_info ;;
        emit (PositionCallback position_percentage angle_percentage info)
      else if Py.startswith decrypted_message MotionNotificationType_RUNNING
              && _running_callback d
      then
        _ <- item decrypted_message_bytes 5 ;;
        ret tt
      else if Py.startswith decrypted_message MotionNotificationType_STATUS
              && _status_callback d
      then
        position_percentage <- item decrypted_message_bytes 6 ;;
        angle <- item decrypted_message_bytes 7 ;;
        angle_percentage <- round_div (100 * angle) 180 ;;
        battery_percentage <- item decrypted_message_bytes 17 ;;
        set_end_position_info decrypted_message_bytes ;;
        code <- item decrypted_message_bytes 12 ;;
        let speed_level :=
          if MotionSpeedLevel_has_value code then Some code else None in
        info <- current_end_position_info ;;
        emit (StatusCallback position_percentage angle_percentage
                             battery_percentage speed_level info)
      else ret tt
  end.

(** [_disconnect_callback] *)
Definition _disconnect_callback : M unit :=
  _set_connection DISCONNECTED ;;
  set_self (with_current_bleak_client None).

(** [is_connected] *)
Definition is_connected : M bool :=
  d <- self ;;
  ret match _current_bleak_client d with
      | Some c => is_connected_now c
      | None => false
      end.

Local Close Scope sync_scope.
Local Open Scope coro_scope.

(** [disconnect] *)
Definition disconnect : Coro unit :=
  call (_set_connection DISCONNECTING) ;;
  d <- call self ;;
  match _connection_task d with
  | Some t =>
      call (emit (TaskCancelRequested t)) ;;
      call _cancel_disconnect_timer ;;
      call (set_self (with_connection_task None))
  | None => Ret tt
  end ;;
  d <- call self ;;
  match _current_bleak_client d with
  | Some c =>
      call _cancel_disconnect_timer ;;
      await (ClientDisconnect c) ;;
      call (set_self (with_current_bleak_client None))
  | None => Ret tt
  end ;;
  call (_set_connection DISCONNECTED).

Definition value_truthy (v : value) : bool :=
  match v with
  | VNone => false
  | VBool b => b
  | VClient _ => true
  end.

Definition same_time (recorded : option Z) (t : Z) : bool :=
  match recorded with
  | Some r => r =? t
  | None => false
  end.

(** [_connect_if_not_connecting].  The [try] block either returns from
    the function ([Some b]) or falls through ([None]). *)
Definition _connect_if_not_connecting (use_notification_delay : bool) : Coro bool :=
  this_connection_caller_time <- call time_ns ;;
  call (set_self (with_last_connection_caller_time (Some this_connection_caller_time))) ;;
  d <- call self ;;
  match _connection_task d with
  | None =>
      id <- call fresh ;;
      let t := {| task_id := id;
                  task_use_notification_delay := use_notification_delay;
                  task_by_ha := _ha_create_task d |} in
      call (emit (TaskCreated t)) ;;
      call (set_self (with_connection_task (Some t)))
  | Some _ => Ret tt
  end ;;
  d <- call self ;;
  returned <-
    try_except
      (match _connection_task d with
       | Some t =>
           ready <- await (AwaitTask t) ;;
           if negb (value_truthy ready) then Ret (Some false) else Ret None
       | None => Throw TypeError
       end)
      (fun e =>
         match e with
         | BleakOutOfConnectionSlotsError | BleakNotFoundError =>
             Some (call (_set_connection DISCONNECTED) ;;
                   call (set_self (with_connection_task None)) ;;
                   Throw e)
         | CancelledError =>
             Some (call (_set_connection DISCONNECTED) ;;
                   call (set_self (with_connection_task None)) ;;
                   Ret (Some false))
         | _ => None
         end) ;;
  match returned with
  | Some b => Ret b
  | None =>
      call (set_self (with_connection_task None)) ;;
      d <- call self ;;
      let is_last_caller :=
        same_time (_last_connection_caller_time d) this_connection_caller_time in
      Ret is_last_caller
  end.

(** [connect] *)
Definition connect (use_notification_delay : bool) : Coro bool :=
  connected <- call is_connected ;;
  if negb connected
  then _connect_if_not_connecting use_notification_delay
  else call (refresh_disconnect_timer None false) ;; Ret true.

(** One pass of the [while] loop of [_send_command] for each unit of
    [remaining], which counts
    [SETTING_MAX_COMMAND_ATTEMPTS - number_of_tries]: the loop test
    [number_of_tries < SETTING_MAX_COMMAND_ATTEMPTS] holds exactly when
    it is not zero.  The [try] block either returns from the function
    ([Some r]) or ends the pass ([None]); falling out of the loop
    returns Python's [None]. *)
Fixpoint _send_command_loop (command : string) (remaining : nat)
    (number_of_tries : Z) : Coro (option bool) :=
  match remaining with
  | O => Ret None
  | S remaining' =>
      returned <-
        try_except
          (d <- call self ;;
           match _current_bleak_client d with
           | Some c =>
               match Py.fromhex command with
               | Some data =>
                   await (WriteGattChar c MotionCharacteristic_COMMAND data) ;;
                   Ret (Some (Some true))
               | None => Throw ValueError
               end
           | None => Ret (Some (Some false))
           end)
          (fun e =>
             if isinstance_BleakError e then
               Some (if number_of_tries =? SETTING_MAX_COMMAND_ATTEMPTS
                     then disconnect ;; Throw e
                     else Ret None)
             else None) ;;
      match returned with
      | Some r => Ret r
      | None => _send_command_loop command remaining' (number_of_tries + 1)
      end
  end.

(** [_send_command] *)
Definition _send_command (command_prefix : string) (connection_command : bool)
  : Coro (option bool) :=
  now <- call time_ns ;;
  let command := encrypt (command_prefix ++ get_time now) in
  _send_command_loop command (Z.to_nat SETTING_MAX_COMMAND_ATTEMPTS) 0.

(** *** Decorators *)

(** [requires_end_positions]: the wrapper's own parameter
    [ignore_end_positions_not_set] comes first, the rest is handed to
    the wrapped function. *)
Definition requires_end_positions {A} (func : A -> Coro (option bool))
  : bool * A -> Coro (option bool) :=
  fun '(ignore_end_positions_not_set, args) =>
    d <- call self ;;
    if match end_position_info d with
       | Some info => negb (UP info) && negb ignore_end_positions_not_set
       | None => false
       end
    then Throw NoEndPositionsException
    else func args.

(** [requires_favorite_position] *)
Definition requires_favorite_position {A} (func : A -> Coro (option bool))
  : A -> Coro (option bool) :=
  fun args =>
    d <- call self ;;
    if match end_position_info d with
       | Some info => negb (UP info) && negb (Py.truthy (FAVORITE info))
       | None => false
       end
    then Throw NoFavoritePositionException
    else func args.

(** [requires_connection] *)
Definition requires_connection {A} (func : A -> Coro (option bool))
  : A -> Coro (option bool) :=
  fun args =>
    ready <- connect false ;;
    if negb ready then Ret (Some false) else func args.

(** *** Commands: the functions as written, before decoration *)

Definition two_hex_digits (n : Z) : string :=
  Py.zfill 2 (Py.slice_from 2 (Py.hex n)).

Definition user_query__wrapped (_ : unit) : Coro (option bool) :=
  _send_command MotionCommandType_USER_QUERY true.

Definition set_key__wrapped (_ : unit) : Coro (option bool) :=
  _send_command MotionCommandType_SET_KEY true.

Definition status_query__wrapped (_ : unit) : Coro (option bool) :=
  _send_command MotionCommandType_STATUS_QUERY true.

Definition point_set_query__wrapped (_ : unit) : Coro (option bool) :=
  _send_command MotionCommandType_POINT_SET_QUERY true.

Definition speed__wrapped (speed_level : Z) : Coro (option bool) :=
  _send_command (MotionCommandType_SPEED ++ two_hex_digits speed_level) false.

Definition percentage_command_prefix (percentage : Z) : string :=
  MotionCommandType_PERCENT ++ two_hex_digits percentage ++ "00".

Definition percentage__wrapped (percentage : Z) : Coro (option bool) :=
  if negb (percentage <? 0) && negb (percentage >? 100)
  then _send_command (percentage_command_prefix percentage) false
  else Throw AssertionError.

Definition open__wrapped (_ : unit) : Coro (option bool) :=
  _send_command MotionCommandType_OPEN false.

Definition close__wrapped (_ : unit) : Coro (option bool) :=
  _send_command MotionCommandType_CLOSE false.

Definition stop__wrapped (_ : unit) : Coro (option bool) :=
  _send_command MotionCommandType_STOP false.

Definition favorite__wrapped (_ : unit) : Coro (option bool) :=
  _send_command MotionCommandType_FAVORITE false.

Definition percentage_tilt__wrapped (percentage : Z) : Coro (option bool) :=
  angle <- call (round_div (180 * percentage) 100) ;;
  _send_command (MotionCommandType_ANGLE ++ "00" ++ two_hex_digits angle) false.

Definition open_tilt__wrapped (_ : unit) : Coro (option bool) :=
  _send_command (MotionCommandType_ANGLE ++ "00" ++ two_hex_digits 0) false.

Definition close_tilt__wrapped (_ : unit) : Coro (option bool) :=
  _send_command (MotionCommandType_ANGLE ++ "00" ++ two_hex_digits 180) false.

(** *** Commands: the decorated methods *)

(** A decorated method takes its arguments as its outermost wrapper hands
    them on.  For a movement command that is the pair of
    [ignore_end_positions_not_set], which the wrapper of
    [requires_end_positions] binds for itself, and of what goes on to the
    method as written (in a call, its keyword arguments). *)

Definition user_query := requires_connection user_query__wrapped.
Definition set_key := requires_connection set_key__wrapped.
Definition status_query := requires_connection status_query__wrapped.
Definition point_set_query := requires_connection point_set_query__wrapped.
Definition speed := requires_connection speed__wrapped.
Definition percentage :=
  requires_connection (requires_end_positions percentage__wrapped).
Definition open := requires_connection (requires_end_positions open__wrapped).
Definition close := requires_connection (requires_end_positions close__wrapped).
Definition stop := requires_connection (requires_end_positions stop__wrapped).
Definition favorite :=
  requires_connection (requires_favorite_position favorite__wrapped).
Definition percentage_tilt :=
  requires_connection (requires_end_positions percentage_tilt__wrapped).
Definition open_tilt :=
  requires_connection (requires_end_positions open_tilt__wrapped).
Definition close_tilt :=
  requires_connection (requires_end_positions close_tilt__wrapped).

(** [_connect]: the body of the connection task. *)
Definition _connect (use_notification_delay : bool) : Coro bool :=
  d <- call self ;;
  match _connection_type d with
  | CONNECTING => Ret false
  | _ =>
      call (_set_connection CONNECTING) ;;
      established <- await (EstablishConnection SETTING_MAX_CONNECT_ATTEMPTS) ;;
      match established with
      | VClient bleak_client =>
          call (set_self (with_current_bleak_client (Some bleak_client))) ;;
          call (_set_connection CONNECTED) ;;
          await (StartNotify bleak_client MotionCharacteristic_NOTIFICATION) ;;
          set_key tt ;;
          (if use_notification_delay
           then await (Sleep SETTING_NOTIFICATION_DELAY) ;; Ret tt
           else Ret tt) ;;
          status_query tt ;;
          call (emit (SetDisconnectedCallback bleak_client)) ;;
          call (refresh_disconnect_timer None false) ;;
          Ret true
      | _ => Throw TypeError
      end
  end.

(** The coroutine a task runs. *)
Definition task_body (t : Task) : Coro bool :=
  _connect (task_use_notification_delay t).

End Device.

(* ================================================================== *)
(** ** Several callers on one event loop *)
(* ================================================================== *)

(** The event loop runs one coroutine at a time, from one [await] to the
    next.  Several callers of the same device are therefore a list of
    suspended coroutines sharing one [World]. *)

Definition awaited {A} (s : Susp A) : option awaitable :=
  match s with
  | Done _ => None
  | Blocked a _ => Some a
  end.

Definition finished {A} (s : Susp A) : option (result A) :=
  match s with
  | Done r => Some r
  | Blocked _ _ => None
  end.

(** The awaited operation ends with [o]: the suspended coroutine runs on
    to its next [await]. *)
Definition resume {A} (s : Susp A) (o : outcome) (w : World) : Susp A * World :=
  match s with
  | Done r => (Done r, w)
  | Blocked _ k => step (k o) w
  end.

(** The waiters of one operation are resumed in the order they started
    to wait. *)
Fixpoint resume_all {A} (ss : list (Susp A)) (o : outcome) (w : World)
  : list (Susp A) * World :=
  match ss with
  | [] => ([], w)
  | s :: ss' =>
      let (s1, w1) := resume s o w in
      let (rest, w2) := resume_all ss' o w1 in
      (s1 :: rest, w2)
  end.

(** An awaited transport operation that raised [BleakError] (or one of
    its subclasses). *)
Definition is_bleak_failure (o : outcome) : bool :=
  match o with
  | Raises e => isinstance_BleakError e
  | Returns _ => false
  end.

Definition task_eqb (a b : Task) : bool :=
  Nat.eqb (task_id a) (task_id b)
  && Bool.eqb (task_use_notification_delay a) (task_use_notification_delay b)
  && Bool.eqb (task_by_ha a) (task_by_ha b).

Definition cancel_requested (t : Task) (l : list event) : bool :=
  existsb (fun e => match e with
                    | TaskCancelRequested t' => task_eqb t t'
                    | _ => false
                    end) l.

Definition tasks_created (l : list event) : list Task :=
  flat_map (fun e => match e with TaskCreated t => [t] | _ => [] end) l.

Definition is_write (e : event) : bool :=
  match e with
  | Awaited (WriteGattChar _ _ _) => true
  | _ => false
  end.

Definition is_client_disconnect (e : event) : bool :=
  match e with
  | Awaited (ClientDisconnect _) => true
  | _ => false
  end.

(** What awaiting task [t] yields: [CancelledError] once [t.cancel()] has
    been called on the running task (the body of [_connect] has no
    handler for it), otherwise what the body of the task ended with. *)
Definition task_outcome (t : Task) (body_outcome : outcome) (w : World) : outcome :=
  if cancel_requested t (log w) then Raises CancelledError else body_outcome.

Section Scenarios.

Context {K : Const} {crypt : MotionCrypt}.

(** Callers call [connect] one after the other, each running up to its
    first [await]; [flags] are their [use_notification_delay] arguments.
    Each suspended caller is listed with the clock reading it took. *)
Fixpoint connect_calls (flags : list bool) (w : World)
  : list (Susp bool * Z) * World :=
  match flags with
  | [] => ([], w)
  | flag :: flags' =>
      let (s, w1) := step (connect flag) w in
      let (rest, w2) := connect_calls flags' w1 in
      ((s, clock w (ticks w)) :: rest, w2)
  end.

(** What [is_connected] reads in world [w]. *)
Definition connected (w : World) : bool :=
  match _current_bleak_client (dev w) with
  | Some c => is_connected_now c
  | None => false
  end.

(** The task [_connect_if_not_connecting] creates in world [w]. *)
Definition first_task (use_notification_delay : bool) (w : World) : Task :=
  {| task_id := next_id w;
     task_use_notification_delay := use_notification_delay;
     task_by_ha := _ha_create_task (dev w) |}.

(** Between two calls of [connect] the event loop runs other code, among
    it the body of the connection task.  None of it assigns
    [_connection_task] or [_last_connection_caller_time] or creates a
    task: the only place that does is [_connect_if_not_connecting]. *)
Definition coordinator_untouched (w w' : World) : Prop :=
  _connection_task (dev w') = _connection_task (dev w)
  /\ _last_connection_caller_time (dev w') = _last_connection_caller_time (dev w)
  /\ tasks_created (log w') = tasks_created (log w).

(** [coalescing t w0 waiters w]: starting in world [w0], where the device
    is not connected and no connection attempt is in flight, callers have
    called [connect] while the device was not connected, and the world is
    now [w].  [waiters] lists, in calling order, each suspended caller
    with the clock reading it took; [t] is the connection task. *)
Inductive coalescing (t : Task) : World -> list (Susp bool * Z) -> World -> Prop :=
| coalescing_first flag w s w' :
    connected w = false ->
    _connection_task (dev w) = None ->
    t = first_task flag w ->
    step (connect flag) w = (s, w') ->
    coalescing t w [(s, clock w (ticks w))] w'
| coalescing_join flag w0 waiters w s w' :
    coalescing t w0 waiters w ->
    connected w = false ->
    step (connect flag) w = (s, w') ->
    coalescing t w0 (waiters ++ [(s, clock w (ticks w))])%list w'
| coalescing_elsewhere w0 waiters w w' :
    coalescing t w0 waiters w ->
    coordinator_untouched w w' ->
    coalescing t w0 waiters w'.

(** What the callers returned, once all have finished. *)
Definition returned (ss : list (Susp bool)) : list (option (result bool)) :=
  map finished ss.

(** [disconnect()] is called while [waiters] wait for task [t]: it runs
    to its [await] (if it has one); the cancelled task ends and its
    waiters resume; the transport's disconnect ends with [o] and
    [disconnect] runs on. *)
Definition disconnect_waiters_first (waiters : list (Susp bool)) (t : Task)
    (body_outcome o : outcome) (w : World)
  : Susp unit * list (Susp bool) * World :=
  let (d1, w1) := step disconnect w in
  let (rs, w2) := resume_all waiters (task_outcome t body_outcome w1) w1 in
  let (d2, w3) := resume d1 o w2 in
  (d2, rs, w3).

(** The same, with the waiters resuming only after [disconnect] has
    ended. *)
Definition disconnect_waiters_last (waiters : list (Susp bool)) (t : Task)
    (body_outcome o : outcome) (w : World)
  : Susp unit * list (Susp bool) * World :=
  let (d1, w1) := step disconnect w in
  let (d2, w2) := resume d1 o w1 in
  let (rs, w3) := resume_all waiters (task_outcome t body_outcome w2) w2 in
  (d2, rs, w3).

(** The commands guarded by [requires_end_positions]. *)
Inductive Movement : Type :=
| Open
| Close
| Stop
| Percentage (percentage : Z)
| PercentageTilt (percentage : Z)
| OpenTilt
| CloseTilt.

(** The method as written. *)
Definition wrapped (m : Movement) : Coro (option bool) :=
  match m with
  | Open => open__wrapped tt
  | Close => close__wrapped tt
  | Stop => stop__wrapped tt
  | Percentage p => percentage__wrapped p
  | PercentageTilt p => percentage_tilt__wrapped p
  | OpenTilt => open_tilt__wrapped tt
  | CloseTilt => close_tilt__wrapped tt
  end.

(** The method under [requires_end_positions] only. *)
Definition guarded (m : Movement) (ignore_end_positions_not_set : bool)
  : Coro (option bool) :=
  match m with
  | Open => requires_end_positions open__wrapped (ignore_end_positions_not_set, tt)
  | Close => requires_end_positions close__wrapped (ignore_end_positions_not_set, tt)
  | Stop => requires_end_positions stop__wrapped (ignore_end_positions_not_set, tt)
  | Percentage p =>
      requires_end_positions percentage__wrapped (ignore_end_positions_not_set, p)
  | PercentageTilt p =>
      requires_end_positions percentage_tilt__wrapped (ignore_end_positions_not_set, p)
  | OpenTilt => requires_end_positions open_tilt__wrapped (ignore_end_positions_not_set, tt)
  | CloseTilt => requires_end_positions close_tilt__wrapped (ignore_end_positions_not_set, tt)
  end.

(** The method as the device exposes it. *)
Definition issue (m : Movement) (ignore_end_positions_not_set : bool)
  : Coro (option bool) :=
  match m with
  | Open => open (ignore_end_positions_not_set, tt)
  | Close => close (ignore_end_positions_not_set, tt)
  | Stop => stop (ignore_end_positions_not_set, tt)
  | Percentage p => percentage (ignore_end_positions_not_set, p)
  | PercentageTilt p => percentage_tilt (ignore_end_positions_not_set, p)
  | OpenTilt => open_tilt (ignore_end_positions_not_set, tt)
  | CloseTilt => close_tilt (ignore_end_positions_not_set, tt)
  end.

(** The end-position guard would stop a command issued now. *)
Definition guard_fails (ignore_end_positions_not_set : bool) (w : World) : bool :=
  match end_position_info (dev w) with
  | Some info => negb (UP info) && negb ignore_end_positions_not_set
  | None => false
  end.

End Scenarios.

(* ================================================================== *)
(** ** Pending timers *)
(* ================================================================== *)

Definition timer_eqb (a b : DisconnectTimer) : bool :=
  match a, b with
  | HaCancel i, HaCancel j => Nat.eqb i j
  | LoopTimerHandle i, LoopTimerHandle j => Nat.eqb i j
  | _, _ => false
  end.

(** The timers that the log shows armed and not cancelled since: the
    ones that are pending or have fired. *)
Definition pending_timers (l : list event) : list DisconnectTimer :=
  fold_left (fun pending e =>
               match e with
               | TimerArmed t _ => (pending ++ [t])%list
               | TimerCancelled t => filter (fun t' => negb (timer_eqb t t')) pending
               | _ => pending
               end) l [].

(** The device knows about every timer it has left armed: there is at
    most one, and it is the one recorded in [_disconnect_timer]. *)
Definition timers_tracked (w : World) : Prop :=
  match pending_timers (log w) with
  | [] => True
  | [t] => _disconnect_timer (dev w) = Some t
  | _ => False
  end.

(** The guard of [requires_favorite_position] would stop a command issued
    now. *)
Definition favorite_guard_fails (w : World) : bool :=
  match end_position_info (dev w) with
  | Some info => negb (UP info) && negb (Py.truthy (FAVORITE info))
  | None => false
  end.

(** The write events of a log. *)
Definition writes (l : list event) : list event := filter is_write l.

(** The operations the device has awaited, in order. *)
Definition awaits (l : list event) : list awaitable :=
  flat_map (fun e => match e with Awaited a => [a] | _ => [] end) l.

(* ================================================================== *)
(** ** Calls of the movement methods *)
(* ================================================================== *)

(** The arguments of a call [device.method(a1, ..., an, k1=v1, ...)]:
    the positional values and the keyword arguments, of which a call has
    at most one per name.  The values are [bool]s and [int]s. *)
Record Call : Type := {
  positional : list Py.pyval;
  keywords : list (string * Py.pyval)
}.

Fixpoint keyword (name : string) (kw : list (string * Py.pyval)) : option Py.pyval :=
  match kw with
  | [] => None
  | (k, v) :: kw' => if String.eqb k name then Some v else keyword name kw'
  end.

Fixpoint without (name : string) (kw : list (string * Py.pyval))
  : list (string * Py.pyval) :=
  match kw with
  | [] => []
  | (k, v) :: kw' =>
      if String.eqb k name then without name kw' else (k, v) :: without name kw'
  end.

(** A [bool] or [int] used as a number: [True] is 1 and [False] is 0. *)
Definition number_of (v : Py.pyval) : Z :=
  match v with
  | Py.PyBool b => if b then 1 else 0
  | Py.PyInt z => z
  end.

(** How [wrapper(self, ignore_end_positions_not_set=False, *args,
    **kwargs)], called as [wrapper(self, *args, **kwargs)], binds its
    parameter: to the first positional argument if there is one, else to
    the keyword argument of that name, else to the default.  The result
    is the flag and what is left for [*args] and [**kwargs]; [None]
    stands for the [TypeError] of a parameter given twice. *)
Definition bind_wrapper (c : Call) : option (Py.pyval * Call) :=
  match keyword "self" (keywords c) with
  | Some _ => None
  | None =>
      match positional c with
      | flag :: rest =>
          match keyword "ignore_end_positions_not_set" (keywords c) with
          | Some _ => None
          | None => Some (flag, {| positional := rest; keywords := keywords c |})
          end
      | [] =>
          match keyword "ignore_end_positions_not_set" (keywords c) with
          | Some flag =>
              Some (flag,
                    {| positional := [];
                       keywords := without "ignore_end_positions_not_set" (keywords c) |})
          | None => Some (Py.PyBool false, c)
          end
      end
  end.

(** How a function [f(self, p1, ..., pn)], called as [f(self, *args,
    **kwargs)], binds its parameters, each given with its default if it
    has one: positional arguments first, then keyword arguments, then
    defaults.  [None] stands for [TypeError]: too many positional
    arguments, a parameter given twice, a required parameter missing, or
    a keyword argument that names no parameter. *)
Fixpoint bind_parameters (params : list (string * option Py.pyval))
    (args : list Py.pyval) (kwargs : list (string * Py.pyval))
  : option (list Py.pyval) :=
  match params with
  | [] =>
      match args, kwargs with
      | [], [] => Some []
      | _, _ => None
      end
  | (name, default) :: params' =>
      match args with
      | v :: args' =>
          match keyword name kwargs with
          | Some _ => None
          | None => option_map (cons v) (bind_parameters params' args' kwargs)
          end
      | [] =>
          match keyword name kwargs, default with
          | Some v, _ =>
              option_map (cons v) (bind_parameters params' [] (without name kwargs))
          | None, Some d => option_map (cons d) (bind_parameters params' [] kwargs)
          | None, None => None
          end
      end
  end.

(** The methods decorated with [requires_end_positions]. *)
Inductive Method : Type :=
| percentage_method
| open_method
| close_method
| stop_method
| percentage_tilt_method
| open_tilt_method
| close_tilt_method.

(** The parameters after [self] of each method as written. *)
Definition parameters (m : Method) : list (string * option Py.pyval) :=
  match m with
  | percentage_method | percentage_tilt_method =>
      [("percentage", None);
       ("ignore_end_positions_not_set", Some (Py.PyBool false))]
  | stop_method => []
  | open_method | close_method | open_tilt_method | close_tilt_method =>
      [("ignore_end_positions_not_set", Some (Py.PyBool false))]
  end.

Section Calls.

Context {K : Const} {crypt : MotionCrypt}.

(** The wrapper of [requires_connection], called with the arguments of
    the call: a keyword argument named [self] collides with the bound
    [self]. *)
Definition requires_connection_wrapper (func : Call -> Coro (option bool))
  : Call -> Coro (option bool) :=
  fun c =>
    match keyword "self" (keywords c) with
    | Some _ => Throw TypeError
    | None => requires_connection func c
    end.

(** The wrapper of [requires_end_positions], called with the arguments
    the outer wrapper hands on: it binds its flag, tests its truth value
    and hands the rest on. *)
Definition requires_end_positions_wrapper (func : Call -> Coro (option bool))
  : Call -> Coro (option bool) :=
  fun c =>
    match bind_wrapper c with
    | Some (flag, rest) => requires_end_positions func (Py.truthy flag, rest)
    | None => Throw TypeError
    end.

(** The method as written, run on the values bound to its parameters. *)
Definition method_body (m : Method) (values : list Py.pyval) : Coro (option bool) :=
  match m, values with
  | percentage_method, [percentage; _] => percentage__wrapped (number_of percentage)
  | percentage_tilt_method, [percentage; _] =>
      percentage_tilt__wrapped (number_of percentage)
  | open_method, [_] => open__wrapped tt
  | close_method, [_] => close__wrapped tt
  | stop_method, [] => stop__wrapped tt
  | open_tilt_method, [_] => open_tilt__wrapped tt
  | close_tilt_method, [_] => close_tilt__wrapped tt
  | _, _ => Throw TypeError
  end.

(** A call [device.m(...)] of a movement method: the wrapper of
    [requires_connection], then the wrapper of [requires_end_positions],
    then the method as written. *)
Definition invoke (m : Method) : Call -> Coro (option bool) :=
  requires_connection_wrapper
    (requires_end_positions_wrapper
       (fun c =>
          match bind_parameters (parameters m) (positional c) (keywords c) with
          | Some values => method_body m values
          | None => Throw TypeError
          end)).

(** The method a movement command is a call of. *)
Definition method_of (m : Movement) : Method :=
  match m with
  | Open => open_method
  | Close => close_method
  | Stop => stop_method
  | Percentage _ => percentage_method
  | PercentageTilt _ => percentage_tilt_method
  | OpenTilt => open_tilt_method
  | CloseTilt => close_tilt_method
  end.

(** The call of a movement command with every argument passed by
    keyword: the percentage, if the command has one, and the flag, if
    the caller gives it. *)
Definition keyword_call (m : Movement) (flag : option Py.pyval) : Call :=
  {| positional := [];
     keywords :=
       (match m with
        | Percentage p | PercentageTilt p => [("percentage", Py.PyInt p)]
        | _ => []
        end
        ++ match flag with
           | Some f => [("ignore_end_positions_not_set", f)]
           | None => []
           end)%list |}.

End Calls.

(* ================================================================== *)
(** ** Sample values *)
(* ================================================================== *)

(** A sample assignment of the constants and a transparent cipher, for
    evaluating the definitions on concrete inputs. *)
Definition sample_const : Const := {|
  SETTING_DISCONNECT_TIME := 15;
  SETTING_MAX_COMMAND_ATTEMPTS := 3;
  SETTING_MAX_CONNECT_ATTEMPTS := 5;
  SETTING_NOTIFICATION_DELAY := 1;
  MotionCharacteristic_COMMAND := "d973f2e2-b19e-11e2-9e96-0800200c9a66";
  MotionCharacteristic_NOTIFICATION := "d973f2e1-b19e-11e2-9e96-0800200c9a66";
  MotionCommandType_USER_QUERY := "02c005";
  MotionCommandType_SET_KEY := "02c001";
  MotionCommandType_STATUS_QUERY := "03050f02";
  MotionCommandType_POINT_SET_QUERY := "03050f03";
  MotionCommandType_SPEED := "0403010a";
  MotionCommandType_PERCENT := "05020440";
  MotionCommandType_OPEN := "03020301";
  MotionCommandType_CLOSE := "03020302";
  MotionCommandType_STOP := "03020303";
  MotionCommandType_FAVORITE := "03020306";
  MotionCommandType_ANGLE := "05020420";
  MotionNotificationType_PERCENT := "07040402";
  MotionNotificationType_RUNNING := "070404021e";
  MotionNotificationType_STATUS := "12040f02";
  MotionSpeedLevel_has_value := fun v => (1 <=? v) && (v <=? 3)
|}.

Definition sample_crypt : MotionCrypt := {|
  encrypt := fun s => s;
  decrypt := fun s => s;
  get_time := fun _ => "17010a0c1e00"
|}.

(** A freshly constructed device: every attribute at its class default. *)
Definition new_device : MotionDevice := {|
  end_position_info := None;
  _current_bleak_client := None;
  _connection_type := DISCONNECTED;
  _disconnect_time := None;
  _disconnect_timer := None;
  _ha_create_task := false;
  _ha_call_later := false;
  _position_callback := false;
  _running_callback := false;
  _connection_callback := false;
  _status_callback := false;
  _connection_task := None;
  _last_connection_caller_time := None
|}.

(** A clock that advances by one microsecond between readings. *)
Definition sample_clock (n : nat) : Z := 1700000000000000000 + 1000 * Z.of_nat n.

(** A clock too coarse to tell successive readings apart. *)
Definition coarse_clock (n : nat) : Z := 1700000000000000000.

Definition world_of (d : MotionDevice) (c : nat -> Z) : World :=
  {| dev := d; log := []; clock := c; ticks := 0; next_id := 0 |}.

Definition sample_client : BleakClient := {| client_id := 7; is_connected_now := true |}.

(** A device with every callback registered. *)
Definition listening_device : MotionDevice := {|
  end_position_info := None;
  _current_bleak_client := None;
  _connection_type := DISCONNECTED;
  _disconnect_time := None;
  _disconnect_timer := None;
  _ha_create_task := true;
  _ha_call_later := true;
  _position_callback := true;
  _running_callback := true;
  _connection_callback := true;
  _status_callback := true;
  _connection_task := None;
  _last_connection_caller_time := None
|}.

(** End-position info of a blind whose end positions are not set. *)
Definition uncalibrated : MotionPositionInfo := new_MotionPositionInfo 0 0.

(** A disconnected device that knows its end positions are not set. *)
Definition uncalibrated_device : MotionDevice :=
  with_end_position_info (Some uncalibrated) new_device.

(** A connected device whose disconnect timer was armed for a minute at
    the first reading of [sample_clock]. *)
Definition connected_device : MotionDevice :=
  with_disconnect_timer (Some 1700000060000) (Some (LoopTimerHandle 0))
    (with_connection_type CONNECTED
       (with_current_bleak_client (Some sample_client) new_device)).

(** Three callers call [connect] back to back on a new device. *)
Definition three_callers (clock : nat -> Z) : list (Susp bool * Z) * World :=
  connect_calls (K := sample_const) [false; false; false] (world_of new_device clock).

(** Three writes that each raise a [BleakError]. *)
Definition three_failures : list outcome :=
  [Raises (BleakError 1); Raises (BleakError 2); Raises (BleakError 3)].

(** A status frame: header, end-position flags [0x0c] at offset 4,
    position 50 and angle 90 at offsets 6 and 7, speed level 2 at offset
    12 and battery 80 at offset 17. *)
Definition sample_status_frame : list Z :=
  [18; 4; 15; 2; 12; 0; 50; 90; 0; 0; 0; 0; 2; 0; 0; 0; 0; 80].

(** A position frame: header, end-position flags [0x0c] at offset 4,
    position 50 at offset 6 and angle 90 at offset 7. *)
Definition sample_position_frame : list Z := [7; 4; 4; 2; 12; 0; 50; 90].

(** A device on which only the running callback is registered. *)
Definition running_listener : MotionDevice := {|
  end_position_info := None;
  _current_bleak_client := None;
  _connection_type := DISCONNECTED;
  _disconnect_time := None;
  _disconnect_timer := None;
  _ha_create_task := false;
  _ha_call_later := false;
  _position_callback := false;
  _running_callback := true;
  _connection_callback := false;
  _status_callback := false;
  _connection_task := None;
  _last_connection_caller_time := None
|}.

(** A running frame: header and running type 1 at offset 5. *)
Definition sample_running_frame : list Z := [7; 4; 4; 2; 30; 1].

(** The connected device just after its disconnect timer was armed. *)
Definition armed_world : World :=
  {| dev := connected_device;
     log := [TimerArmed (LoopTimerHandle 0) 60];
     clock := sample_clock; ticks := 0; next_id := 1 |}.

(** The bytes of the open, set-key and status-query frames of the sample
    cipher. *)
Definition sample_open_frame : list Z := [3; 2; 3; 1; 23; 1; 10; 12; 30; 0].
Definition sample_key_frame : list Z := [2; 192; 1; 23; 1; 10; 12; 30; 0].
Definition sample_query_frame : list Z := [3; 5; 15; 2; 23; 1; 10; 12; 30; 0].

(* ================================================================== *)
(** * Properties *)
(* ================================================================== *)

Unset Implicit Arguments.

(** ** Python built-ins *)

Lemma forallb_Z_range (f : Z -> bool) (n : nat) :
  forallb f (map Z.of_nat (seq 0 n)) = true ->
  forall z, 0 <= z < Z.of_nat n -> f z = true.
Proof.
  intros H z Hz.
  rewrite forallb_forall in H. apply H.
  apply in_map_iff. exists (Z.to_nat z). split.
  - lia.
  - apply in_seq. lia.
Qed.

Lemma hex_value_range c h : Py.hex_value c = Some h -> 0 <= h < 16.
Proof.
  unfold Py.hex_value. cbv zeta.
  set (n := Z.of_nat (nat_of_ascii c)).
  destruct ((48 <=? n) && (n <=? 57)) eqn:E1; [intros [= <-]; lia|].
  destruct ((97 <=? n) && (n <=? 102)) eqn:E2; [intros [= <-]; lia|].
  destruct ((65 <=? n) && (n <=? 70)) eqn:E3; [intros [= <-]; lia|discriminate].
Qed.

Lemma fromhex_bytes s :
  forall bs, Py.fromhex s = Some bs -> Forall (fun b => 0 <= b < 256) bs.
Proof.
  assert (G : forall n s, (String.length s <= n)%nat ->
              forall bs, Py.fromhex s = Some bs -> Forall (fun b => 0 <= b < 256) bs).
  { induction n as [|n IH]; intros [|c rest] Hlen bs; simpl in *; try lia.
    - intros [= <-]. constructor.
    - intros [= <-]. constructor.
    - destruct (Py.is_space c).
      + apply IH. lia.
      + destruct rest as [|d rest']; [discriminate|].
        destruct (Py.hex_value c) as [h|] eqn:Hh; [|discriminate].
        destruct (Py.hex_value d) as [l|] eqn:Hl; [|discriminate].
        destruct (Py.fromhex rest') as [bs'|] eqn:Hr; [|discriminate].
        intros [= <-]. constructor.
        * apply hex_value_range in Hh, Hl. change (0 <= 16 * h + l < 256). lia.
        * apply (IH rest'); [simpl in Hlen; lia | assumption]. }
  intros bs. apply (G (String.length s)). lia.
Qed.

Lemma nth_error_byte bs i b :
  Forall (fun b => 0 <= b < 256) bs -> nth_error bs i = Some b -> 0 <= b < 256.
Proof.
  intros HF Hn. rewrite Forall_forall in HF. apply HF.
  eapply nth_error_In; eassumption.
Qed.

(** [round(100 * a / 180)], evaluated in binary64 for every byte [a], is
    the integer nearest to the exact quotient. *)
Lemma round_angle_table :
  forallb (fun a => match Py.round (Py.truediv (100 * a) 180) with
                    | Some r => r =? (100 * a + 90) / 180
                    | None => false
                    end) (map Z.of_nat (seq 0 256)) = true.
Proof. vm_compute. reflexivity. Qed.

Lemma round_angle a :
  0 <= a < 256 -> Py.round (Py.truediv (100 * a) 180) = Some ((100 * a + 90) / 180).
Proof.
  intros Ha.
  pose proof (@forallb_Z_range _ 256 round_angle_table a Ha) as H. cbv beta in H.
  destruct (Py.round (Py.truediv (100 * a) 180)) as [r|]; [|discriminate].
  apply Z.eqb_eq in H. now subst.
Qed.

Lemma two_hex_digits_table :
  forallb (fun p => String.eqb (two_hex_digits p)
                      (String (Py.hex_digit (p / 16))
                         (String (Py.hex_digit (p mod 16)) EmptyString))
                    && match Py.fromhex (two_hex_digits p) with
                       | Some [b] => b =? p
                       | _ => false
                       end)
          (map Z.of_nat (seq 0 256)) = true.
Proof. vm_compute. reflexivity. Qed.

Lemma two_hex_digits_byte p :
  0 <= p < 256 ->
  two_hex_digits p
  = String (Py.hex_digit (p / 16)) (String (Py.hex_digit (p mod 16)) EmptyString)
  /\ Py.fromhex (two_hex_digits p) = Some [p].
Proof.
  intros Hp.
  pose proof (@forallb_Z_range _ 256 two_hex_digits_table p Hp) as H. cbv beta in H.
  apply andb_true_iff in H as [H1 H2]. apply String.eqb_eq in H1. split; [exact H1|].
  destruct (Py.fromhex (two_hex_digits p)) as [[|b [|? ?]]|]; try discriminate.
  apply Z.eqb_eq in H2. now subst.
Qed.

Example hex_of_255 : Py.hex 255 = "0xff".
Proof. reflexivity. Qed.

Example hex_of_minus_5 : Py.hex (-5) = "-0x5".
Proof. reflexivity. Qed.

Example two_hex_digits_of_7 : two_hex_digits 7 = "07".
Proof. reflexivity. Qed.

Example two_hex_digits_of_180 : two_hex_digits 180 = "b4".
Proof. reflexivity. Qed.

Example fromhex_skips_blanks : Py.fromhex "07Ff 10" = Some [7; 255; 16].
Proof. reflexivity. Qed.

Example fromhex_odd_length : Py.fromhex "07f" = None.
Proof. reflexivity. Qed.

Example round_half_to_even_down : Py.round (Py.truediv 5 2) = Some 2.
Proof. vm_compute. reflexivity. Qed.

Example round_half_to_even_up : Py.round (Py.truediv 7 2) = Some 4.
Proof. vm_compute. reflexivity. Qed.

(** [float_of_int] agrees with the binary64 conversion of a clock reading
    that does not fit in 53 bits. *)
Example float_of_clock_reading :
  Py.round (Py.int_to_float 1700000000000000123) = Some (float_of_int 1700000000000000123)
  /\ float_of_int 1700000000000000123 = 1700000000000000000
  /\ float_of_int 9007199254740993 = 9007199254740992
  /\ float_of_int 9007199254740995 = 9007199254740996.
Proof. vm_compute. repeat split; reflexivity. Qed.

(** ** Synchronous steps and runs *)

Lemma run_cbind {A B} (m : Coro A) (g : A -> Coro B) :
  forall answers w,
    run (cbind m g) answers w
    = match run m answers w with
      | Some (Returns a, w', answers') => run (g a) answers' w'
      | Some (Raises e, w', answers') => Some (Raises e, w', answers')
      | None => None
      end.
Proof.
  induction m as [a|e|X f k IH|a k IH]; intros answers w; simpl.
  - reflexivity.
  - reflexivity.
  - destruct (f w) as [x w']. apply IH.
  - destruct answers as [|o answers']; [reflexivity|]. apply IH.
Qed.

Lemma run_call {A} (m : M A) answers w :
  run (call m) answers w = Some (fst (m w), snd (m w), answers).
Proof.
  unfold call. simpl. destruct (m w) as [[a|e] w']; reflexivity.
Qed.

(** ** [MotionPositionInfo] *)

Lemma truthy_py_or a b : Py.truthy (Py.py_or a b) = Py.truthy a || Py.truthy b.
Proof.
  unfold Py.py_or. destruct (Py.truthy a) eqn:E; simpl; [exact E | reflexivity].
Qed.

Lemma favorite_bytes_split f :
  0 <= f < 65536 -> f = Z.lor (Z.land f 65280) (Z.land f 255).
Proof.
  intros Hf.
  rewrite <- Z.land_lor_distr_r.
  change (Z.lor 65280 255) with (Z.ones 16).
  rewrite Z.land_ones by lia.
  symmetry. apply Z.mod_small. lia.
Qed.

(** C6. For every 16-bit favorite field [f], the [FAVORITE] attribute of
    [MotionPositionInfo(e, f)] is truthy exactly when [f] is not zero; it
    is truthy for [0x0001], [0x0100] and [0xFFFF] and falsy for [0x0000]. *)
Theorem favorite_truthy_iff_nonzero (end_positions_byte f : Z) :
  0 <= f < 65536 ->
  (Py.truthy (FAVORITE (new_MotionPositionInfo end_positions_byte f)) = true
   <-> f <> 0)
  /\ Py.truthy (FAVORITE (new_MotionPositionInfo end_positions_byte 1)) = true
  /\ Py.truthy (FAVORITE (new_MotionPositionInfo end_positions_byte 256)) = true
  /\ Py.truthy (FAVORITE (new_MotionPositionInfo end_positions_byte 65535)) = true
  /\ Py.truthy (FAVORITE (new_MotionPositionInfo end_positions_byte 0)) = false.
Proof.
  intros Hf. split; [|repeat split; reflexivity].
  unfold new_MotionPositionInfo. cbn [FAVORITE].
  rewrite truthy_py_or. cbn [Py.truthy].
  pose proof (favorite_bytes_split f Hf) as Hsplit.
  split.
  - intros Ht ->. discriminate Ht.
  - intros Hnz.
    destruct (Z.land f 65280 =? 0) eqn:Ehi; [|reflexivity].
    destruct (Z.land f 255 =? 0) eqn:Elo; [|reflexivity].
    apply Z.eqb_eq in Ehi, Elo.
    rewrite Ehi, Elo in Hsplit. now elim Hnz.
Qed.

Lemma favorite_truthy_iff_nonzero_witness :
  Py.truthy (FAVORITE (new_MotionPositionInfo 12 256)) = true <-> 256 <> 0.
Proof.
  apply (favorite_truthy_iff_nonzero 12 256). lia.
Defined.

(** ** Notification decoder *)

Section Decoder.

Context {K : Const} {crypt : MotionCrypt}.

(** What [_notification_callback] does with a position frame of at
    least eight bytes while a position callback is registered. *)
Lemma position_frame_decoded byte_array bs b4 b6 b7 w :
  Py.fromhex (decrypt (Py.bytes_hex byte_array)) = Some bs ->
  Py.startswith (decrypt (Py.bytes_hex byte_array))
                MotionNotificationType_PERCENT = true ->
  _position_callback (dev w) = true ->
  nth_error bs 4 = Some b4 ->
  nth_error bs 6 = Some b6 ->
  nth_error bs 7 = Some b7 ->
  let info := new_MotionPositionInfo b4 (Py.int_from_bytes [b6; b7]) in
  _notification_callback byte_array w
  = (Returns tt,
     {| dev := with_end_position_info (Some info) (dev w);
        log := (log w ++ [PositionCallback b6 ((100 * b7 + 90) / 180) info])%list;
        clock := clock w; ticks := ticks w; next_id := next_id w |}).
Proof.
  intros Hhex Hpre Hcb H4 H6 H7 info.
  assert (Hb7 : 0 <= b7 < 256).
  { eapply nth_error_byte; [eapply fromhex_bytes; exact Hhex | exact H7]. }
  unfold _notification_callback. rewrite Hhex.
  unfold bind at 1. unfold self at 1. cbn [dev].
  rewrite Hpre, Hcb. cbn [andb].
  unfold set_end_position_info, item, Py.index, current_end_position_info.
  unfold bind, ret, self, set_self, emit. rewrite H4, H6, H7.
  unfold round_div. rewrite (round_angle b7 Hb7). reflexivity.
Qed.

Lemma nth_error_in_range (bs : list Z) i :
  (i < List.length bs)%nat -> exists b, nth_error bs i = Some b.
Proof.
  intros Hi. destruct (nth_error bs i) as [b|] eqn:E; [now exists b|].
  apply nth_error_None in E. lia.
Qed.

(** C5. Decoding a position frame whose angle byte is [a], [0 <= a <=
    180], hands the position callback the tilt percentage
    [round(100 * a / 180)], the integer nearest to [100 a / 180]: 0 for
    angle 0, 50 for angle 90 and 100 for angle 180. *)
Theorem position_frame_tilt_percentage byte_array bs a w :
  Py.fromhex (decrypt (Py.bytes_hex byte_array)) = Some bs ->
  Py.startswith (decrypt (Py.bytes_hex byte_array))
                MotionNotificationType_PERCENT = true ->
  _position_callback (dev w) = true ->
  nth_error bs 7 = Some a ->
  0 <= a <= 180 ->
  exists position info tilt w',
    _notification_callback byte_array w = (Returns tt, w')
    /\ log w' = (log w ++ [PositionCallback position tilt info])%list
    /\ Py.round (Py.truediv (100 * a) 180) = Some tilt
    /\ Z.abs (180 * tilt - 100 * a) < 90
    /\ 0 <= tilt <= 100
    /\ (a = 0 -> tilt = 0)
    /\ (a = 90 -> tilt = 50)
    /\ (a = 180 -> tilt = 100).
Proof.
  intros Hhex Hpre Hcb H7 Ha.
  assert (Hlen : (7 < List.length bs)%nat).
  { apply nth_error_Some. rewrite H7. discriminate. }
  destruct (nth_error_in_range bs 4) as [b4 H4]; [lia|].
  destruct (nth_error_in_range bs 6) as [b6 H6]; [lia|].
  pose proof (position_frame_decoded byte_array bs b4 b6 a w Hhex Hpre Hcb H4 H6 H7) as Hdec.
  cbv zeta in Hdec.
  eexists b6, _, ((100 * a + 90) / 180), _.
  split; [exact Hdec|]. cbn [log].
  split; [reflexivity|].
  split; [apply round_angle; lia|].
  assert (Hq : 180 * ((100 * a + 90) / 180) <= 100 * a + 90
               < 180 * ((100 * a + 90) / 180) + 180).
  { pose proof (Z.mul_div_le (100 * a + 90) 180).
    pose proof (Z.mul_succ_div_gt (100 * a + 90) 180). lia. }
  assert (Hne : 180 * ((100 * a + 90) / 180) <> 100 * a - 90).
  { intros Heq.
    assert (Hmod : (100 * a - 90) mod 20 = 10).
    { replace (100 * a - 90) with (10 + (5 * a - 5) * 20) by lia.
      rewrite Z.mod_add by lia. reflexivity. }
    rewrite <- Heq in Hmod.
    replace (180 * ((100 * a + 90) / 180))
      with (0 + (9 * ((100 * a + 90) / 180)) * 20) in Hmod by lia.
    rewrite Z.mod_add in Hmod by lia. discriminate Hmod. }
  repeat split; lia.
Qed.

(** C8, as amended. For every position frame of at least eight bytes
    that arrives while a position callback is registered, the decoder
    replaces the cached end-position info by a value computed from bytes
    4, 6 and 7 of that frame alone, changes no other attribute, and
    calls the position callback with the position percentage, the tilt
    percentage and the new info. *)
Theorem position_frame_replaces_end_position_info byte_array bs w :
  Py.fromhex (decrypt (Py.bytes_hex byte_array)) = Some bs ->
  Py.startswith (decrypt (Py.bytes_hex byte_array))
                MotionNotificationType_PERCENT = true ->
  _position_callback (dev w) = true ->
  (8 <= List.length bs)%nat ->
  exists b4 b6 b7 tilt w',
    nth_error bs 4 = Some b4 /\ nth_error bs 6 = Some b6 /\ nth_error bs 7 = Some b7
    /\ Py.round (Py.truediv (100 * b7) 180) = Some tilt
    /\ _notification_callback byte_array w = (Returns tt, w')
    /\ dev w' = with_end_position_info
                  (Some (new_MotionPositionInfo b4 (b6 * 256 + b7))) (dev w)
    /\ log w' = (log w ++ [PositionCallback b6 tilt
                             (new_MotionPositionInfo b4 (b6 * 256 + b7))])%list.
Proof.
  intros Hhex Hpre Hcb Hlen.
  destruct (nth_error_in_range bs 4) as [b4 H4]; [lia|].
  destruct (nth_error_in_range bs 6) as [b6 H6]; [lia|].
  destruct (nth_error_in_range bs 7) as [b7 H7]; [lia|].
  pose proof (position_frame_decoded byte_array bs b4 b6 b7 w Hhex Hpre Hcb H4 H6 H7) as Hdec.
  cbv zeta in Hdec.
  change (Py.int_from_bytes [b6; b7]) with ((0 * 256 + b6) * 256 + b7) in Hdec.
  replace ((0 * 256 + b6) * 256 + b7) with (b6 * 256 + b7) in Hdec by lia.
  exists b4, b6, b7, ((100 * b7 + 90) / 180). eexists.
  split; [exact H4|]. split; [exact H6|]. split; [exact H7|].
  split.
  { apply round_angle.
    eapply nth_error_byte; [eapply fromhex_bytes; exact Hhex | exact H7]. }
  split; [exact Hdec|]. split; reflexivity.
Qed.

End Decoder.

Lemma position_frame_tilt_percentage_witness :
  exists position info tilt w',
    _notification_callback (K := sample_const) (crypt := sample_crypt)
      sample_position_frame (world_of listening_device sample_clock)
    = (Returns tt, w')
    /\ log w' = (log (world_of listening_device sample_clock)
                 ++ [PositionCallback position tilt info])%list
    /\ Py.round (Py.truediv (100 * 90) 180) = Some tilt
    /\ Z.abs (180 * tilt - 100 * 90) < 90
    /\ 0 <= tilt <= 100
    /\ (90 = 0 -> tilt = 0)
    /\ (90 = 90 -> tilt = 50)
    /\ (90 = 180 -> tilt = 100).
Proof.
  apply (position_frame_tilt_percentage (K := sample_const) (crypt := sample_crypt)
           sample_position_frame sample_position_frame 90
           (world_of listening_device sample_clock)).
  - reflexivity.
  - reflexivity.
  - reflexivity.
  - reflexivity.
  - lia.
Defined.

(** C8, as stated, fails.  On the sample device with no callback
    registered, the sample position frame leaves the cached end-position
    info as it was and calls nothing; and on the device with every
    callback registered, a position frame of seven bytes raises
    [IndexError] before anything is replaced. *)
Lemma position_frame_not_always_decoded :
  (Py.startswith (decrypt (MotionCrypt := sample_crypt)
                    (Py.bytes_hex sample_position_frame))
                 (MotionNotificationType_PERCENT (Const := sample_const)) = true
   /\ _notification_callback (K := sample_const) (crypt := sample_crypt)
        sample_position_frame (world_of uncalibrated_device sample_clock)
      = (Returns tt, world_of uncalibrated_device sample_clock)
   /\ end_position_info (dev (world_of uncalibrated_device sample_clock))
      <> Some (new_MotionPositionInfo 12 (50 * 256 + 90)))
  /\ _notification_callback (K := sample_const) (crypt := sample_crypt)
       [7; 4; 4; 2; 12; 0; 50] (world_of listening_device sample_clock)
     = (Raises IndexError, world_of listening_device sample_clock).
Proof.
  repeat split; try reflexivity.
  cbn. intros [=].
Qed.

Lemma position_frame_replaces_end_position_info_witness :
  exists b4 b6 b7 tilt w',
    nth_error sample_position_frame 4 = Some b4
    /\ nth_error sample_position_frame 6 = Some b6
    /\ nth_error sample_position_frame 7 = Some b7
    /\ Py.round (Py.truediv (100 * b7) 180) = Some tilt
    /\ _notification_callback (K := sample_const) (crypt := sample_crypt)
         sample_position_frame (world_of listening_device sample_clock)
       = (Returns tt, w')
    /\ dev w' = with_end_position_info
                  (Some (new_MotionPositionInfo b4 (b6 * 256 + b7)))
                  (dev (world_of listening_device sample_clock))
    /\ log w' = (log (world_of listening_device sample_clock)
                 ++ [PositionCallback b6 tilt
                       (new_MotionPositionInfo b4 (b6 * 256 + b7))])%list.
Proof.
  apply (position_frame_replaces_end_position_info
           (K := sample_const) (crypt := sample_crypt)
           sample_position_frame sample_position_frame
           (world_of listening_device sample_clock)).
  - reflexivity.
  - reflexivity.
  - reflexivity.
  - simpl. lia.
Defined.

(** ** Precondition guards and the percentage command *)

Section Guards.

Context {K : Const} {crypt : MotionCrypt}.

Lemma run_requires_end_positions {A} (func : A -> Coro (option bool))
    ignore_end_positions_not_set args answers w :
  run (requires_end_positions func (ignore_end_positions_not_set, args)) answers w
  = if guard_fails ignore_end_positions_not_set w
    then Some (Raises NoEndPositionsException, w, answers)
    else run (func args) answers w.
Proof.
  unfold requires_end_positions, guard_fails. cbn.
  destruct (end_position_info (dev w)) as [info|]; [|reflexivity].
  destruct (negb (UP info) && negb ignore_end_positions_not_set); reflexivity.
Qed.

Lemma run_guarded m ignore_end_positions_not_set answers w :
  run (guarded m ignore_end_positions_not_set) answers w
  = if guard_fails ignore_end_positions_not_set w
    then Some (Raises NoEndPositionsException, w, answers)
    else run (wrapped m) answers w.
Proof.
  destruct m; cbn [guarded wrapped]; apply run_requires_end_positions.
Qed.

End Guards.

(** ** Disconnect timer *)

Section Timer.

Context {K : Const}.

(** A call with [force=False] on an armed timer whose deadline is later
    than the candidate only reads the clock. *)
Lemma refresh_kept timeout w timer current :
  _disconnect_timer (dev w) = Some timer ->
  _disconnect_time (dev w) = Some current ->
  current > new_disconnect_time_of (clock w (ticks w)) (seconds_of timeout) ->
  refresh_disconnect_timer timeout false w
  = (Returns tt, snd (time_ns w)).
Proof.
  intros Htimer Htime Hlater.
  unfold refresh_disconnect_timer, bind, time_ns, self, ret. cbn.
  rewrite Htimer, Htime.
  replace (current >? new_disconnect_time_of (clock w (ticks w)) (seconds_of timeout))
    with true by lia.
  reflexivity.
Qed.

(** Any other call cancels the timer, if there is one, and arms a new
    one for the candidate deadline. *)
Lemma refresh_replaced timeout force w :
  (force = true
   \/ _disconnect_timer (dev w) = None
   \/ exists current,
       _disconnect_time (dev w) = Some current
       /\ current <= new_disconnect_time_of (clock w (ticks w)) (seconds_of timeout)) ->
  let timer := if _ha_call_later (dev w)
               then HaCancel (next_id w) else LoopTimerHandle (next_id w) in
  refresh_disconnect_timer timeout force w
  = (Returns tt,
     {| dev := with_disconnect_timer
                 (Some (new_disconnect_time_of (clock w (ticks w)) (seconds_of timeout)))
                 (Some timer) (dev w);
        log := (log w
                ++ match _disconnect_timer (dev w) with
                   | Some old => [TimerCancelled old]
                   | None => []
                   end
                ++ [TimerArmed timer (seconds_of timeout)])%list;
        clock := clock w;
        ticks := S (ticks w);
        next_id := S (next_id w) |}).
Proof.
  intros Hcase timer.
  assert (Hkeep :
    (if negb force then
       match _disconnect_timer (dev w) with
       | Some _ =>
           match _disconnect_time (dev w) with
           | Some current =>
               ret (current >? new_disconnect_time_of (clock w (ticks w)) (seconds_of timeout))
           | None => raise TypeError
           end
       | None => ret false
       end
     else ret false) = ret false).
  { destruct Hcase as [-> | [-> | (current & -> & Hle)]].
    - reflexivity.
    - destruct force; reflexivity.
    - destruct force; [reflexivity|]. cbn [negb].
      destruct (_disconnect_timer (dev w)); [|reflexivity].
      replace (current >? new_disconnect_time_of (clock w (ticks w)) (seconds_of timeout))
        with false by lia.
      reflexivity. }
  unfold refresh_disconnect_timer.
  unfold bind at 1. unfold time_ns at 1.
  unfold bind at 1. unfold self at 1. cbn [dev].
  unfold bind at 1. rewrite Hkeep. unfold ret at 1.
  unfold _cancel_disconnect_timer, bind, self, set_self, emit, fresh, ret. cbn.
  destruct (_disconnect_timer (dev w)) as [[id|id]|]; cbn;
    rewrite <- ?app_assoc; reflexivity.
Qed.

(** C4. The timeout is the caller's, in seconds, or
    [SETTING_DISCONNECT_TIME] when the caller gives none, and [now +
    timeout] is, in milliseconds, the value of [time_ns() // 1e6 +
    timeout * 1e3].  With [force=False], a call on an armed timer whose
    deadline is later than [now + timeout] changes neither the device nor
    any timer, and whatever the deadlines the armed deadline never moves
    earlier; with [force=True] the call always cancels the existing
    timer, if any, and arms a new one for [timeout] seconds whose
    deadline is [now + timeout]. *)
Theorem refresh_disconnect_timer_policy timeout w :
  let seconds := match timeout with
                 | Some t => t
                 | None => SETTING_DISCONNECT_TIME
                 end in
  let candidate := float_of_int (clock w (ticks w)) / 1000000 + seconds * 1000 in
  (forall timer current,
      _disconnect_timer (dev w) = Some timer ->
      _disconnect_time (dev w) = Some current ->
      (current > candidate ->
       exists w',
         refresh_disconnect_timer timeout false w = (Returns tt, w')
         /\ dev w' = dev w /\ log w' = log w)
      /\ (exists w' deadline,
             refresh_disconnect_timer timeout false w = (Returns tt, w')
             /\ _disconnect_time (dev w') = Some deadline
             /\ current <= deadline))
  /\ (exists w' timer',
         refresh_disconnect_timer timeout true w = (Returns tt, w')
         /\ _disconnect_time (dev w') = Some candidate
         /\ _disconnect_timer (dev w') = Some timer'
         /\ log w' = (log w
                      ++ match _disconnect_timer (dev w) with
                         | Some old => [TimerCancelled old]
                         | None => []
                         end
                      ++ [TimerArmed timer' seconds])%list).
Proof.
  intros seconds candidate.
  assert (Hs : seconds = seconds_of timeout) by reflexivity.
  assert (Hc : candidate
               = new_disconnect_time_of (clock w (ticks w)) (seconds_of timeout))
    by reflexivity.
  clearbody candidate. clearbody seconds. subst seconds candidate.
  set (candidate := new_disconnect_time_of (clock w (ticks w)) (seconds_of timeout)).
  split.
  - intros timer current Htimer Htime. split.
    + intros Hlater. eexists. split; [|split].
      * apply (refresh_kept timeout w timer current Htimer Htime Hlater).
      * reflexivity.
      * reflexivity.
    + destruct (Z_gt_le_dec current candidate) as [Hlater | Hle].
      * exists (snd (time_ns w)), current. split; [|split].
        -- apply (refresh_kept timeout w timer current Htimer Htime Hlater).
        -- exact Htime.
        -- lia.
      * eexists. exists candidate. split; [|split].
        -- apply (refresh_replaced timeout false w). right. right.
           exists current. split; [exact Htime | exact Hle].
        -- reflexivity.
        -- exact Hle.
  - eexists. eexists. split; [|split; [|split]].
    + apply (refresh_replaced timeout true w). now left.
    + reflexivity.
    + reflexivity.
    + reflexivity.
Qed.

End Timer.

(** ** Command dispatcher *)

Lemma logged_nil w : logged w [] = w.
Proof. destruct w. unfold logged. cbn. now rewrite app_nil_r. Qed.

Lemma logged_logged w es1 es2 : logged (logged w es1) es2 = logged w (es1 ++ es2)%list.
Proof. unfold logged. cbn. now rewrite app_assoc. Qed.

Lemma repeat_snoc {A} (x : A) n : (x :: repeat x n = repeat x n ++ [x])%list.
Proof. induction n as [|n IH]; cbn; [reflexivity | now rewrite <- IH]. Qed.

Section Dispatcher.

Context {K : Const} {crypt : MotionCrypt}.

(** One pass of the loop whose write raises a [BleakError]: the test
    [number_of_tries == SETTING_MAX_COMMAND_ATTEMPTS] is evaluated on a
    count that the loop test has just found smaller, so the pass ends by
    counting the try. *)
Lemma send_loop_failed_pass command c data remaining number_of_tries o answers w :
  _current_bleak_client (dev w) = Some c ->
  Py.fromhex command = Some data ->
  is_bleak_failure o = true ->
  number_of_tries < SETTING_MAX_COMMAND_ATTEMPTS ->
  run (_send_command_loop command (S remaining) number_of_tries) (o :: answers) w
  = run (_send_command_loop command remaining (number_of_tries + 1)) answers
        (logged w [Awaited (WriteGattChar c MotionCharacteristic_COMMAND data)]).
Proof.
  intros Hc Hhex Ho Hlt.
  destruct o as [v|e]; [discriminate Ho|]. cbn in Ho.
  cbn [_send_command_loop]. rewrite run_cbind.
  cbn [try_except call cbind run self]. rewrite Hc, Hhex.
  cbn [try_except await cbind run emit snd]. rewrite Ho.
  replace (number_of_tries =? SETTING_MAX_COMMAND_ATTEMPTS) with false by lia.
  reflexivity.
Qed.

(** One pass whose write succeeds returns [True]. *)
Lemma send_loop_successful_pass command c data remaining number_of_tries v answers w :
  _current_bleak_client (dev w) = Some c ->
  Py.fromhex command = Some data ->
  run (_send_command_loop command (S remaining) number_of_tries)
      (Returns v :: answers) w
  = Some (Returns (Some true),
          logged w [Awaited (WriteGattChar c MotionCharacteristic_COMMAND data)],
          answers).
Proof.
  intros Hc Hhex.
  cbn [_send_command_loop]. rewrite run_cbind.
  cbn [try_except call cbind run self]. rewrite Hc, Hhex.
  reflexivity.
Qed.

Lemma send_loop_failures command c data failures :
  forall remaining number_of_tries rest w,
    _current_bleak_client (dev w) = Some c ->
    Py.fromhex command = Some data ->
    forallb is_bleak_failure failures = true ->
    (List.length failures <= remaining)%nat ->
    number_of_tries + Z.of_nat remaining <= SETTING_MAX_COMMAND_ATTEMPTS ->
    run (_send_command_loop command remaining number_of_tries) (failures ++ rest)%list w
    = run (_send_command_loop command (remaining - List.length failures)
             (number_of_tries + Z.of_nat (List.length failures)))
          rest
          (logged w (repeat (Awaited (WriteGattChar c MotionCharacteristic_COMMAND data))
                            (List.length failures))).
Proof.
  induction failures as [|o failures IH]; intros remaining tries rest w Hc Hhex Hall Hlen Hmax.
  - cbn [List.length repeat app]. rewrite logged_nil, Nat.sub_0_r, Z.add_0_r. reflexivity.
  - cbn [forallb] in Hall. apply andb_true_iff in Hall as [Ho Hall].
    cbn [List.length] in Hlen |- *.
    destruct remaining as [|remaining]; [lia|].
    cbn [app]. rewrite (send_loop_failed_pass command c data) by (assumption || lia).
    rewrite IH by (assumption || lia).
    rewrite logged_logged. cbn [Nat.sub repeat app].
    f_equal. f_equal. lia.
Qed.

(** C2, evaluated on the code. When every write of [_send_command] raises
    a [BleakError] until the attempt ceiling is reached, the function
    leaves its loop and returns [None]: no exception reaches the caller,
    [disconnect] is never run (the device is as it was, nothing but the
    writes was awaited). *)
Theorem send_command_exhausted_returns_none command_prefix connection_command
    c data failures rest w :
  _current_bleak_client (dev w) = Some c ->
  Py.fromhex (encrypt (command_prefix ++ get_time (clock w (ticks w)))) = Some data ->
  List.length failures = Z.to_nat SETTING_MAX_COMMAND_ATTEMPTS ->
  forallb is_bleak_failure failures = true ->
  exists w',
    run (_send_command command_prefix connection_command) (failures ++ rest)%list w
    = Some (Returns None, w', rest)
    /\ dev w' = dev w
    /\ log w' = (log w
                 ++ repeat (Awaited (WriteGattChar c MotionCharacteristic_COMMAND data))
                           (Z.to_nat SETTING_MAX_COMMAND_ATTEMPTS))%list
    /\ existsb is_client_disconnect (log w') = existsb is_client_disconnect (log w).
Proof.
  intros Hc Hhex Hlen Hall.
  exists (logged (snd (time_ns w))
            (repeat (Awaited (WriteGattChar c MotionCharacteristic_COMMAND data))
                    (Z.to_nat SETTING_MAX_COMMAND_ATTEMPTS))).
  split; [|split; [|split]].
  - unfold _send_command. rewrite run_cbind, run_call. cbn [time_ns fst snd].
    destruct failures as [|o failures].
    + cbn [List.length] in Hlen. rewrite <- Hlen. cbn [app repeat].
      rewrite logged_nil. reflexivity.
    + cbn [List.length] in Hlen.
      rewrite (send_loop_failures _ c data) by (cbn [dev List.length]; assumption || lia).
      cbn [List.length]. rewrite Hlen, Nat.sub_diag. reflexivity.
  - reflexivity.
  - reflexivity.
  - cbn [logged log]. rewrite existsb_app.
    replace (existsb is_client_disconnect
               (repeat (Awaited (WriteGattChar c MotionCharacteristic_COMMAND data))
                       (Z.to_nat SETTING_MAX_COMMAND_ATTEMPTS))) with false.
    + apply orb_false_r.
    + clear Hlen.
      induction (Z.to_nat SETTING_MAX_COMMAND_ATTEMPTS) as [|n IH]; [reflexivity|].
      cbn. exact IH.
Qed.

(** The other half of C2: a write that raises fewer than ceiling times and
    then succeeds makes [_send_command] return [True], and [disconnect]
    is not run. *)
Lemma send_command_succeeds_after_failures command_prefix connection_command
    c data failures v rest w :
  _current_bleak_client (dev w) = Some c ->
  Py.fromhex (encrypt (command_prefix ++ get_time (clock w (ticks w)))) = Some data ->
  Z.of_nat (List.length failures) < SETTING_MAX_COMMAND_ATTEMPTS ->
  forallb is_bleak_failure failures = true ->
  exists w',
    run (_send_command command_prefix connection_command)
        (failures ++ Returns v :: rest)%list w
    = Some (Returns (Some true), w', rest)
    /\ dev w' = dev w
    /\ log w' = (log w
                 ++ repeat (Awaited (WriteGattChar c MotionCharacteristic_COMMAND data))
                           (S (List.length failures)))%list.
Proof.
  intros Hc Hhex Hlen Hall.
  eexists. split; [|split].
  - unfold _send_command. rewrite run_cbind, run_call. cbn [time_ns fst snd].
    rewrite (send_loop_failures _ c data) by (cbn [dev]; assumption || lia).
    destruct (Z.to_nat SETTING_MAX_COMMAND_ATTEMPTS - List.length failures)%nat
      as [|remaining] eqn:Hrem; [lia|].
    rewrite (send_loop_successful_pass _ c data) by (cbn [dev]; assumption).
    rewrite logged_logged. reflexivity.
  - reflexivity.
  - cbn [logged log]. now rewrite <- repeat_snoc.
Qed.

End Dispatcher.

(** ** Connection coordinator *)

Section Coordinator.

Context {K : Const} {crypt : MotionCrypt}.

Lemma tasks_created_app l1 l2 :
  tasks_created (l1 ++ l2) = (tasks_created l1 ++ tasks_created l2)%list.
Proof. apply flat_map_app. Qed.

Lemma is_connected_reads w : is_connected w = (Returns (connected w), w).
Proof. reflexivity. Qed.

(** The world after a caller has gone through [_connect_if_not_connecting]
    up to its [await]. *)
Lemma connect_suspends flag w :
  connected w = false ->
  let t := match _connection_task (dev w) with
           | Some t => t
           | None => first_task flag w
           end in
  awaited (fst (step (connect flag) w)) = Some (AwaitTask t)
  /\ _connection_task (dev (snd (step (connect flag) w))) = Some t
  /\ _last_connection_caller_time (dev (snd (step (connect flag) w)))
     = Some (clock w (ticks w))
  /\ tasks_created (log (snd (step (connect flag) w)))
     = (tasks_created (log w)
        ++ match _connection_task (dev w) with
           | Some _ => []
           | None => [first_task flag w]
           end)%list
  /\ connected (snd (step (connect flag) w)) = connected w.
Proof.
  intros Hc t. subst t.
  unfold connect. cbn [step cbind call]. rewrite is_connected_reads, Hc.
  cbn [negb].
  unfold _connect_if_not_connecting. cbn [step cbind call time_ns set_self self dev].
  unfold connected in *.
  destruct (_connection_task (dev w)) as [t|] eqn:Ht.
  - cbn -[tasks_created]. rewrite Ht. cbn -[tasks_created]. rewrite Ht.
    cbn -[tasks_created]. rewrite app_nil_r.
    repeat split; first [reflexivity | assumption].
  - do 3 (cbn -[tasks_created]; rewrite ?Ht). unfold logged; cbn -[tasks_created].
    rewrite tasks_created_app.
    repeat split; first [reflexivity | assumption].
Qed.

(** A caller resumed by a task that returned a truthy value clears
    [_connection_task] and returns whether its clock reading is the one
    recorded last. *)
Lemma connect_resumes_ready flag w v w2 :
  connected w = false ->
  value_truthy v = true ->
  resume (fst (step (connect flag) w)) (Returns v) w2
  = (Done (Returns (same_time (_last_connection_caller_time (dev w2))
                              (clock w (ticks w)))),
     snd (set_self (with_connection_task None) w2)).
Proof.
  intros Hc Hv.
  unfold connect. cbn [step cbind call]. rewrite is_connected_reads, Hc.
  cbn [negb].
  unfold _connect_if_not_connecting. cbn [step cbind call time_ns set_self self dev].
  destruct (_connection_task (dev w)) as [t|] eqn:Ht;
    do 3 (cbn; rewrite ?Ht); rewrite Hv; reflexivity.
Qed.

(** A caller resumed by a task that returned a falsy value returns
    [False] and changes nothing. *)
Lemma connect_resumes_not_ready flag w v w2 :
  connected w = false ->
  value_truthy v = false ->
  resume (fst (step (connect flag) w)) (Returns v) w2 = (Done (Returns false), w2).
Proof.
  intros Hc Hv.
  unfold connect. cbn [step cbind call]. rewrite is_connected_reads, Hc.
  cbn [negb].
  unfold _connect_if_not_connecting. cbn [step cbind call time_ns set_self self dev].
  destruct (_connection_task (dev w)) as [t|] eqn:Ht;
    do 3 (cbn; rewrite ?Ht); rewrite Hv; reflexivity.
Qed.

(** A caller resumed by [CancelledError] sets the connection to
    [DISCONNECTED], clears [_connection_task] and returns [False]. *)
Lemma connect_resumes_cancelled flag w w2 :
  connected w = false ->
  resume (fst (step (connect flag) w)) (Raises CancelledError) w2
  = (Done (Returns false),
     snd (set_self (with_connection_task None)
            (snd (_set_connection DISCONNECTED w2)))).
Proof.
  intros Hc.
  unfold connect. cbn [step cbind call]. rewrite is_connected_reads, Hc.
  cbn [negb].
  unfold _connect_if_not_connecting. cbn [step cbind call time_ns set_self self dev].
  destruct (_connection_task (dev w)) as [t|] eqn:Ht;
    do 3 (cbn; rewrite ?Ht);
    destruct (_connection_callback (dev w2)); reflexivity.
Qed.

(** What holds of a coalesced connection attempt, by induction on how it
    came about. *)
Lemma coalescing_invariant t w0 waiters w :
  coalescing t w0 waiters w ->
  _connection_task (dev w) = Some t
  /\ tasks_created (log w) = (tasks_created (log w0) ++ [t])%list
  /\ waiters <> []
  /\ _last_connection_caller_time (dev w) = Some (last (map snd waiters) 0)
  /\ Forall (fun sw =>
               awaited (fst sw) = Some (AwaitTask t)
               /\ (forall v w2,
                      value_truthy v = true ->
                      resume (fst sw) (Returns v) w2
                      = (Done (Returns (same_time (_last_connection_caller_time (dev w2))
                                                  (snd sw))),
                         snd (set_self (with_connection_task None) w2)))
               /\ (forall w2,
                      resume (fst sw) (Raises CancelledError) w2
                      = (Done (Returns false),
                         snd (set_self (with_connection_task None)
                                (snd (_set_connection DISCONNECTED w2))))))
            waiters.
Proof.
  induction 1 as [flag w s w' Hc Hnone Ht Hstep
                 | flag w0 waiters w s w' Hco IH Hc Hstep
                 | w0 waiters w w' Hco IH Hun].
  - pose proof (connect_suspends flag w Hc) as Hs. cbv zeta in Hs.
    rewrite Hstep, Hnone in Hs. cbn [fst snd] in Hs.
    destruct Hs as (Haw & Htask & Hlast & Hcreated & _). subst t.
    repeat split; try assumption.
    + discriminate.
    + constructor; [|constructor]. cbn [fst snd]. repeat split.
      * exact Haw.
      * intros v w2 Hv.
        pose proof (connect_resumes_ready flag w v w2 Hc Hv) as Hr.
        rewrite Hstep in Hr. exact Hr.
      * intros w2.
        pose proof (connect_resumes_cancelled flag w w2 Hc) as Hr.
        rewrite Hstep in Hr. exact Hr.
  - destruct IH as (Htask & Hcreated & Hne & Hlast & Hall).
    pose proof (connect_suspends flag w Hc) as Hs. cbv zeta in Hs.
    rewrite Hstep, Htask in Hs. cbn [fst snd] in Hs.
    destruct Hs as (Haw & Htask' & Hlast' & Hcreated' & _).
    repeat split.
    + exact Htask'.
    + rewrite Hcreated', app_nil_r. exact Hcreated.
    + intros Heq. apply app_eq_nil in Heq as [_ Heq]. discriminate Heq.
    + rewrite map_app. cbn [map snd]. rewrite last_last. exact Hlast'.
    + apply Forall_app. split; [exact Hall|].
      constructor; [|constructor]. cbn [fst snd]. repeat split.
      * exact Haw.
      * intros v w2 Hv.
        pose proof (connect_resumes_ready flag w v w2 Hc Hv) as Hr.
        rewrite Hstep in Hr. exact Hr.
      * intros w2.
        pose proof (connect_resumes_cancelled flag w w2 Hc) as Hr.
        rewrite Hstep in Hr. exact Hr.
  - destruct IH as (Htask & Hcreated & Hne & Hlast & Hall).
    destruct Hun as (Hu1 & Hu2 & Hu3).
    repeat split; try assumption; congruence.
Qed.

(** Resuming the waiters of a task that succeeded: each returns whether
    its reading is the recorded one, and leaves the record alone. *)
Lemma resume_all_ready (waiters : list (Susp bool * Z)) v recorded :
  value_truthy v = true ->
  Forall (fun sw =>
            forall w2,
              resume (fst sw) (Returns v) w2
              = (Done (Returns (same_time (_last_connection_caller_time (dev w2))
                                          (snd sw))),
                 snd (set_self (with_connection_task None) w2)))
         waiters ->
  forall w2,
    _last_connection_caller_time (dev w2) = Some recorded ->
    returned (fst (resume_all (map fst waiters) (Returns v) w2))
    = map (fun sw => Some (Returns (snd sw =? recorded))) waiters
    /\ (waiters <> [] \/ _connection_task (dev w2) = None ->
        _connection_task (dev (snd (resume_all (map fst waiters) (Returns v) w2))) = None)
    /\ _last_connection_caller_time
         (dev (snd (resume_all (map fst waiters) (Returns v) w2)))
       = Some recorded.
Proof.
  intros Hv Hall. induction Hall as [|[s token] waiters Hs Hall IH]; intros w2 Hrec.
  - cbn. repeat split; [|exact Hrec]. intros [Hne | Hnone]; [congruence | exact Hnone].
  - cbn [map fst snd resume_all]. cbn [fst snd] in Hs. rewrite Hs.
    destruct (IH (snd (set_self (with_connection_task None) w2)) Hrec)
      as (Hres & Htask & Hrec').
    destruct (resume_all (map fst waiters) (Returns v)
                (snd (set_self (with_connection_task None) w2))) as [rest w3].
    cbn [fst snd] in *. repeat split.
    + unfold returned in *. cbn [map finished]. rewrite Hres, Hrec.
      cbn [same_time]. now rewrite Z.eqb_sym.
    + intros _. apply Htask. right. reflexivity.
    + exact Hrec'.
Qed.

Lemma strictly_increasing_tokens (tokens : list Z) :
  StronglySorted Z.lt tokens ->
  tokens <> [] ->
  map (fun token => token =? last tokens 0) tokens
  = (repeat false (List.length tokens - 1) ++ [true])%list.
Proof.
  induction 1 as [|token tokens Hsorted IH Hlt]; intros Hne; [congruence|].
  destruct tokens as [|token' tokens].
  - cbn. now rewrite Z.eqb_refl.
  - change (last (token :: token' :: tokens) 0) with (last (token' :: tokens) 0).
    rewrite map_cons. rewrite IH by discriminate.
    assert (Hin : In (last (token' :: tokens) 0) (token' :: tokens)).
    { clear. generalize token'. induction tokens as [|x xs IHxs]; intros y.
      - now left.
      - right. apply (IHxs x). }
    rewrite Forall_forall in Hlt. specialize (Hlt _ Hin).
    replace (token =? last (token' :: tokens) 0) with false by lia.
    cbn [List.length Nat.sub]. rewrite Nat.sub_0_r. reflexivity.
Qed.

(** The coordinator while one attempt is in flight.  Callers that call
    [connect] while the device is not connected start one connection
    task between them (the first caller's) and all await it.  When that
    task succeeds, a caller returns [True] exactly when the clock reading
    it recorded equals the one recorded last; when the readings strictly
    increase from caller to caller, that is the last caller alone, and
    every earlier caller returns [False]. *)
Theorem coalesced_connect_calls t w0 waiters w :
  coalescing t w0 waiters w ->
  tasks_created (log w) = (tasks_created (log w0) ++ [t])%list
  /\ _connection_task (dev w) = Some t
  /\ Forall (fun sw => awaited (fst sw) = Some (AwaitTask t)) waiters
  /\ forall v w2,
       value_truthy v = true ->
       _last_connection_caller_time (dev w2) = _last_connection_caller_time (dev w) ->
       returned (fst (resume_all (map fst waiters) (Returns v) w2))
       = map (fun sw => Some (Returns (snd sw =? last (map snd waiters) 0))) waiters
       /\ _connection_task (dev (snd (resume_all (map fst waiters) (Returns v) w2)))
          = None
       /\ (StronglySorted Z.lt (map snd waiters) ->
           returned (fst (resume_all (map fst waiters) (Returns v) w2))
           = (repeat (Some (Returns false)) (List.length waiters - 1)
              ++ [Some (Returns true)])%list).
Proof.
  intros Hco.
  destruct (coalescing_invariant t w0 waiters w Hco)
    as (Htask & Hcreated & Hne & Hlast & Hall).
  split; [exact Hcreated|]. split; [exact Htask|]. split.
  { eapply Forall_impl; [|exact Hall]. intros sw H. apply H. }
  intros v w2 Hv Hrec. rewrite Hlast in Hrec.
  assert (Hall' : Forall (fun sw =>
            forall w2,
              resume (fst sw) (Returns v) w2
              = (Done (Returns (same_time (_last_connection_caller_time (dev w2))
                                          (snd sw))),
                 snd (set_self (with_connection_task None) w2))) waiters).
  { eapply Forall_impl; [|exact Hall]. intros sw (_ & H & _) w3. now apply H. }
  destruct (resume_all_ready waiters v _ Hv Hall' w2 Hrec) as (Hres & Hcleared & _).
  split; [exact Hres|]. split; [apply Hcleared; now left|].
  intros Hsorted. rewrite Hres.
  assert (Hmap : map (fun sw : Susp bool * Z =>
                        Some (Returns (snd sw =? last (map snd waiters) 0))) waiters
                 = map (fun b : bool => Some (Returns b))
                       (map (fun token => token =? last (map snd waiters) 0)
                            (map snd waiters))).
  { rewrite !map_map. reflexivity. }
  rewrite Hmap, strictly_increasing_tokens.
  - rewrite map_app, map_repeat, length_map. reflexivity.
  - exact Hsorted.
  - intros Heq. apply map_eq_nil in Heq. contradiction.
Qed.

Lemma last_of_equal_tokens (waiters : list (Susp bool * Z)) token :
  Forall (fun sw => snd sw = token) waiters ->
  waiters <> [] ->
  last (map snd waiters) 0 = token.
Proof.
  intros Hall Hne. induction Hall as [|sw waiters Hsw Hall IH]; [congruence|].
  destruct waiters as [|sw' waiters]; [exact Hsw|].
  change (last (map snd (sw' :: waiters)) 0 = token). apply IH. discriminate.
Qed.

(** C1.  The coordinator tells the last caller from the earlier ones by
    comparing readings of [time_ns()], not by who called.  Callers that
    call [connect] while the device is not connected start one connection
    task and all await it; but when their readings are equal, which a
    clock that does not advance between the calls gives, the success of
    the task makes every one of them return [True], the earlier callers
    as well as the last. *)
Theorem tied_callers_all_return_true t w0 waiters w token v w2 :
  coalescing t w0 waiters w ->
  Forall (fun sw => snd sw = token) waiters ->
  value_truthy v = true ->
  _last_connection_caller_time (dev w2) = _last_connection_caller_time (dev w) ->
  tasks_created (log w) = (tasks_created (log w0) ++ [t])%list
  /\ Forall (fun sw => awaited (fst sw) = Some (AwaitTask t)) waiters
  /\ returned (fst (resume_all (map fst waiters) (Returns v) w2))
     = repeat (Some (Returns true)) (List.length waiters).
Proof.
  intros Hco Htied Hv Hrec.
  destruct (coalescing_invariant t w0 waiters w Hco)
    as (Htask & Hcreated & Hne & Hlast & Hall).
  split; [exact Hcreated|]. split.
  { eapply Forall_impl; [|exact Hall]. intros sw H. apply H. }
  rewrite Hlast, (last_of_equal_tokens waiters token Htied Hne) in Hrec.
  assert (Hall' : Forall (fun sw =>
            forall w2,
              resume (fst sw) (Returns v) w2
              = (Done (Returns (same_time (_last_connection_caller_time (dev w2))
                                          (snd sw))),
                 snd (set_self (with_connection_task None) w2))) waiters).
  { eapply Forall_impl; [|exact Hall]. intros sw (_ & H & _) w3. now apply H. }
  destruct (resume_all_ready waiters v token Hv Hall' w2 Hrec) as (Hres & _ & _).
  rewrite Hres. clear - Htied.
  induction Htied as [|sw waiters Hsw Htied IH]; [reflexivity|].
  cbn [map List.length repeat]. rewrite IH, Hsw, Z.eqb_refl. reflexivity.
Qed.


(** *** Disconnecting while a connection attempt is in flight *)

Lemma task_eqb_refl t : task_eqb t t = true.
Proof.
  unfold task_eqb. now rewrite Nat.eqb_refl, !Bool.eqb_reflx.
Qed.

Lemma cancel_requested_in t l :
  In (TaskCancelRequested t) l -> cancel_requested t l = true.
Proof.
  intros Hin. unfold cancel_requested. apply existsb_exists.
  exists (TaskCancelRequested t). split; [exact Hin | apply task_eqb_refl].
Qed.

(** [_set_connection] only appends to the log and assigns
    [_connection_type]. *)
Lemma set_connection_effect c w :
  dev (snd (_set_connection c w)) = with_connection_type c (dev w)
  /\ (forall e, In e (log w) -> In e (log (snd (_set_connection c w)))).
Proof.
  unfold _set_connection, bind, self, emit, ret, set_self, logged.
  destruct (_connection_callback (dev w)); cbn; split; try reflexivity.
  - intros e He. apply in_or_app. now left.
  - intros e He. exact He.
Qed.

(** The world a waiter leaves when it is resumed by [CancelledError]. *)
Lemma cancelled_waiter_effect w :
  let w' := snd (set_self (with_connection_task None)
                   (snd (_set_connection DISCONNECTED w))) in
  _connection_task (dev w') = None
  /\ _connection_type (dev w') = DISCONNECTED
  /\ _current_bleak_client (dev w') = _current_bleak_client (dev w)
  /\ (forall e, In e (log w) -> In e (log w')).
Proof.
  destruct (set_connection_effect DISCONNECTED w) as [Hdev Hlog].
  cbv zeta. unfold set_self at 1 2 3 4. cbn [snd dev log]. rewrite Hdev.
  repeat split; try reflexivity. exact Hlog.
Qed.

(** The world [disconnect] leaves after the transport has disconnected. *)
Lemma disconnect_end_effect w :
  let w' := snd (_set_connection DISCONNECTED
                   (snd (set_self (with_current_bleak_client None) w))) in
  _connection_task (dev w') = _connection_task (dev w)
  /\ _connection_type (dev w') = DISCONNECTED
  /\ _current_bleak_client (dev w') = None
  /\ (forall e, In e (log w) -> In e (log w')).
Proof.
  destruct (set_connection_effect DISCONNECTED
              (snd (set_self (with_current_bleak_client None) w))) as [Hdev Hlog].
  cbn zeta. rewrite Hdev. repeat split; try reflexivity. exact Hlog.
Qed.

(** Resuming the waiters of a cancelled task: each returns [False]. *)
Lemma resume_all_cancelled (waiters : list (Susp bool * Z)) :
  Forall (fun sw =>
            forall w2,
              resume (fst sw) (Raises CancelledError) w2
              = (Done (Returns false),
                 snd (set_self (with_connection_task None)
                        (snd (_set_connection DISCONNECTED w2)))))
         waiters ->
  forall w2,
    returned (fst (resume_all (map fst waiters) (Raises CancelledError) w2))
    = repeat (Some (Returns false)) (List.length waiters)
    /\ (waiters <> [] \/ _connection_task (dev w2) = None ->
        _connection_task
          (dev (snd (resume_all (map fst waiters) (Raises CancelledError) w2))) = None)
    /\ (waiters <> [] \/ _connection_type (dev w2) = DISCONNECTED ->
        _connection_type
          (dev (snd (resume_all (map fst waiters) (Raises CancelledError) w2)))
        = DISCONNECTED)
    /\ _current_bleak_client
         (dev (snd (resume_all (map fst waiters) (Raises CancelledError) w2)))
       = _current_bleak_client (dev w2)
    /\ (forall e, In e (log w2) ->
                  In e (log (snd (resume_all (map fst waiters)
                                    (Raises CancelledError) w2)))).
Proof.
  intros Hall. induction Hall as [|[s token] waiters Hs Hall IH]; intros w2.
  - cbn. repeat split; tauto.
  - cbn [map fst snd resume_all]. cbn [fst snd] in Hs. rewrite Hs.
    pose proof (cancelled_waiter_effect w2) as Heff. cbv zeta in Heff.
    set (w2' := snd (set_self (with_connection_task None)
                       (snd (_set_connection DISCONNECTED w2)))) in *.
    destruct Heff as (Htask & Htype & Hclient & Hlog).
    destruct (IH w2') as (Hres & Htask' & Htype' & Hclient' & Hlog').
    destruct (resume_all (map fst waiters) (Raises CancelledError) w2') as [rest w3].
    cbn [fst snd] in *. repeat split.
    + unfold returned in *. cbn [map finished List.length repeat]. now rewrite Hres.
    + intros _. apply Htask'. now right.
    + intros _. apply Htype'. now right.
    + congruence.
    + intros e He. apply Hlog', Hlog, He.
Qed.

(** The first stretch of [disconnect] when a connection task is in
    flight. *)
Lemma disconnect_in_flight t w :
  _connection_task (dev w) = Some t ->
  let w1 := snd (step disconnect w) in
  In (TaskCancelRequested t) (log w1)
  /\ (forall timer, _disconnect_timer (dev w) = Some timer ->
                    In (TimerCancelled timer) (log w1))
  /\ _connection_task (dev w1) = None
  /\ match _current_bleak_client (dev w) with
     | None =>
         fst (step disconnect w) = Done (Returns tt)
         /\ _connection_type (dev w1) = DISCONNECTED
         /\ _current_bleak_client (dev w1) = None
     | Some c =>
         awaited (fst (step disconnect w)) = Some (ClientDisconnect c)
         /\ forall v w2,
             resume (fst (step disconnect w)) (Returns v) w2
             = (Done (Returns tt),
                snd (_set_connection DISCONNECTED
                       (snd (set_self (with_current_bleak_client None) w2))))
     end.
Proof.
  destruct w as [d l ck tk n]. destruct d.
  cbn [dev _connection_task _disconnect_timer _current_bleak_client].
  intros Ht. subst. cbv zeta.
  destruct _connection_callback0, _disconnect_timer0 as [[id|id]|],
           _current_bleak_client0 as [c|].
  all: cbn.
  all: repeat split.
  all: try reflexivity.
  all: try (rewrite !in_app_iff; cbn; tauto).
  all: try (intros timer [= <-]; rewrite !in_app_iff; cbn; tauto).
  all: try (intros timer [=]).
  all: intros v w2; destruct (_connection_callback (dev w2)); reflexivity.
Qed.


Lemma disconnect_when_disconnected w :
  _connection_task (dev w) = None ->
  _current_bleak_client (dev w) = None ->
  fst (step disconnect w) = Done (Returns tt)
  /\ dev (snd (step disconnect w)) = with_connection_type DISCONNECTED (dev w)
  /\ log (snd (step disconnect w))
     = (log w ++ if _connection_callback (dev w)
                 then [ConnectionCallback DISCONNECTING; ConnectionCallback DISCONNECTED]
                 else [])%list.
Proof.
  destruct w as [d l ck tk n]. destruct d.
  cbn [dev log _connection_task _current_bleak_client _connection_callback].
  intros -> ->.
  destruct _connection_callback0; cbn; rewrite <- ?app_assoc, ?app_nil_r;
    repeat split; reflexivity.
Qed.

(** C9. When [disconnect] is called while a connection attempt is in
    flight, the task is cancelled, every coalesced waiter returns [False]
    (none raises), [_connection_task] is cleared, the armed disconnect
    timer is cancelled and the connection ends [DISCONNECTED], whether the
    waiters resume before or after the transport has disconnected; and
    [disconnect] on a device that is already disconnected returns
    normally and leaves it [DISCONNECTED]. *)
Theorem disconnect_cancels_connection_attempt t w0 waiters w body_outcome v :
  coalescing t w0 waiters w ->
  (forall scenario,
      scenario = disconnect_waiters_first \/ scenario = disconnect_waiters_last ->
      exists d rs w',
        scenario (map fst waiters) t body_outcome (Returns v) w = (d, rs, w')
        /\ finished d = Some (Returns tt)
        /\ returned rs = repeat (Some (Returns false)) (List.length waiters)
        /\ _connection_task (dev w') = None
        /\ _connection_type (dev w') = DISCONNECTED
        /\ _current_bleak_client (dev w') = None
        /\ In (TaskCancelRequested t) (log w')
        /\ (forall timer,
               _disconnect_timer (dev w) = Some timer ->
               In (TimerCancelled timer) (log w')))
  /\ (forall wd,
         _connection_task (dev wd) = None ->
         _current_bleak_client (dev wd) = None ->
         fst (step disconnect wd) = Done (Returns tt)
         /\ dev (snd (step disconnect wd)) = with_connection_type DISCONNECTED (dev wd)).
Proof.
  intros Hco. split.
  2: { intros wd Ht Hc. destruct (disconnect_when_disconnected wd Ht Hc) as (H1 & H2 & _).
       now split. }
  destruct (coalescing_invariant t w0 waiters w Hco)
    as (Htask & _ & Hne & _ & Hall).
  assert (Hall' : Forall (fun sw =>
            forall w2,
              resume (fst sw) (Raises CancelledError) w2
              = (Done (Returns false),
                 snd (set_self (with_connection_task None)
                        (snd (_set_connection DISCONNECTED w2))))) waiters).
  { eapply Forall_impl; [|exact Hall]. intros sw (_ & _ & H). exact H. }
  pose proof (disconnect_in_flight t w Htask) as Hd. cbv zeta in Hd.
  destruct Hd as (Hreq & Htimer & Hcleared & Hclient).
  intros scenario [-> | ->].
  - (* the waiters resume while [disconnect] is suspended, or after it ended
       without suspending *)
    unfold disconnect_waiters_first.
    destruct (step disconnect w) as [d1 w1] eqn:Hstep. cbn [fst snd] in *.
    unfold task_outcome. rewrite (cancel_requested_in t (log w1) Hreq).
    destruct (resume_all_cancelled waiters Hall' w1)
      as (Hres & Htask2 & Htype2 & Hclient2 & Hlog2).
    destruct (resume_all (map fst waiters) (Raises CancelledError) w1) as [rs w2].
    cbn [fst snd] in *.
    destruct (_current_bleak_client (dev w)) as [c|].
    + destruct Hclient as [Haw Hres1]. rewrite Hres1.
      pose proof (disconnect_end_effect w2) as He. cbv zeta in He.
      destruct He as (He1 & He2 & He3 & He4).
      eexists _, rs, _. split; [reflexivity|]. cbn [finished].
      repeat split; try assumption.
      * rewrite He1. apply Htask2. now left.
      * apply He4, Hlog2, Hreq.
      * intros timer Htm. apply He4, Hlog2, Htimer, Htm.
    + destruct Hclient as (Hdone & Htype & Hnone). subst d1. cbn [resume].
      eexists _, rs, _. split; [reflexivity|]. cbn [finished].
      repeat split; try assumption.
      * apply Htask2. now left.
      * apply Htype2. now left.
      * congruence.
      * apply Hlog2, Hreq.
      * intros timer Htm. apply Hlog2, Htimer, Htm.
  - (* the waiters resume after [disconnect] has ended *)
    unfold disconnect_waiters_last.
    destruct (step disconnect w) as [d1 w1] eqn:Hstep. cbn [fst snd] in *.
    destruct (_current_bleak_client (dev w)) as [c|].
    + destruct Hclient as [Haw Hres1]. rewrite Hres1.
      pose proof (disconnect_end_effect w1) as He. cbv zeta in He.
      set (w2 := snd (_set_connection DISCONNECTED
                        (snd (set_self (with_current_bleak_client None) w1)))) in *.
      destruct He as (He1 & He2 & He3 & He4).
      unfold task_outcome. rewrite (cancel_requested_in t (log w2) (He4 _ Hreq)).
      destruct (resume_all_cancelled waiters Hall' w2)
        as (Hres & Htask2 & Htype2 & Hclient2 & Hlog2).
      destruct (resume_all (map fst waiters) (Raises CancelledError) w2) as [rs w3].
      cbn [fst snd] in *.
      eexists _, rs, _. split; [reflexivity|]. cbn [finished].
      repeat split; try assumption.
      * apply Htask2. now left.
      * apply Htype2. now left.
      * congruence.
      * apply Hlog2, He4, Hreq.
      * intros timer Htm. apply Hlog2, He4, Htimer, Htm.
    + destruct Hclient as (Hdone & Htype & Hnone). subst d1. cbn [resume].
      unfold task_outcome. rewrite (cancel_requested_in t (log w1) Hreq).
      destruct (resume_all_cancelled waiters Hall' w1)
        as (Hres & Htask2 & Htype2 & Hclient2 & Hlog2).
      destruct (resume_all (map fst waiters) (Raises CancelledError) w1) as [rs w2].
      cbn [fst snd] in *.
      eexists _, rs, _. split; [reflexivity|]. cbn [finished].
      repeat split; try assumption.
      * apply Htask2. now left.
      * apply Htype2. now left.
      * congruence.
      * apply Hlog2, Hreq.
      * intros timer Htm. apply Hlog2, Htimer, Htm.
Qed.


(** *** The order of the decorators *)

Lemma step_cbind {A B} (m : Coro A) (g : A -> Coro B) :
  forall w,
    step (cbind m g) w
    = match step m w with
      | (Done (Returns a), w') => step (g a) w'
      | (Done (Raises e), w') => (Done (Raises e), w')
      | (Blocked a k, w') => (Blocked a (fun o => cbind (k o) g), w')
      end.
Proof.
  induction m as [a|e|X f k IH|a k IH]; intros w; cbn [cbind step].
  - reflexivity.
  - reflexivity.
  - destruct (f w) as [x w']. apply IH.
  - reflexivity.
Qed.

(** Every movement command is [connect] first and the guarded method
    second: [requires_connection] is the outer decorator. *)
Lemma issue_connects_first m ignore_end_positions_not_set :
  issue m ignore_end_positions_not_set
  = cbind (connect false)
          (fun ready => if negb ready then Ret (Some false)
                        else guarded m ignore_end_positions_not_set).
Proof. destruct m; reflexivity. Qed.

Lemma connect_when_connected flag w w1 :
  connected w = true ->
  refresh_disconnect_timer None false w = (Returns tt, w1) ->
  step (connect flag) w = (Done (Returns true), w1).
Proof.
  intros Hc Hr. unfold connect. cbn [step cbind call].
  rewrite is_connected_reads, Hc. cbn [negb step cbind call]. rewrite Hr. reflexivity.
Qed.

(** C3, as amended. Every movement command invokes the connection
    coordinator before its end-position guard.  On a device that is not
    connected the command goes through [connect] up to the [await] of the
    connection task, starting the task if none is in flight, whatever the
    end-position info says; the guard is evaluated only when that
    [connect] call has returned [True], and a command whose [connect]
    returned [False] returns [False] without evaluating the guard.  On a
    connected device the command refreshes the disconnect timer and then
    evaluates the guard. *)
Theorem connection_precedes_end_position_guard m ignore_end_positions_not_set w :
  (connected w = false ->
   awaited (fst (step (issue m ignore_end_positions_not_set) w))
   = Some (AwaitTask match _connection_task (dev w) with
                     | Some t => t
                     | None => first_task false w
                     end)
   /\ snd (step (issue m ignore_end_positions_not_set) w) = snd (step (connect false) w)
   /\ tasks_created (log (snd (step (issue m ignore_end_positions_not_set) w)))
      = (tasks_created (log w)
         ++ match _connection_task (dev w) with
            | Some _ => []
            | None => [first_task false w]
            end)%list
   /\ (forall v w2,
          value_truthy v = true ->
          resume (fst (step (issue m ignore_end_positions_not_set) w)) (Returns v) w2
          = if same_time (_last_connection_caller_time (dev w2)) (clock w (ticks w))
            then step (guarded m ignore_end_positions_not_set)
                      (snd (set_self (with_connection_task None) w2))
            else (Done (Returns (Some false)),
                  snd (set_self (with_connection_task None) w2)))
   /\ (forall v w2,
          value_truthy v = false ->
          resume (fst (step (issue m ignore_end_positions_not_set) w)) (Returns v) w2
          = (Done (Returns (Some false)), w2)))
  /\ (connected w = true ->
      forall w1,
        refresh_disconnect_timer None false w = (Returns tt, w1) ->
        step (issue m ignore_end_positions_not_set) w
        = step (guarded m ignore_end_positions_not_set) w1).
Proof.
  rewrite issue_connects_first. split.
  - intros Hc.
    destruct (connect_suspends false w Hc) as (Haw & _ & _ & Hcreated & _).
    pose proof (connect_resumes_ready false w) as Hready.
    pose proof (connect_resumes_not_ready false w) as Hnot.
    rewrite step_cbind.
    destruct (step (connect false) w) as [[r|a k] w'] eqn:Hstep;
      cbn [fst snd awaited] in *; [discriminate Haw|].
    split; [exact Haw|]. split; [reflexivity|]. split; [exact Hcreated|]. split.
    + intros v w2 Hv. cbn [resume]. rewrite step_cbind.
      specialize (Hready v w2 Hc Hv). cbn [resume] in Hready. rewrite Hready.
      destruct (same_time (_last_connection_caller_time (dev w2)) (clock w (ticks w)));
        reflexivity.
    + intros v w2 Hv. cbn [resume]. rewrite step_cbind.
      specialize (Hnot v w2 Hc Hv). cbn [resume] in Hnot. rewrite Hnot. reflexivity.
  - intros Hc w1 Hr. rewrite step_cbind.
    rewrite (connect_when_connected false w w1 Hc Hr). reflexivity.
Qed.


(** Calls made back to back are a coalesced attempt. *)
Lemma connect_calls_join t w0 flags :
  forall waiters w,
    coalescing t w0 waiters w ->
    connected w = false ->
    coalescing t w0 (waiters ++ fst (connect_calls flags w))%list
               (snd (connect_calls flags w)).
Proof.
  induction flags as [|flag flags IH]; intros waiters w Hco Hc.
  - cbn. now rewrite app_nil_r.
  - cbn [connect_calls].
    destruct (connect_suspends flag w Hc) as (_ & _ & _ & _ & Hc').
    destruct (step (connect flag) w) as [s w1] eqn:Hstep. cbn [snd] in Hc'.
    assert (Hj : coalescing t w0 (waiters ++ [(s, clock w (ticks w))])%list w1).
    { eapply coalescing_join; eassumption. }
    specialize (IH _ w1 Hj).
    rewrite Hc' in IH. specialize (IH Hc).
    destruct (connect_calls flags w1) as [rest w2]. cbn [fst snd] in *.
    rewrite <- app_assoc in IH. exact IH.
Qed.

Lemma connect_calls_coalescing flag flags w :
  connected w = false ->
  _connection_task (dev w) = None ->
  coalescing (first_task flag w) w
             (fst (connect_calls (flag :: flags) w))
             (snd (connect_calls (flag :: flags) w)).
Proof.
  intros Hc Hnone. cbn [connect_calls].
  destruct (connect_suspends flag w Hc) as (_ & _ & _ & _ & Hc').
  destruct (step (connect flag) w) as [s w1] eqn:Hstep. cbn [snd] in Hc'.
  assert (Hf : coalescing (first_task flag w) w [(s, clock w (ticks w))] w1).
  { eapply coalescing_first; try eassumption. reflexivity. }
  pose proof (connect_calls_join (first_task flag w) w flags _ w1 Hf) as Hj.
  rewrite Hc' in Hj. specialize (Hj Hc).
  destruct (connect_calls flags w1) as [rest w2]. exact Hj.
Qed.

End Coordinator.

(** ** Commands *)

Section Commands.

Context {K : Const} {crypt : MotionCrypt}.

Lemma refresh_keeps_end_position_info timeout force w w1 :
  refresh_disconnect_timer timeout force w = (Returns tt, w1) ->
  end_position_info (dev w1) = end_position_info (dev w).
Proof.
  destruct w as [d l ck tk n]. destruct d.
  unfold refresh_disconnect_timer, bind, time_ns, self, ret, raise,
    _cancel_disconnect_timer, set_self, emit, fresh, logged.
  cbn [dev log clock ticks next_id _disconnect_timer _disconnect_time _ha_call_later].
  destruct force; cbn [negb].
  - destruct _disconnect_timer0 as [[id|id]|]; cbn; intros [= <-]; reflexivity.
  - destruct _disconnect_timer0 as [[id|id]|]; [| |cbn; intros [= <-]; reflexivity];
      (destruct _disconnect_time0 as [current|]; [|discriminate];
       destruct (current >? _); cbn; intros [= <-]; reflexivity).
Qed.

(** Refreshing the disconnect timer writes nothing to the device. *)
Lemma refresh_writes_nothing timeout force w w1 :
  refresh_disconnect_timer timeout force w = (Returns tt, w1) ->
  filter is_write (log w1) = filter is_write (log w).
Proof.
  destruct w as [d l ck tk n]. destruct d.
  unfold refresh_disconnect_timer, bind, time_ns, self, ret, raise,
    _cancel_disconnect_timer, set_self, emit, fresh, logged.
  cbn [dev log clock ticks next_id _disconnect_timer _disconnect_time _ha_call_later].
  destruct force; cbn [negb].
  - destruct _disconnect_timer0 as [[id|id]|]; cbn; intros [= <-]; cbn [log];
      rewrite !filter_app; cbn; now rewrite ?app_nil_r.
  - destruct _disconnect_timer0 as [[id|id]|];
      [| |cbn; intros [= <-]; cbn [log]; rewrite !filter_app; cbn; now rewrite ?app_nil_r];
      (destruct _disconnect_time0 as [current|]; [|discriminate];
       destruct (current >? _); cbn; intros [= <-]; cbn [log];
       rewrite ?filter_app; cbn; now rewrite ?app_nil_r).
Qed.

(** On a connected device a movement command is the refresh of the
    disconnect timer followed by the guarded method. *)
Lemma run_issue_connected m ignore_end_positions_not_set answers w w1 :
  connected w = true ->
  refresh_disconnect_timer None false w = (Returns tt, w1) ->
  run (issue m ignore_end_positions_not_set) answers w
  = run (guarded m ignore_end_positions_not_set) answers w1
  /\ guard_fails ignore_end_positions_not_set w1
     = guard_fails ignore_end_positions_not_set w.
Proof.
  intros Hc Hr. split.
  - rewrite issue_connects_first, run_cbind.
    unfold connect. rewrite run_cbind, run_call, is_connected_reads, Hc.
    cbn [fst snd negb]. rewrite run_cbind, run_call, Hr. reflexivity.
  - unfold guard_fails. now rewrite (refresh_keeps_end_position_info None false w w1 Hr).
Qed.

Lemma step_requires_end_positions {A} (func : A -> Coro (option bool))
    ignore_end_positions_not_set args w :
  step (requires_end_positions func (ignore_end_positions_not_set, args)) w
  = if guard_fails ignore_end_positions_not_set w
    then (Done (Raises NoEndPositionsException), w)
    else step (func args) w.
Proof.
  unfold requires_end_positions, guard_fails. cbn.
  destruct (end_position_info (dev w)) as [info|]; [|reflexivity].
  destruct (negb (UP info) && negb ignore_end_positions_not_set); reflexivity.
Qed.

Lemma step_guarded m ignore_end_positions_not_set w :
  step (guarded m ignore_end_positions_not_set) w
  = if guard_fails ignore_end_positions_not_set w
    then (Done (Raises NoEndPositionsException), w)
    else step (wrapped m) w.
Proof.
  destruct m; cbn [guarded wrapped]; apply step_requires_end_positions.
Qed.

(** A command behind [requires_connection], called on a device that is
    not connected, once the connection task has ended: the wrapped
    function runs only for the caller to whom [connect] returns [True],
    that is when the task returned a truthy value and this caller's
    clock reading is the one recorded last. *)
Lemma requires_connection_resumes {A} (func : A -> Coro (option bool)) args w :
  connected w = false ->
  (forall v w2,
      value_truthy v = true ->
      resume (fst (step (requires_connection func args) w)) (Returns v) w2
      = if same_time (_last_connection_caller_time (dev w2)) (clock w (ticks w))
        then step (func args) (snd (set_self (with_connection_task None) w2))
        else (Done (Returns (Some false)), snd (set_self (with_connection_task None) w2)))
  /\ (forall v w2,
         value_truthy v = false ->
         resume (fst (step (requires_connection func args) w)) (Returns v) w2
         = (Done (Returns (Some false)), w2)).
Proof.
  intros Hc. unfold requires_connection.
  destruct (connect_suspends false w Hc) as (Haw & _).
  pose proof (connect_resumes_ready false w) as Hready.
  pose proof (connect_resumes_not_ready false w) as Hnot.
  rewrite step_cbind.
  destruct (step (connect false) w) as [[r|a k] w'] eqn:Hstep;
    cbn [fst snd awaited] in *; [discriminate Haw|].
  split.
  - intros v w2 Hv. cbn [resume]. rewrite step_cbind.
    specialize (Hready v w2 Hc Hv). cbn [resume] in Hready. rewrite Hready.
    destruct (same_time (_last_connection_caller_time (dev w2)) (clock w (ticks w)));
      reflexivity.
  - intros v w2 Hv. cbn [resume]. rewrite step_cbind.
    specialize (Hnot v w2 Hc Hv). cbn [resume] in Hnot. rewrite Hnot. reflexivity.
Qed.

Lemma issue_requires_connection m ignore_end_positions_not_set :
  issue m ignore_end_positions_not_set
  = requires_connection (fun _ : unit => guarded m ignore_end_positions_not_set) tt.
Proof. destruct m; reflexivity. Qed.

Lemma guard_fails_cleared ignore_end_positions_not_set w :
  guard_fails ignore_end_positions_not_set
    (snd (set_self (with_connection_task None) w))
  = guard_fails ignore_end_positions_not_set w.
Proof. reflexivity. Qed.

(** C7, as amended.  A movement command called with its arguments by
    keyword is [connect] first and the end-position guard after it.
    Reaching the guard while the end-position info is known and its [UP]
    flag is false, it raises [NoEndPositionsException] and nothing is
    sent (the device, the log and the pending answers are untouched),
    unless the bypass flag is set, in which case the command body runs;
    with no end-position info the command body runs.  On a connected
    device the guard is reached at once, after the disconnect timer has
    been refreshed.  On a device that is not connected it is reached only
    by the caller to whom [connect] returns [True]; a caller to whom
    [connect] returns [False] gets [False], whatever the end-position
    info says. *)
Theorem end_position_guard m ignore_end_positions_not_set answers w :
  (forall info,
      end_position_info (dev w) = Some info -> UP info = false ->
      (ignore_end_positions_not_set = false ->
       run (guarded m ignore_end_positions_not_set) answers w
       = Some (Raises NoEndPositionsException, w, answers))
      /\ (ignore_end_positions_not_set = true ->
          run (guarded m ignore_end_positions_not_set) answers w
          = run (wrapped m) answers w))
  /\ (end_position_info (dev w) = None ->
      run (guarded m ignore_end_positions_not_set) answers w
      = run (wrapped m) answers w)
  /\ (forall w1,
         connected w = true ->
         refresh_disconnect_timer None false w = (Returns tt, w1) ->
         run (issue m ignore_end_positions_not_set) answers w
         = (if guard_fails ignore_end_positions_not_set w
            then Some (Raises NoEndPositionsException, w1, answers)
            else run (wrapped m) answers w1)
         /\ filter is_write (log w1) = filter is_write (log w))
  /\ issue m ignore_end_positions_not_set
     = cbind (connect false)
             (fun ready => if negb ready then Ret (Some false)
                           else guarded m ignore_end_positions_not_set)
  /\ (connected w = false ->
      (forall v w2,
          value_truthy v = true ->
          resume (fst (step (issue m ignore_end_positions_not_set) w)) (Returns v) w2
          = if same_time (_last_connection_caller_time (dev w2)) (clock w (ticks w))
            then if guard_fails ignore_end_positions_not_set w2
                 then (Done (Raises NoEndPositionsException),
                       snd (set_self (with_connection_task None) w2))
                 else step (wrapped m) (snd (set_self (with_connection_task None) w2))
            else (Done (Returns (Some false)),
                  snd (set_self (with_connection_task None) w2)))
      /\ (forall v w2,
             value_truthy v = false ->
             resume (fst (step (issue m ignore_end_positions_not_set) w)) (Returns v) w2
             = (Done (Returns (Some false)), w2)))
  /\ (forall flag,
         invoke (method_of m) (keyword_call m flag)
         = issue m match flag with
                   | Some f => Py.truthy f
                   | None => false
                   end).
Proof.
  split; [|split; [|split; [|split; [|split]]]].
  - rewrite run_guarded. unfold guard_fails.
    intros info -> Hup. rewrite Hup. split; intros ->; reflexivity.
  - rewrite run_guarded. unfold guard_fails. intros ->. reflexivity.
  - intros w1 Hc Hr.
    destruct (run_issue_connected m ignore_end_positions_not_set answers w w1 Hc Hr)
      as [Hrun Hguard].
    rewrite Hrun, run_guarded, Hguard. split; [reflexivity|].
    exact (refresh_writes_nothing None false w w1 Hr).
  - apply issue_connects_first.
  - intros Hc. rewrite issue_requires_connection.
    destruct (requires_connection_resumes
                (fun _ : unit => guarded m ignore_end_positions_not_set) tt w Hc)
      as [Hready Hnot].
    split; [|exact Hnot].
    intros v w2 Hv. rewrite (Hready v w2 Hv), step_guarded, guard_fails_cleared.
    reflexivity.
  - intros [f|]; destruct m; reflexivity.
Qed.

(** C10, as amended.  For [0 <= p <= 100] the body of the percentage
    command sends the frame made of the percent command type, [p] as
    exactly two hexadecimal digits and ["00"]; for any other [p] it
    raises [AssertionError] before it builds a frame or writes anything.
    The body is what a call with the percentage by keyword runs after
    the decorators: on a connected device after the timer refresh and
    the end-position guard, which raises instead when it fails; on a
    device that is not connected only for the caller to whom [connect]
    returns [True], after the connection task has run, and after the
    guard. *)
Theorem percentage_frame p :
  (0 <= p <= 100 ->
   percentage__wrapped p
   = _send_command
       (MotionCommandType_PERCENT
        ++ String (Py.hex_digit (p / 16)) (String (Py.hex_digit (p mod 16)) EmptyString)
        ++ "00") false
   /\ Py.fromhex (two_hex_digits p) = Some [p]
   /\ String.length (two_hex_digits p) = 2%nat)
  /\ (~ 0 <= p <= 100 ->
      percentage__wrapped p = Throw AssertionError
      /\ forall answers w,
          run (percentage__wrapped p) answers w
          = Some (Raises AssertionError, w, answers))
  /\ (forall ignore_end_positions_not_set answers w w1,
         connected w = true ->
         refresh_disconnect_timer None false w = (Returns tt, w1) ->
         run (percentage (ignore_end_positions_not_set, p)) answers w
         = (if guard_fails ignore_end_positions_not_set w
            then Some (Raises NoEndPositionsException, w1, answers)
            else if (0 <=? p) && (p <=? 100)
                 then run (_send_command (percentage_command_prefix p) false) answers w1
                 else Some (Raises AssertionError, w1, answers))
         /\ filter is_write (log w1) = filter is_write (log w))
  /\ (forall ignore_end_positions_not_set w,
         connected w = false ->
         (exists t,
             awaited (fst (step (percentage (ignore_end_positions_not_set, p)) w))
             = Some (AwaitTask t))
         /\ (forall v w2,
                value_truthy v = true ->
                resume (fst (step (percentage (ignore_end_positions_not_set, p)) w))
                       (Returns v) w2
                = if same_time (_last_connection_caller_time (dev w2)) (clock w (ticks w))
                  then if guard_fails ignore_end_positions_not_set w2
                       then (Done (Raises NoEndPositionsException),
                             snd (set_self (with_connection_task None) w2))
                       else if (0 <=? p) && (p <=? 100)
                            then step (_send_command (percentage_command_prefix p) false)
                                      (snd (set_self (with_connection_task None) w2))
                            else (Done (Raises AssertionError),
                                  snd (set_self (with_connection_task None) w2))
                  else (Done (Returns (Some false)),
                        snd (set_self (with_connection_task None) w2)))
         /\ (forall v w2,
                value_truthy v = false ->
                resume (fst (step (percentage (ignore_end_positions_not_set, p)) w))
                       (Returns v) w2
                = (Done (Returns (Some false)), w2)))
  /\ (forall flag,
         invoke percentage_method (keyword_call (Percentage p) flag)
         = percentage (match flag with
                       | Some f => Py.truthy f
                       | None => false
                       end, p)).
Proof.
  split; [|split; [|split; [|split]]].
  - unfold percentage__wrapped, percentage_command_prefix. intros Hp.
    destruct (two_hex_digits_byte p) as [Hd Hf]; [lia|].
    replace (negb (p <? 0) && negb (p >? 100)) with true by lia.
    rewrite Hf, Hd. repeat split; reflexivity.
  - unfold percentage__wrapped. intros Hp.
    replace (negb (p <? 0) && negb (p >? 100)) with false by lia.
    split; reflexivity.
  - intros ig answers w w1 Hc Hr.
    destruct (run_issue_connected (Percentage p) ig answers w w1 Hc Hr) as [Hrun Hguard].
    cbn [issue] in Hrun. rewrite Hrun, run_guarded, Hguard.
    cbn [wrapped]. unfold percentage__wrapped.
    replace (negb (p <? 0) && negb (p >? 100)) with ((0 <=? p) && (p <=? 100)) by lia.
    split; [|exact (refresh_writes_nothing None false w w1 Hr)].
    destruct (guard_fails ig w); [reflexivity|].
    destruct ((0 <=? p) && (p <=? 100)); reflexivity.
  - intros ig w Hc.
    change (percentage (ig, p)) with (issue (Percentage p) ig).
    rewrite issue_requires_connection.
    destruct (requires_connection_resumes
                (fun _ : unit => guarded (Percentage p) ig) tt w Hc) as [Hready Hnot].
    split; [|split; [|exact Hnot]].
    + destruct (connect_suspends false w Hc) as (Haw & _).
      unfold requires_connection. rewrite step_cbind.
      destruct (step (connect false) w) as [[r|a k] w'] eqn:Hstep;
        cbn [fst snd awaited] in *; [discriminate Haw|].
      eexists. exact Haw.
    + intros v w2 Hv. rewrite (Hready v w2 Hv), step_guarded, guard_fails_cleared.
      cbn [wrapped]. unfold percentage__wrapped.
      replace (negb (p <? 0) && negb (p >? 100)) with ((0 <=? p) && (p <=? 100)) by lia.
      destruct (same_time (_last_connection_caller_time (dev w2)) (clock w (ticks w)));
        [|reflexivity].
      destruct (guard_fails ig w2); [reflexivity|].
      destruct ((0 <=? p) && (p <=? 100)); reflexivity.
  - intros [f|]; reflexivity.
Qed.

(** *** The body of the connection task *)

(** A refresh with [force=False] succeeds whenever an armed timer has a
    deadline, and touches only the timer attributes and the timers. *)
Lemma refresh_unforced timeout w :
  (_disconnect_timer (dev w) <> None -> _disconnect_time (dev w) <> None) ->
  exists w1 time timer,
    refresh_disconnect_timer timeout false w = (Returns tt, w1)
    /\ dev w1 = with_disconnect_timer time timer (dev w)
    /\ (timer <> None -> time <> None)
    /\ tasks_created (log w1) = tasks_created (log w).
Proof.
  intros Hok.
  destruct (_disconnect_timer (dev w)) as [timer|] eqn:Htimer.
  - destruct (_disconnect_time (dev w)) as [current|] eqn:Htime;
      [|exfalso; now apply Hok].
    destruct (Z_gt_le_dec current
                (new_disconnect_time_of (clock w (ticks w)) (seconds_of timeout)))
      as [Hlater | Hle].
    + exists (snd (time_ns w)), (Some current), (Some timer).
      split; [apply (refresh_kept timeout w timer current Htimer Htime Hlater)|].
      split; [|split; [discriminate | reflexivity]].
      cbn. destruct w as [d l ck tk n]. destruct d. cbn in *. now subst.
    + eexists _, _, _. split.
      * apply (refresh_replaced timeout false w). right. right.
        exists current. split; [exact Htime | exact Hle].
      * split; [reflexivity|]. split; [discriminate|].
        cbn [log]. rewrite Htimer, !tasks_created_app. cbn. now rewrite app_nil_r.
  - eexists _, _, _. split.
    + apply (refresh_replaced timeout false w). right. now left.
    + split; [reflexivity|]. split; [discriminate|].
      cbn [log]. rewrite Htimer, !tasks_created_app. cbn. now rewrite app_nil_r.
Qed.

(** A query command sent on a live link whose write is acknowledged. *)
Lemma run_query_connected (command_prefix : string) c v rest w :
  _current_bleak_client (dev w) = Some c ->
  is_connected_now c = true ->
  1 <= SETTING_MAX_COMMAND_ATTEMPTS ->
  (forall s, Py.fromhex (encrypt s) <> None) ->
  (_disconnect_timer (dev w) <> None -> _disconnect_time (dev w) <> None) ->
  exists w1 time timer,
    run (requires_connection (fun _ : unit => _send_command command_prefix true) tt)
        (Returns v :: rest) w
    = Some (Returns (Some true), w1, rest)
    /\ dev w1 = with_disconnect_timer time timer (dev w)
    /\ (timer <> None -> time <> None)
    /\ tasks_created (log w1) = tasks_created (log w).
Proof.
  intros Hc Hlive Hmax Hhex Hok.
  destruct (refresh_unforced None w Hok) as (w1 & time & timer & Hr & Hdev & Htm & Hlog).
  assert (Hc1 : _current_bleak_client (dev w1) = Some c) by (rewrite Hdev; exact Hc).
  destruct (Py.fromhex (encrypt (command_prefix ++ get_time (clock w1 (ticks w1)))))
    as [data|] eqn:Hdata; [|exfalso; eapply Hhex; exact Hdata].
  destruct (send_command_succeeds_after_failures command_prefix true c data [] v rest w1
              Hc1 Hdata) as (w2 & Hrun & Hdev2 & Hlog2); [cbn; lia | reflexivity |].
  exists w2, time, timer. split; [|split; [|split]].
  - unfold requires_connection. rewrite run_cbind.
    unfold connect. rewrite run_cbind, run_call, is_connected_reads.
    unfold connected. rewrite Hc, Hlive. cbn [fst snd negb].
    rewrite run_cbind, run_call, Hr. cbn [fst snd run negb]. exact Hrun.
  - congruence.
  - exact Htm.
  - rewrite Hlog2, tasks_created_app, Hlog. cbn. now rewrite app_nil_r.
Qed.

Lemma set_connection_returns c w : fst (_set_connection c w) = Returns tt.
Proof.
  unfold _set_connection, bind, self, emit, ret, set_self.
  destruct (_connection_callback (dev w)); reflexivity.
Qed.

Lemma set_connection_tasks c w :
  tasks_created (log (snd (_set_connection c w))) = tasks_created (log w).
Proof.
  unfold _set_connection, bind, self, emit, ret, set_self, logged.
  destruct (_connection_callback (dev w)); cbn [snd log]; [|reflexivity].
  rewrite tasks_created_app. cbn. now rewrite app_nil_r.
Qed.

Lemma run_await a v answers w :
  run (await a) (Returns v :: answers) w = Some (Returns v, logged w [Awaited a], answers).
Proof. reflexivity. Qed.

(** When the transport answers every request of the connection task and
    the link stays up, [_connect] returns [True], ends [CONNECTED], and
    neither assigns [_connection_task] or [_last_connection_caller_time]
    nor creates a task. *)
Lemma connect_task_succeeds use_notification_delay c v1 v2 v3 v4 rest w :
  _connection_type (dev w) <> CONNECTING ->
  is_connected_now c = true ->
  1 <= SETTING_MAX_COMMAND_ATTEMPTS ->
  (forall s, Py.fromhex (encrypt s) <> None) ->
  (_disconnect_timer (dev w) <> None -> _disconnect_time (dev w) <> None) ->
  exists w',
    run (_connect use_notification_delay)
        (Returns (VClient c) :: Returns v1 :: Returns v2
         :: (if use_notification_delay then [Returns v3] else [])
         ++ Returns v4 :: rest)%list w
    = Some (Returns true, w', rest)
    /\ coordinator_untouched w w'
    /\ _connection_type (dev w') = CONNECTED
    /\ connected w' = true.
Proof.
  intros Htype Hlive Hmax Hhex Hok.
  unfold _connect. rewrite run_cbind, run_call. cbn [self fst snd].
  assert (Hbranch : forall (X : Type) (x y : X),
             match _connection_type (dev w) with CONNECTING => x | _ => y end = y).
  { intros X x y. destruct (_connection_type (dev w)); congruence. }
  rewrite Hbranch. clear Hbranch.
  rewrite run_cbind, run_call, set_connection_returns. cbn [fst snd].
  rewrite run_cbind, run_await.
  rewrite run_cbind, run_call. cbn [set_self fst snd].
  rewrite run_cbind, run_call, set_connection_returns. cbn [fst snd].
  rewrite run_cbind, run_await.
  match goal with |- context [run _ _ ?x] => remember x as wa eqn:Ewa end.
  assert (Hdeva : dev wa
                  = with_connection_type CONNECTED
                      (with_current_bleak_client (Some c)
                         (with_connection_type CONNECTING (dev w)))).
  { subst wa. cbn [logged dev].
    rewrite (proj1 (set_connection_effect CONNECTED _)). cbn [dev].
    rewrite (proj1 (set_connection_effect CONNECTING _)). reflexivity. }
  assert (Hloga : tasks_created (log wa) = tasks_created (log w)).
  { subst wa. cbn [logged log]. rewrite tasks_created_app, set_connection_tasks.
    cbn [log logged]. rewrite tasks_created_app, set_connection_tasks. cbn.
    now rewrite !app_nil_r. }
  clear Ewa.
  assert (Hca : _current_bleak_client (dev wa) = Some c) by (now rewrite Hdeva).
  assert (Hoka : _disconnect_timer (dev wa) <> None -> _disconnect_time (dev wa) <> None)
    by (rewrite Hdeva; exact Hok).
  destruct (run_query_connected MotionCommandType_SET_KEY c v2
              ((if use_notification_delay then [Returns v3] else []) ++ Returns v4 :: rest)%list
              wa Hca Hlive Hmax Hhex Hoka) as (wb & tb & rb & Hrunb & Hdevb & Htmb & Hlogb).
  rewrite run_cbind. unfold set_key, set_key__wrapped. rewrite Hrunb.
  set (wc := if use_notification_delay
             then logged wb [Awaited (Sleep SETTING_NOTIFICATION_DELAY)] else wb).
  assert (Hsleep :
            run (if use_notification_delay
                 then cbind (await (Sleep SETTING_NOTIFICATION_DELAY)) (fun _ => Ret tt)
                 else Ret tt)
                ((if use_notification_delay then [Returns v3] else []) ++ Returns v4 :: rest)%list
                wb
            = Some (Returns tt, wc, Returns v4 :: rest)).
  { subst wc. destruct use_notification_delay; reflexivity. }
  assert (Hdevc : dev wc = dev wb) by (subst wc; now destruct use_notification_delay).
  assert (Hlogc : tasks_created (log wc) = tasks_created (log wb)).
  { subst wc. destruct use_notification_delay; [|reflexivity].
    cbn [logged log]. rewrite tasks_created_app. cbn. now rewrite app_nil_r. }
  clearbody wc.
  rewrite run_cbind, Hsleep.
  assert (Hcc : _current_bleak_client (dev wc) = Some c)
    by (now rewrite Hdevc, Hdevb, Hdeva).
  assert (Hokc : _disconnect_timer (dev wc) <> None -> _disconnect_time (dev wc) <> None)
    by (rewrite Hdevc, Hdevb; exact Htmb).
  destruct (run_query_connected MotionCommandType_STATUS_QUERY c v4 rest wc
              Hcc Hlive Hmax Hhex Hokc)
    as (wd & td & rd & Hrund & Hdevd & Htmd & Hlogd).
  rewrite run_cbind. unfold status_query, status_query__wrapped. rewrite Hrund.
  rewrite run_cbind, run_call. cbn [fst snd emit].
  destruct (refresh_unforced None (logged wd [SetDisconnectedCallback c]))
    as (we & te & re & Hre & Hdeve & Htme & Hloge).
  { cbn [logged dev]. rewrite Hdevd. exact Htmd. }
  rewrite run_cbind, run_call, Hre. cbn [fst snd run].
  exists we. split; [reflexivity|]. split; [|split].
  - unfold coordinator_untouched.
    rewrite Hdeve, Hloge. cbn [logged dev log]. rewrite Hdevd, Hdevc, Hdevb, Hdeva.
    rewrite tasks_created_app, Hlogd, Hlogc, Hlogb, Hloga. cbn.
    rewrite app_nil_r. repeat split; reflexivity.
  - rewrite Hdeve. cbn [logged dev]. rewrite Hdevd, Hdevc, Hdevb, Hdeva. reflexivity.
  - unfold connected. rewrite Hdeve. cbn [logged dev].
    rewrite Hdevd, Hdevc, Hdevb, Hdeva. cbn. exact Hlive.
Qed.

End Commands.

(* ================================================================== *)
(** * The properties on the sample device *)
(* ================================================================== *)

(** With a clock that advances between readings, the last of three
    coalesced callers is the one that returns [True]. *)
Example three_callers_last_returns_true :
  returned (fst (resume_all (map fst (fst (three_callers sample_clock)))
                   (Returns (VBool true)) (snd (three_callers sample_clock))))
  = [Some (Returns false); Some (Returns false); Some (Returns true)].
Proof. vm_compute. reflexivity. Qed.

(** Callers whose clock readings tie with the last one are not told
    apart from it. *)
Example three_callers_tied_readings :
  returned (fst (resume_all (map fst (fst (three_callers coarse_clock)))
                   (Returns (VBool true)) (snd (three_callers coarse_clock))))
  = [Some (Returns true); Some (Returns true); Some (Returns true)].
Proof. vm_compute. reflexivity. Qed.

Lemma coalesced_connect_calls_witness :
  let w0 := world_of new_device sample_clock in
  let t := first_task false w0 in
  let waiters := fst (three_callers sample_clock) in
  let w := snd (three_callers sample_clock) in
  tasks_created (log w) = (tasks_created (log w0) ++ [t])%list
  /\ _connection_task (dev w) = Some t
  /\ Forall (fun sw => awaited (fst sw) = Some (AwaitTask t)) waiters
  /\ forall v w2,
       value_truthy v = true ->
       _last_connection_caller_time (dev w2) = _last_connection_caller_time (dev w) ->
       returned (fst (resume_all (map fst waiters) (Returns v) w2))
       = map (fun sw => Some (Returns (snd sw =? last (map snd waiters) 0))) waiters
       /\ _connection_task (dev (snd (resume_all (map fst waiters) (Returns v) w2)))
          = None
       /\ (StronglySorted Z.lt (map snd waiters) ->
           returned (fst (resume_all (map fst waiters) (Returns v) w2))
           = (repeat (Some (Returns false)) (List.length waiters - 1)
              ++ [Some (Returns true)])%list).
Proof.
  cbv zeta.
  apply (coalesced_connect_calls (K := sample_const)
           (first_task false (world_of new_device sample_clock))
           (world_of new_device sample_clock)
           (fst (three_callers sample_clock))
           (snd (three_callers sample_clock))).
  apply (connect_calls_coalescing (K := sample_const)
           false [false; false] (world_of new_device sample_clock));
    reflexivity.
Defined.

(** Three callers on a clock too coarse to tell their calls apart: one
    task, and all three return [True]. *)
Lemma tied_callers_all_return_true_witness :
  let w0 := world_of new_device coarse_clock in
  let waiters := fst (three_callers coarse_clock) in
  let w := snd (three_callers coarse_clock) in
  tasks_created (log w) = [first_task false w0]
  /\ Forall (fun sw => awaited (fst sw) = Some (AwaitTask (first_task false w0))) waiters
  /\ returned (fst (resume_all (map fst waiters) (Returns (VBool true)) w))
     = [Some (Returns true); Some (Returns true); Some (Returns true)].
Proof.
  cbv zeta.
  apply (tied_callers_all_return_true (K := sample_const)
           (first_task false (world_of new_device coarse_clock))
           (world_of new_device coarse_clock)
           (fst (three_callers coarse_clock))
           (snd (three_callers coarse_clock))
           1700000000000000000 (VBool true)
           (snd (three_callers coarse_clock))).
  - apply (connect_calls_coalescing (K := sample_const)
             false [false; false] (world_of new_device coarse_clock));
      reflexivity.
  - repeat constructor.
  - reflexivity.
  - reflexivity.
Defined.

(** Callers that call [connect] again after a failed attempt.  Two
    callers wait for the first task, which ends in [BleakNotFoundError].
    The first caller is resumed and calls [connect] again, which creates
    a second task; the second caller is then resumed, its handler clears
    the record of that second task, and its own new call creates a
    third: two attempts are in flight at once. *)
Example retrying_callers_start_concurrent_attempts :
  let w0 := world_of new_device sample_clock in
  let a := step (connect (K := sample_const) false) w0 in
  let b := step (connect (K := sample_const) false) (snd a) in
  let a_failed := resume (fst a) (Raises BleakNotFoundError) (snd b) in
  let a_again := step (connect (K := sample_const) false) (snd a_failed) in
  let b_failed := resume (fst b) (Raises BleakNotFoundError) (snd a_again) in
  let b_again := step (connect (K := sample_const) false) (snd b_failed) in
  let task n := {| task_id := n; task_use_notification_delay := false;
                   task_by_ha := false |} in
  tasks_created (log (snd b_again)) = [task 0%nat; task 1%nat; task 2%nat]
  /\ awaited (fst a_again) = Some (AwaitTask (task 1%nat))
  /\ awaited (fst b_again) = Some (AwaitTask (task 2%nat))
  /\ connected (snd b_again) = false.
Proof. vm_compute. repeat split; reflexivity. Qed.

Lemma send_command_exhausted_returns_none_witness :
  exists w',
    run (_send_command (K := sample_const) (crypt := sample_crypt) "03020301" false)
        (three_failures ++ [])%list (world_of connected_device sample_clock)
    = Some (Returns None, w', [])
    /\ dev w' = dev (world_of connected_device sample_clock)
    /\ log w'
       = (log (world_of connected_device sample_clock)
          ++ repeat (Awaited (WriteGattChar sample_client
                                (MotionCharacteristic_COMMAND (Const := sample_const))
                                [3; 2; 3; 1; 23; 1; 10; 12; 30; 0]))
                    (Z.to_nat (SETTING_MAX_COMMAND_ATTEMPTS (Const := sample_const))))%list
    /\ existsb is_client_disconnect (log w')
       = existsb is_client_disconnect (log (world_of connected_device sample_clock)).
Proof.
  apply (send_command_exhausted_returns_none (K := sample_const) (crypt := sample_crypt)
           "03020301" false sample_client [3; 2; 3; 1; 23; 1; 10; 12; 30; 0]
           three_failures [] (world_of connected_device sample_clock)).
  - reflexivity.
  - reflexivity.
  - reflexivity.
  - reflexivity.
Defined.

(** C3, as stated, fails: [open] on a disconnected device that knows its
    end positions are not set, issued without the bypass flag, starts a
    connection task and suspends on it; the guard has not been evaluated
    (nothing was raised). *)
Lemma doomed_command_starts_connection :
  guard_fails false (world_of uncalibrated_device sample_clock) = true
  /\ tasks_created (log (world_of uncalibrated_device sample_clock)) = []
  /\ awaited (fst (step (issue (K := sample_const) (crypt := sample_crypt) Open false)
                        (world_of uncalibrated_device sample_clock)))
     = Some (AwaitTask (first_task false (world_of uncalibrated_device sample_clock)))
  /\ finished (fst (step (issue (K := sample_const) (crypt := sample_crypt) Open false)
                         (world_of uncalibrated_device sample_clock)))
     = None
  /\ tasks_created
       (log (snd (step (issue (K := sample_const) (crypt := sample_crypt) Open false)
                       (world_of uncalibrated_device sample_clock))))
     = [first_task false (world_of uncalibrated_device sample_clock)].
Proof. repeat split; reflexivity. Qed.

Lemma connection_precedes_end_position_guard_witness :
  (awaited (fst (step (issue (K := sample_const) (crypt := sample_crypt) Open false)
                      (world_of uncalibrated_device sample_clock)))
   = Some (AwaitTask (first_task false (world_of uncalibrated_device sample_clock)))
   /\ tasks_created
        (log (snd (step (issue (K := sample_const) (crypt := sample_crypt) Open false)
                        (world_of uncalibrated_device sample_clock))))
      = [first_task false (world_of uncalibrated_device sample_clock)])
  /\ step (issue (K := sample_const) (crypt := sample_crypt) Open false)
          (world_of connected_device sample_clock)
     = step (guarded (K := sample_const) (crypt := sample_crypt) Open false)
            (snd (refresh_disconnect_timer (K := sample_const) None false
                    (world_of connected_device sample_clock))).
Proof.
  split.
  - destruct (proj1 (connection_precedes_end_position_guard
                       (K := sample_const) (crypt := sample_crypt) Open false
                       (world_of uncalibrated_device sample_clock)) eq_refl)
      as (Haw & _ & Hcreated & _).
    split; [exact Haw | exact Hcreated].
  - apply (proj2 (connection_precedes_end_position_guard
                    (K := sample_const) (crypt := sample_crypt) Open false
                    (world_of connected_device sample_clock))).
    + reflexivity.
    + reflexivity.
Defined.

(** The connected sample device has a deadline a minute after the first
    clock reading.  A refresh by 30 seconds leaves it alone; a forced one
    arms a timer for 30 seconds with the deadline 30 seconds after the
    reading; a forced one without a timeout takes the fifteen seconds of
    [SETTING_DISCONNECT_TIME]. *)
Lemma refresh_disconnect_timer_policy_witness :
  (exists w',
      refresh_disconnect_timer (K := sample_const) (Some 30) false
        (world_of connected_device sample_clock) = (Returns tt, w')
      /\ dev w' = dev (world_of connected_device sample_clock)
      /\ log w' = log (world_of connected_device sample_clock))
  /\ (exists w' timer',
         refresh_disconnect_timer (K := sample_const) (Some 30) true
           (world_of connected_device sample_clock) = (Returns tt, w')
         /\ _disconnect_time (dev w') = Some 1700000030000
         /\ _disconnect_timer (dev w') = Some timer'
         /\ log w' = [TimerCancelled (LoopTimerHandle 0); TimerArmed timer' 30])
  /\ (exists w' timer',
         refresh_disconnect_timer (K := sample_const) None true
           (world_of connected_device sample_clock) = (Returns tt, w')
         /\ _disconnect_time (dev w') = Some 1700000015000
         /\ _disconnect_timer (dev w') = Some timer'
         /\ log w' = [TimerCancelled (LoopTimerHandle 0); TimerArmed timer' 15]).
Proof.
  pose proof (refresh_disconnect_timer_policy (K := sample_const) (Some 30)
                (world_of connected_device sample_clock)) as H.
  pose proof (refresh_disconnect_timer_policy (K := sample_const) None
                (world_of connected_device sample_clock)) as H0.
  cbv zeta in H, H0. destruct H as [Hkeep Hforce]. destruct H0 as [_ Hdefault].
  split; [|split].
  - apply (Hkeep (LoopTimerHandle 0) 1700000060000); reflexivity.
  - exact Hforce.
  - exact Hdefault.
Defined.

Lemma disconnect_cancels_connection_attempt_witness :
  let w0 := world_of new_device sample_clock in
  let t := first_task false w0 in
  let waiters := fst (three_callers sample_clock) in
  let w := snd (three_callers sample_clock) in
  (forall scenario,
      scenario = disconnect_waiters_first
      \/ scenario = disconnect_waiters_last ->
      exists d rs w',
        scenario (map fst waiters) t (Returns (VBool true)) (Returns VNone) w = (d, rs, w')
        /\ finished d = Some (Returns tt)
        /\ returned rs = repeat (Some (Returns false)) (List.length waiters)
        /\ _connection_task (dev w') = None
        /\ _connection_type (dev w') = DISCONNECTED
        /\ _current_bleak_client (dev w') = None
        /\ In (TaskCancelRequested t) (log w')
        /\ (forall timer,
               _disconnect_timer (dev w) = Some timer ->
               In (TimerCancelled timer) (log w')))
  /\ (forall wd,
         _connection_task (dev wd) = None ->
         _current_bleak_client (dev wd) = None ->
         fst (step disconnect wd) = Done (Returns tt)
         /\ dev (snd (step disconnect wd))
            = with_connection_type DISCONNECTED (dev wd)).
Proof.
  cbv zeta.
  apply (disconnect_cancels_connection_attempt (K := sample_const)
           (first_task false (world_of new_device sample_clock))
           (world_of new_device sample_clock)
           (fst (three_callers sample_clock))
           (snd (three_callers sample_clock))
           (Returns (VBool true)) VNone).
  apply (connect_calls_coalescing (K := sample_const)
           false [false; false] (world_of new_device sample_clock));
    reflexivity.
Defined.

(** [disconnect] called while the three callers wait: all three return
    [False] and the device ends [DISCONNECTED]. *)
Example three_callers_disconnected :
  let '(d, rs, w') :=
    disconnect_waiters_first
      (map fst (fst (three_callers sample_clock)))
      (first_task false (world_of new_device sample_clock))
      (Returns (VBool true)) (Returns VNone) (snd (three_callers sample_clock)) in
  finished d = Some (Returns tt)
  /\ returned rs = [Some (Returns false); Some (Returns false); Some (Returns false)]
  /\ _connection_type (dev w') = DISCONNECTED
  /\ _connection_task (dev w') = None.
Proof. vm_compute. repeat split; reflexivity. Qed.

(** C7, as stated, fails.  Two callers issue [open] on a device that is
    not connected and knows its end positions are not set; neither sets
    the bypass flag.  Once the connection task has succeeded, the first
    caller, superseded by the second, gets [False]: no calibration error
    is raised for it.  And [percentage(50)], with the percentage passed
    positionally on the connected device, raises [TypeError]: the wrapper
    has taken 50 for its flag. *)
Lemma superseded_command_returns_false :
  let w0 := world_of uncalibrated_device sample_clock in
  let first := step (issue (K := sample_const) (crypt := sample_crypt) Open false) w0 in
  let second :=
    step (issue (K := sample_const) (crypt := sample_crypt) Open false) (snd first) in
  (guard_fails false w0 = true
   /\ match run (task_body (K := sample_const) (crypt := sample_crypt)
                   (first_task false w0))
                [Returns (VClient sample_client); Returns VNone; Returns VNone;
                 Returns VNone]
                (snd second) with
      | Some (Returns ready, w3, []) =>
          ready = true
          /\ guard_fails false w3 = true
          /\ fst (resume (fst first) (Returns (VBool ready)) w3)
             = Done (Returns (Some false))
      | _ => False
      end)
  /\ option_map (fun r => fst (fst r))
       (run (invoke (K := sample_const) (crypt := sample_crypt) percentage_method
               {| positional := [Py.PyInt 50]; keywords := [] |})
            []
            (world_of (with_end_position_info (Some uncalibrated) connected_device)
                      sample_clock))
     = Some (Raises TypeError).
Proof. vm_compute. repeat split; reflexivity. Qed.

Lemma end_position_guard_witness :
  run (guarded (K := sample_const) (crypt := sample_crypt) Open false) []
      (world_of uncalibrated_device sample_clock)
  = Some (Raises NoEndPositionsException, world_of uncalibrated_device sample_clock, [])
  /\ run (guarded (K := sample_const) (crypt := sample_crypt) Open true) three_failures
         (world_of uncalibrated_device sample_clock)
     = run (wrapped (K := sample_const) (crypt := sample_crypt) Open) three_failures
           (world_of uncalibrated_device sample_clock)
  /\ run (guarded (K := sample_const) (crypt := sample_crypt) Open false) three_failures
         (world_of new_device sample_clock)
     = run (wrapped (K := sample_const) (crypt := sample_crypt) Open) three_failures
           (world_of new_device sample_clock)
  /\ (run (issue (K := sample_const) (crypt := sample_crypt) Open false) three_failures
          (world_of (with_end_position_info (Some uncalibrated) connected_device)
                    sample_clock)
      = Some (Raises NoEndPositionsException,
              snd (refresh_disconnect_timer (K := sample_const) None false
                     (world_of (with_end_position_info (Some uncalibrated) connected_device)
                               sample_clock)),
              three_failures)
      /\ filter is_write
           (log (snd (refresh_disconnect_timer (K := sample_const) None false
                        (world_of (with_end_position_info (Some uncalibrated)
                                     connected_device) sample_clock))))
         = filter is_write
             (log (world_of (with_end_position_info (Some uncalibrated) connected_device)
                            sample_clock)))
  /\ resume (fst (step (issue (K := sample_const) (crypt := sample_crypt) Open false)
                       (world_of uncalibrated_device sample_clock)))
            (Returns (VBool true))
            (snd (step (issue (K := sample_const) (crypt := sample_crypt) Open false)
                       (world_of uncalibrated_device sample_clock)))
     = (Done (Raises NoEndPositionsException),
        snd (set_self (with_connection_task None)
               (snd (step (issue (K := sample_const) (crypt := sample_crypt) Open false)
                          (world_of uncalibrated_device sample_clock)))))
  /\ invoke (K := sample_const) (crypt := sample_crypt) percentage_method
       {| positional := [];
          keywords := [("percentage", Py.PyInt 50);
                       ("ignore_end_positions_not_set", Py.PyBool true)] |}
     = issue (K := sample_const) (crypt := sample_crypt) (Percentage 50) true.
Proof.
  split; [|split; [|split; [|split; [|split]]]].
  - apply (proj1 (end_position_guard (K := sample_const) (crypt := sample_crypt)
                    Open false [] (world_of uncalibrated_device sample_clock))
             uncalibrated eq_refl eq_refl).
    reflexivity.
  - apply (proj1 (end_position_guard (K := sample_const) (crypt := sample_crypt)
                    Open true three_failures (world_of uncalibrated_device sample_clock))
             uncalibrated eq_refl eq_refl).
    reflexivity.
  - apply (proj1 (proj2 (end_position_guard (K := sample_const) (crypt := sample_crypt)
                           Open false three_failures (world_of new_device sample_clock)))).
    reflexivity.
  - apply (proj1 (proj2 (proj2 (end_position_guard
                                  (K := sample_const) (crypt := sample_crypt)
                                  Open false three_failures
                                  (world_of (with_end_position_info (Some uncalibrated)
                                               connected_device) sample_clock))))).
    + reflexivity.
    + reflexivity.
  - apply (proj1 (proj1 (proj2 (proj2 (proj2 (proj2
             (end_position_guard (K := sample_const) (crypt := sample_crypt)
                Open false [] (world_of uncalibrated_device sample_clock))))))
             eq_refl)
             (VBool true)).
    reflexivity.
  - apply (proj2 (proj2 (proj2 (proj2 (proj2
             (end_position_guard (K := sample_const) (crypt := sample_crypt)
                (Percentage 50) false [] (world_of new_device sample_clock))))))
             (Some (Py.PyBool true))).
Defined.

(** C10, as stated, fails.  [percentage(percentage=200)] on a new
    device, which is not connected, suspends on the connection task; the
    task connects and writes its two frames; only then does the caller
    reach the assertion.  And [percentage(200)], with the percentage
    passed positionally on the connected device, raises [TypeError], not
    [AssertionError]. *)
Lemma out_of_range_percentage_after_writes :
  let w0 := world_of new_device sample_clock in
  let call := step (percentage (K := sample_const) (crypt := sample_crypt) (false, 200)) w0 in
  (awaited (fst call) = Some (AwaitTask (first_task false w0))
   /\ match run (task_body (K := sample_const) (crypt := sample_crypt)
                   (first_task false w0))
                [Returns (VClient sample_client); Returns VNone; Returns VNone;
                 Returns VNone]
                (snd call) with
      | Some (Returns ready, w2, []) =>
          ready = true
          /\ List.length (writes (log w2)) = 2%nat
          /\ fst (resume (fst call) (Returns (VBool ready)) w2)
             = Done (Raises AssertionError)
      | _ => False
      end)
  /\ option_map (fun r => fst (fst r))
       (run (invoke (K := sample_const) (crypt := sample_crypt) percentage_method
               {| positional := [Py.PyInt 200]; keywords := [] |})
            [] (world_of connected_device sample_clock))
     = Some (Raises TypeError).
Proof. vm_compute. repeat split; reflexivity. Qed.

Lemma percentage_frame_witness :
  (percentage__wrapped (K := sample_const) (crypt := sample_crypt) 50
   = _send_command (K := sample_const) (crypt := sample_crypt) "050204403200" false
   /\ Py.fromhex (two_hex_digits 50) = Some [50]
   /\ String.length (two_hex_digits 50) = 2%nat)
  /\ (percentage__wrapped (K := sample_const) (crypt := sample_crypt) 101
      = Throw AssertionError
      /\ forall answers w,
          run (percentage__wrapped (K := sample_const) (crypt := sample_crypt) 101)
              answers w
          = Some (Raises AssertionError, w, answers))
  /\ (run (percentage (K := sample_const) (crypt := sample_crypt) (false, 101))
          three_failures (world_of connected_device sample_clock)
      = Some (Raises AssertionError,
              snd (refresh_disconnect_timer (K := sample_const) None false
                     (world_of connected_device sample_clock)),
              three_failures)
      /\ filter is_write
           (log (snd (refresh_disconnect_timer (K := sample_const) None false
                        (world_of connected_device sample_clock))))
         = filter is_write (log (world_of connected_device sample_clock)))
  /\ resume (fst (step (percentage (K := sample_const) (crypt := sample_crypt)
                         (false, 101))
                       (world_of new_device sample_clock)))
            (Returns (VBool true))
            (snd (step (percentage (K := sample_const) (crypt := sample_crypt)
                          (false, 101))
                       (world_of new_device sample_clock)))
     = (Done (Raises AssertionError),
        snd (set_self (with_connection_task None)
               (snd (step (percentage (K := sample_const) (crypt := sample_crypt)
                             (false, 101))
                          (world_of new_device sample_clock)))))
  /\ invoke (K := sample_const) (crypt := sample_crypt) percentage_method
       {| positional := []; keywords := [("percentage", Py.PyInt 50)] |}
     = percentage (K := sample_const) (crypt := sample_crypt) (false, 50).
Proof.
  split; [|split; [|split; [|split]]].
  - apply (proj1 (percentage_frame (K := sample_const) (crypt := sample_crypt) 50)). lia.
  - apply (proj1 (proj2 (percentage_frame (K := sample_const) (crypt := sample_crypt) 101))).
    lia.
  - apply (proj1 (proj2 (proj2 (percentage_frame
                                  (K := sample_const) (crypt := sample_crypt) 101)))
             false three_failures (world_of connected_device sample_clock)).
    + reflexivity.
    + reflexivity.
  - apply (proj1 (proj2 (proj1 (proj2 (proj2 (proj2
             (percentage_frame (K := sample_const) (crypt := sample_crypt) 101))))
             false (world_of new_device sample_clock) eq_refl))
             (VBool true)).
    reflexivity.
  - apply (proj2 (proj2 (proj2 (proj2
             (percentage_frame (K := sample_const) (crypt := sample_crypt) 50))))
             None).
Defined.

(** The whole attempt on the sample device: three callers call [connect],
    the task created by the first runs [_connect] against a transport that
    answers every request, and the callers are resumed with the value the
    task returned. *)
Example three_callers_end_to_end :
  let '(waiters, w1) := three_callers sample_clock in
  match run (task_body (K := sample_const) (crypt := sample_crypt)
               (first_task false (world_of new_device sample_clock)))
            [Returns (VClient sample_client); Returns VNone; Returns VNone; Returns VNone]
            w1 with
  | Some (Returns ready, w2, []) =>
      ready = true
      /\ _connection_type (dev w2) = CONNECTED
      /\ _connection_task (dev w2) = _connection_task (dev w1)
      /\ _last_connection_caller_time (dev w2) = _last_connection_caller_time (dev w1)
      /\ tasks_created (log w2) = tasks_created (log w1)
      /\ returned (fst (resume_all (map fst waiters) (Returns (VBool ready)) w2))
         = [Some (Returns false); Some (Returns false); Some (Returns true)]
  | _ => False
  end.
Proof. vm_compute. repeat split; reflexivity. Qed.

(** A status frame on the sample device: position 50, angle 90, battery
    80, speed level 2, both end positions set.  The favorite field is read
    from the position and angle bytes. *)
Example status_frame_decoded :
  _notification_callback (K := sample_const) (crypt := sample_crypt)
    sample_status_frame (world_of listening_device sample_clock)
  = (Returns tt,
     logged (snd (set_self (with_end_position_info
                              (Some (new_MotionPositionInfo 12 (50 * 256 + 90))))
                    (world_of listening_device sample_clock)))
            [StatusCallback 50 50 80 (Some 2)
               {| UP := true; DOWN := true; FAVORITE := Py.PyBool true |}]).
Proof. reflexivity. Qed.

(* ================================================================== *)
(** * Further properties of the device *)
(* ================================================================== *)

(** ** [_send_command] *)

Section DispatcherBounds.

Context {K : Const} {crypt : MotionCrypt}.

Lemma writes_hold_no_disconnect c characteristic data n :
  existsb is_client_disconnect (repeat (Awaited (WriteGattChar c characteristic data)) n)
  = false.
Proof. induction n as [|n IH]; [reflexivity | exact IH]. Qed.

(** What one pass of the loop does, whatever the transport answers. *)
Lemma send_loop_pass command remaining number_of_tries answers w :
  run (_send_command_loop command (S remaining) number_of_tries) answers w
  = match _current_bleak_client (dev w) with
    | None => Some (Returns (Some false), w, answers)
    | Some c =>
        match Py.fromhex command with
        | None => Some (Raises ValueError, w, answers)
        | Some data =>
            let w1 := logged w [Awaited (WriteGattChar c MotionCharacteristic_COMMAND data)] in
            match answers with
            | [] => None
            | Returns _ :: answers' => Some (Returns (Some true), w1, answers')
            | Raises e :: answers' =>
                if isinstance_BleakError e then
                  if number_of_tries =? SETTING_MAX_COMMAND_ATTEMPTS
                  then run (cbind disconnect (fun _ => Throw e)) answers' w1
                  else run (_send_command_loop command remaining (number_of_tries + 1))
                           answers' w1
                else Some (Raises e, w1, answers')
            end
        end
    end.
Proof.
  cbn [_send_command_loop]. rewrite run_cbind.
  cbn [try_except call cbind run self].
  destruct (_current_bleak_client (dev w)) as [c|]; [|reflexivity].
  destruct (Py.fromhex command) as [data|]; [|reflexivity].
  cbn [try_except await cbind run emit snd].
  destruct answers as [|[v|e] answers']; [reflexivity|reflexivity|].
  cbn [try_except cbind run].
  destruct (isinstance_BleakError e); [|reflexivity].
  destruct (number_of_tries =? SETTING_MAX_COMMAND_ATTEMPTS).
  - rewrite !run_cbind.
    destruct (run disconnect answers' _) as [[[[[]|e'] w2] rest]|]; reflexivity.
  - reflexivity.
Qed.

Lemma send_loop_any command remaining :
  forall number_of_tries answers w r w' rest,
    (remaining = 0%nat
     \/ number_of_tries + Z.of_nat remaining <= SETTING_MAX_COMMAND_ATTEMPTS) ->
    run (_send_command_loop command remaining number_of_tries) answers w
    = Some (r, w', rest) ->
    exists n used,
      (n <= remaining)%nat
      /\ answers = (used ++ rest)%list
      /\ List.length used = n
      /\ w' = logged w
                match _current_bleak_client (dev w), Py.fromhex command with
                | Some c, Some data =>
                    repeat (Awaited (WriteGattChar c MotionCharacteristic_COMMAND data)) n
                | _, _ => []
                end
      /\ (forall e, r = Raises e -> isinstance_BleakError e = false)
      /\ (r = Returns (Some true) -> (1 <= n)%nat)
      /\ (r = Returns None -> n = remaining).
Proof.
  induction remaining as [|remaining IH]; intros tries answers w r w' rest Hmax Hrun.
  - cbn in Hrun. injection Hrun as <- <- <-. exists 0%nat, [].
    repeat split; try reflexivity; try discriminate.
    destruct (_current_bleak_client (dev w)), (Py.fromhex command);
      cbn; now rewrite logged_nil.
  - destruct Hmax as [Hmax | Hmax]; [discriminate|].
    rewrite send_loop_pass in Hrun.
    destruct (_current_bleak_client (dev w)) as [c|] eqn:Hc.
    2: { injection Hrun as <- <- <-. exists 0%nat, [].
         repeat split; try reflexivity; try discriminate; try lia.
         now rewrite logged_nil. }
    destruct (Py.fromhex command) as [data|] eqn:Hhex.
    2: { injection Hrun as <- <- <-. exists 0%nat, [].
         repeat split; try reflexivity; try discriminate; try lia.
         - now rewrite logged_nil.
         - intros e [= <-]. reflexivity. }
    cbv zeta in Hrun.
    destruct answers as [|[v|e] answers']; [discriminate| |].
    + injection Hrun as <- <- <-. exists 1%nat, [Returns v].
      repeat split; try reflexivity; try discriminate; try lia.
    + destruct (isinstance_BleakError e) eqn:He.
      * replace (tries =? SETTING_MAX_COMMAND_ATTEMPTS) with false in Hrun by lia.
        apply IH in Hrun; [|right; lia].
        destruct Hrun as (n & used & Hn & Hans & Hlen & Hw & Hexn & Htrue & Hnone).
        exists (S n), (Raises e :: used).
        cbn [logged dev] in Hw. rewrite Hc in Hw.
        fold (logged w [Awaited (WriteGattChar c MotionCharacteristic_COMMAND data)]) in Hw.
        rewrite logged_logged in Hw.
        split; [lia|]. split; [cbn; now rewrite Hans|].
        split; [cbn; now rewrite Hlen|].
        split; [exact Hw|].
        split; [exact Hexn|]. split; [lia|].
        intros H. specialize (Hnone H). lia.
      * injection Hrun as <- <- <-. exists 1%nat, [Raises e].
        repeat split; try reflexivity; try discriminate; try lia.
        intros e' [= <-]. exact He.
Qed.

(** X1. Whatever the transport answers, [_send_command] awaits at most
    [SETTING_MAX_COMMAND_ATTEMPTS] writes, all of the one command built
    before the loop, and nothing else: it changes no attribute of the
    device, never runs [disconnect] and never raises a [BleakError]; when
    it returns [None] it has used every attempt. *)
Theorem send_command_is_bounded command_prefix connection_command answers w r w' rest :
  run (_send_command command_prefix connection_command) answers w = Some (r, w', rest) ->
  exists n used,
    (n <= Z.to_nat SETTING_MAX_COMMAND_ATTEMPTS)%nat
    /\ answers = (used ++ rest)%list
    /\ List.length used = n
    /\ dev w' = dev w
    /\ log w'
       = (log w
          ++ match _current_bleak_client (dev w),
                   Py.fromhex (encrypt (command_prefix ++ get_time (clock w (ticks w)))) with
             | Some c, Some data =>
                 repeat (Awaited (WriteGattChar c MotionCharacteristic_COMMAND data)) n
             | _, _ => []
             end)%list
    /\ (forall e, r = Raises e -> isinstance_BleakError e = false)
    /\ (r = Returns (Some true) -> (1 <= n)%nat)
    /\ (r = Returns None -> n = Z.to_nat SETTING_MAX_COMMAND_ATTEMPTS).
Proof.
  intros Hrun. unfold _send_command in Hrun.
  rewrite run_cbind, run_call in Hrun. cbn [time_ns fst snd] in Hrun.
  apply send_loop_any in Hrun.
  - destruct Hrun as (n & used & Hn & Hans & Hlen & Hw & Hexn & Htrue & Hnone).
    exists n, used. subst w'. cbn [logged dev log] in *.
    repeat split; assumption.
  - destruct (Z.to_nat SETTING_MAX_COMMAND_ATTEMPTS) eqn:E; [now left | right; lia].
Qed.

(** X2. With no client, [_send_command] returns [False] at once: it
    writes nothing and leaves the transport's answers alone. *)
Theorem send_command_without_client command_prefix connection_command answers w :
  _current_bleak_client (dev w) = None ->
  1 <= SETTING_MAX_COMMAND_ATTEMPTS ->
  run (_send_command command_prefix connection_command) answers w
  = Some (Returns (Some false), snd (time_ns w), answers)
  /\ dev (snd (time_ns w)) = dev w
  /\ log (snd (time_ns w)) = log w.
Proof.
  intros Hc Hmax. split; [|split; reflexivity].
  unfold _send_command. rewrite run_cbind, run_call. cbn [time_ns fst snd].
  destruct (Z.to_nat SETTING_MAX_COMMAND_ATTEMPTS) as [|remaining] eqn:E; [lia|].
  rewrite send_loop_pass. cbn [dev]. rewrite Hc. reflexivity.
Qed.

(** X3. A write that raises a [BleakError] fewer than
    [SETTING_MAX_COMMAND_ATTEMPTS] times and is then acknowledged makes
    [_send_command] return [True]: the same command is written once more
    than it failed, the device is unchanged and [disconnect] is not run. *)
Theorem transient_write_failures_are_retried command_prefix connection_command
    c data failures v rest w :
  _current_bleak_client (dev w) = Some c ->
  Py.fromhex (encrypt (command_prefix ++ get_time (clock w (ticks w)))) = Some data ->
  Z.of_nat (List.length failures) < SETTING_MAX_COMMAND_ATTEMPTS ->
  forallb is_bleak_failure failures = true ->
  exists w',
    run (_send_command command_prefix connection_command)
        (failures ++ Returns v :: rest)%list w
    = Some (Returns (Some true), w', rest)
    /\ dev w' = dev w
    /\ log w' = (log w
                 ++ repeat (Awaited (WriteGattChar c MotionCharacteristic_COMMAND data))
                           (S (List.length failures)))%list
    /\ existsb is_client_disconnect (log w') = existsb is_client_disconnect (log w).
Proof.
  intros Hc Hhex Hlen Hall.
  destruct (send_command_succeeds_after_failures command_prefix connection_command
              c data failures v rest w Hc Hhex Hlen Hall) as (w' & Hrun & Hdev & Hlog).
  exists w'. repeat split; try assumption.
  rewrite Hlog, existsb_app, writes_hold_no_disconnect. apply orb_false_r.
Qed.

End DispatcherBounds.

(** ** [_notification_callback]: status and running frames *)

Section DecoderFrames.

Context {K : Const} {crypt : MotionCrypt}.

Lemma nth_error_below (bs : list Z) i j b :
  nth_error bs j = Some b -> (i <= j)%nat -> exists b', nth_error bs i = Some b'.
Proof.
  intros Hj Hij. apply nth_error_in_range.
  assert (j < List.length bs)%nat by (apply nth_error_Some; congruence). lia.
Qed.

Lemma item_found bs i b w : nth_error bs i = Some b -> item bs i w = (Returns b, w).
Proof. intros H. unfold item, Py.index. now rewrite H. Qed.

Lemma item_missing bs i w : nth_error bs i = None -> item bs i w = (Raises IndexError, w).
Proof. intros H. unfold item, Py.index. now rewrite H. Qed.

Lemma round_div_angle a w :
  0 <= a < 256 -> round_div (100 * a) 180 w = (Returns ((100 * a + 90) / 180), w).
Proof. intros Ha. unfold round_div. now rewrite (round_angle a Ha). Qed.

(** What the status branch does with a frame of at least 18 bytes. *)
Lemma status_branch_decoded bs b4 b6 b7 b12 b17 w :
  Forall (fun b => 0 <= b < 256) bs ->
  nth_error bs 4 = Some b4 -> nth_error bs 6 = Some b6 -> nth_error bs 7 = Some b7 ->
  nth_error bs 12 = Some b12 -> nth_error bs 17 = Some b17 ->
  let info := new_MotionPositionInfo b4 (Py.int_from_bytes [b6; b7]) in
  (bind (item bs 6) (fun position_percentage =>
   bind (item bs 7) (fun angle =>
   bind (round_div (100 * angle) 180) (fun angle_percentage =>
   bind (item bs 17) (fun battery_percentage =>
   bind (set_end_position_info bs) (fun _ =>
   bind (item bs 12) (fun code =>
   bind current_end_position_info (fun info =>
   emit (StatusCallback position_percentage angle_percentage battery_percentage
           (if MotionSpeedLevel_has_value code then Some code else None) info))))))))) w
  = (Returns tt,
     logged (snd (set_self (with_end_position_info (Some info)) w))
       [StatusCallback b6 ((100 * b7 + 90) / 180) b17
          (if MotionSpeedLevel_has_value b12 then Some b12 else None) info]).
Proof.
  intros Hbytes H4 H6 H7 H12 H17 info.
  assert (Hb7 : 0 <= b7 < 256) by (eapply nth_error_byte; eassumption).
  unfold bind at 1. rewrite (item_found bs 6 b6 w H6).
  unfold bind at 1. rewrite (item_found bs 7 b7 w H7).
  unfold bind at 1. rewrite (round_div_angle b7 w Hb7).
  unfold bind at 1. rewrite (item_found bs 17 b17 w H17).
  unfold set_end_position_info, current_end_position_info, item, Py.index.
  unfold bind, ret, self, set_self, emit. rewrite H4, H6, H7. cbn [dev end_position_info].
  rewrite H12. reflexivity.
Qed.

(** X4. A status frame of at least 18 bytes, received while a status
    callback is registered (and not taken by the position or running
    branch), replaces the cached end-position info from bytes 4, 6 and 7
    and calls the status callback with position (byte 6), tilt
    ([round(100 * byte7 / 180)]), battery (byte 17), the speed level of
    byte 12 ([None] when the code is not a member of [MotionSpeedLevel])
    and the new info. *)
Theorem status_frame_reports_status byte_array bs w :
  Py.fromhex (decrypt (Py.bytes_hex byte_array)) = Some bs ->
  Py.startswith (decrypt (Py.bytes_hex byte_array)) MotionNotificationType_PERCENT
    && _position_callback (dev w) = false ->
  Py.startswith (decrypt (Py.bytes_hex byte_array)) MotionNotificationType_RUNNING
    && _running_callback (dev w) = false ->
  Py.startswith (decrypt (Py.bytes_hex byte_array)) MotionNotificationType_STATUS = true ->
  _status_callback (dev w) = true ->
  (18 <= List.length bs)%nat ->
  exists b4 b6 b7 b12 b17 tilt w',
    nth_error bs 4 = Some b4 /\ nth_error bs 6 = Some b6 /\ nth_error bs 7 = Some b7
    /\ nth_error bs 12 = Some b12 /\ nth_error bs 17 = Some b17
    /\ Py.round (Py.truediv (100 * b7) 180) = Some tilt
    /\ _notification_callback byte_array w = (Returns tt, w')
    /\ dev w' = with_end_position_info
                  (Some (new_MotionPositionInfo b4 (b6 * 256 + b7))) (dev w)
    /\ log w' = (log w
                 ++ [StatusCallback b6 tilt b17
                       (if MotionSpeedLevel_has_value b12 then Some b12 else None)
                       (new_MotionPositionInfo b4 (b6 * 256 + b7))])%list.
Proof.
  intros Hhex Hpos Hrun Hsta Hcb Hlen.
  destruct (nth_error_in_range bs 4) as [b4 H4]; [lia|].
  destruct (nth_error_in_range bs 6) as [b6 H6]; [lia|].
  destruct (nth_error_in_range bs 7) as [b7 H7]; [lia|].
  destruct (nth_error_in_range bs 12) as [b12 H12]; [lia|].
  destruct (nth_error_in_range bs 17) as [b17 H17]; [lia|].
  pose proof (fromhex_bytes _ bs Hhex) as Hbytes.
  pose proof (status_branch_decoded bs b4 b6 b7 b12 b17 w Hbytes H4 H6 H7 H12 H17) as Hdec.
  cbv zeta in Hdec.
  change (Py.int_from_bytes [b6; b7]) with ((0 * 256 + b6) * 256 + b7) in Hdec.
  replace ((0 * 256 + b6) * 256 + b7) with (b6 * 256 + b7) in Hdec by lia.
  exists b4, b6, b7, b12, b17, ((100 * b7 + 90) / 180). eexists.
  split; [exact H4|]. split; [exact H6|]. split; [exact H7|].
  split; [exact H12|]. split; [exact H17|].
  split; [apply round_angle; eapply nth_error_byte; eassumption|].
  split.
  - unfold _notification_callback. rewrite Hhex.
    unfold bind at 1. unfold self at 1. cbn [dev]. rewrite Hpos, Hrun, Hsta, Hcb.
    cbn [andb]. exact Hdec.
  - split; reflexivity.
Qed.

(** X5. Decoding is all or nothing: a call of [_notification_callback]
    either returns having changed nothing, or returns having replaced the
    cached end-position info and made one position or status callback
    carrying the new info, or raises [ValueError] or [IndexError] having
    changed nothing.  No other attribute of the device is ever touched. *)
Theorem decoder_is_all_or_nothing byte_array w :
  exists r w',
    _notification_callback byte_array w = (r, w')
    /\ ((r = Returns tt /\ w' = w)
        \/ (r = Returns tt
            /\ exists info ev,
                w' = logged (snd (set_self (with_end_position_info (Some info)) w)) [ev]
                /\ ((exists position tilt, ev = PositionCallback position tilt info)
                    \/ (exists position tilt battery speed,
                           ev = StatusCallback position tilt battery speed info)))
        \/ ((r = Raises ValueError \/ r = Raises IndexError) /\ w' = w)).
Proof.
  unfold _notification_callback.
  destruct (Py.fromhex (decrypt (Py.bytes_hex byte_array))) as [bs|] eqn:Hhex.
  2: { exists (Raises ValueError), w. split; [reflexivity|]. right. right. now split; [left|]. }
  pose proof (fromhex_bytes _ bs Hhex) as Hbytes.
  unfold bind at 1. unfold self at 1. cbn [dev].
  destruct (Py.startswith (decrypt (Py.bytes_hex byte_array)) MotionNotificationType_PERCENT
            && _position_callback (dev w)) eqn:Hpos.
  { (* position frame *)
    apply andb_true_iff in Hpos as [Hpre Hcb].
    destruct (nth_error bs 7) as [b7|] eqn:H7.
    - destruct (nth_error_below bs 4 7 b7 H7) as [b4 H4]; [lia|].
      destruct (nth_error_below bs 6 7 b7 H7) as [b6 H6]; [lia|].
      pose proof (position_frame_decoded byte_array bs b4 b6 b7 w Hhex Hpre Hcb H4 H6 H7)
        as Hdec.
      cbv zeta in Hdec. unfold _notification_callback in Hdec.
      rewrite Hhex in Hdec. unfold bind at 1 in Hdec. unfold self at 1 in Hdec.
      cbn [dev] in Hdec. rewrite Hpre, Hcb in Hdec. cbn [andb] in Hdec.
      eexists _, _. split; [exact Hdec|]. right. left. split; [reflexivity|].
      eexists _, _. split; [reflexivity|]. left. eauto.
    - exists (Raises IndexError), w. split.
      + unfold bind at 1. unfold set_end_position_info.
        unfold bind at 1.
        destruct (nth_error bs 4) as [b4|] eqn:H4;
          [rewrite (item_found bs 4 b4 w H4) | now rewrite (item_missing bs 4 w H4)].
        unfold bind at 1.
        destruct (nth_error bs 6) as [b6|] eqn:H6;
          [rewrite (item_found bs 6 b6 w H6) | now rewrite (item_missing bs 6 w H6)].
        unfold bind at 1. now rewrite (item_missing bs 7 w H7).
      + right. right. now split; [right|]. }
  destruct (Py.startswith (decrypt (Py.bytes_hex byte_array)) MotionNotificationType_RUNNING
            && _running_callback (dev w)) eqn:Hrun.
  { (* running frame *)
    unfold bind at 1.
    destruct (nth_error bs 5) as [b5|] eqn:H5.
    - rewrite (item_found bs 5 b5 w H5). exists (Returns tt), w.
      split; [reflexivity|]. left. now split.
    - rewrite (item_missing bs 5 w H5). exists (Raises IndexError), w.
      split; [reflexivity|]. right. right. now split; [right|]. }
  destruct (Py.startswith (decrypt (Py.bytes_hex byte_array)) MotionNotificationType_STATUS
            && _status_callback (dev w)) eqn:Hsta.
  { (* status frame *)
    destruct (nth_error bs 17) as [b17|] eqn:H17.
    - destruct (nth_error_below bs 4 17 b17 H17) as [b4 H4]; [lia|].
      destruct (nth_error_below bs 6 17 b17 H17) as [b6 H6]; [lia|].
      destruct (nth_error_below bs 7 17 b17 H17) as [b7 H7]; [lia|].
      destruct (nth_error_below bs 12 17 b17 H17) as [b12 H12]; [lia|].
      pose proof (status_branch_decoded bs b4 b6 b7 b12 b17 w Hbytes H4 H6 H7 H12 H17)
        as Hdec.
      cbv zeta in Hdec.
      eexists _, _. split; [exact Hdec|]. right. left. split; [reflexivity|].
      eexists _, _. split; [reflexivity|]. right. eauto.
    - exists (Raises IndexError), w. split.
      + unfold bind at 1.
        destruct (nth_error bs 6) as [b6|] eqn:H6;
          [rewrite (item_found bs 6 b6 w H6) | now rewrite (item_missing bs 6 w H6)].
        unfold bind at 1.
        destruct (nth_error bs 7) as [b7|] eqn:H7;
          [rewrite (item_found bs 7 b7 w H7) | now rewrite (item_missing bs 7 w H7)].
        unfold bind at 1. rewrite round_div_angle by (eapply nth_error_byte; eassumption).
        unfold bind at 1. now rewrite (item_missing bs 17 w H17).
      + right. right. now split; [right|]. }
  exists (Returns tt), w. split; [reflexivity|]. left. now split.
Qed.

(** X6. A running frame produces no event and no change: when the
    running branch is taken, the callback returns with the world as it
    was if the frame has at least six bytes, and raises [IndexError]
    otherwise.  The registered running callback is never called. *)
Theorem running_frame_changes_nothing byte_array bs w :
  Py.fromhex (decrypt (Py.bytes_hex byte_array)) = Some bs ->
  Py.startswith (decrypt (Py.bytes_hex byte_array)) MotionNotificationType_PERCENT
    && _position_callback (dev w) = false ->
  Py.startswith (decrypt (Py.bytes_hex byte_array)) MotionNotificationType_RUNNING = true ->
  _running_callback (dev w) = true ->
  _notification_callback byte_array w
  = (if (6 <=? List.length bs)%nat then Returns tt else Raises IndexError, w).
Proof.
  intros Hhex Hpos Hrun Hcb.
  unfold _notification_callback. rewrite Hhex.
  unfold bind at 1. unfold self at 1. cbn [dev]. rewrite Hpos, Hrun, Hcb. cbn [andb].
  unfold bind at 1.
  destruct (nth_error bs 5) as [b5|] eqn:H5.
  - rewrite (item_found bs 5 b5 w H5).
    assert (5 < List.length bs)%nat by (apply nth_error_Some; congruence).
    replace (6 <=? List.length bs)%nat with true; [reflexivity|].
    symmetry. apply Nat.leb_le. lia.
  - rewrite (item_missing bs 5 w H5).
    apply nth_error_None in H5.
    replace (6 <=? List.length bs)%nat with false; [reflexivity|].
    symmetry. apply Nat.leb_gt. lia.
Qed.

End DecoderFrames.

(** ** End-position flags and the guards *)

Lemma land_pow2_eqb a n :
  0 <= n -> (Z.land a (2 ^ n) =? 0) = negb (Z.testbit a n).
Proof.
  intros Hn. destruct (Z.testbit a n) eqn:Hbit; cbn [negb].
  - apply Z.eqb_neq. intros Hz.
    assert (Hb : Z.testbit (Z.land a (2 ^ n)) n = true).
    { rewrite Z.land_spec, Hbit, Z.pow2_bits_true by exact Hn. reflexivity. }
    rewrite Hz, Z.bits_0 in Hb. discriminate Hb.
  - apply Z.eqb_eq. apply Z.bits_inj'. intros m Hm.
    rewrite Z.land_spec, Z.bits_0, Z.pow2_bits_eqb by exact Hn.
    destruct (Z.eqb_spec n m) as [->|Hne]; [now rewrite Hbit | apply andb_false_r].
Qed.

(** X7. [UP] is bit 3 and [DOWN] is bit 2 of the end-positions byte,
    for every integer passed to the constructor; no other bit and nothing
    of the favorite field enters them. *)
Theorem end_position_flags_are_bits (end_positions_byte favorite_bytes : Z) :
  UP (new_MotionPositionInfo end_positions_byte favorite_bytes)
  = Z.testbit end_positions_byte 3
  /\ DOWN (new_MotionPositionInfo end_positions_byte favorite_bytes)
     = Z.testbit end_positions_byte 2.
Proof.
  unfold new_MotionPositionInfo. cbn [UP DOWN].
  change 8 with (2 ^ 3). change 4 with (2 ^ 2).
  rewrite !land_pow2_eqb by lia. now rewrite !negb_involutive.
Qed.

Lemma favorite_truthy f :
  0 <= f < 65536 ->
  forall e, Py.truthy (FAVORITE (new_MotionPositionInfo e f)) = negb (f =? 0).
Proof.
  intros Hf e. unfold new_MotionPositionInfo. cbn [FAVORITE].
  rewrite truthy_py_or. cbn [Py.truthy].
  pose proof (favorite_bytes_split f Hf) as Hsplit.
  destruct (Z.eqb_spec f 0) as [->|Hnz]; [reflexivity|]. cbn [negb].
  destruct (Z.land f 65280 =? 0) eqn:Ehi; [|reflexivity].
  destruct (Z.land f 255 =? 0) eqn:Elo; [|reflexivity].
  apply Z.eqb_eq in Ehi, Elo. rewrite Ehi, Elo in Hsplit. now elim Hnz.
Qed.

Section GuardsAfterFrames.

Context {K : Const} {crypt : MotionCrypt}.

Lemma run_requires_favorite_position {A} (func : A -> Coro (option bool)) args answers w :
  run (requires_favorite_position func args) answers w
  = if favorite_guard_fails w
    then Some (Raises NoFavoritePositionException, w, answers)
    else run (func args) answers w.
Proof.
  unfold requires_favorite_position, favorite_guard_fails. cbn.
  destruct (end_position_info (dev w)) as [info|]; [|reflexivity].
  destruct (negb (UP info) && negb (Py.truthy (FAVORITE info))); reflexivity.
Qed.

(** X8. The guards follow the last decoded frame.  After a position
    frame with flags byte [b4], position byte [b6] and angle byte [b7]
    has been decoded, a movement command is refused with
    [NoEndPositionsException] exactly when bit 3 of [b4] is clear and the
    bypass flag is not set, and the favorite command is refused with
    [NoFavoritePositionException] exactly when bit 3 of [b4] is clear and
    [b6] and [b7] are both zero: the favorite field is read from the
    position and angle bytes. *)
Theorem guards_follow_last_frame byte_array bs m ignore_end_positions_not_set answers w :
  Py.fromhex (decrypt (Py.bytes_hex byte_array)) = Some bs ->
  Py.startswith (decrypt (Py.bytes_hex byte_array)) MotionNotificationType_PERCENT = true ->
  _position_callback (dev w) = true ->
  (8 <= List.length bs)%nat ->
  exists b4 b6 b7 w',
    nth_error bs 4 = Some b4 /\ nth_error bs 6 = Some b6 /\ nth_error bs 7 = Some b7
    /\ _notification_callback byte_array w = (Returns tt, w')
    /\ run (guarded m ignore_end_positions_not_set) answers w'
       = (if negb (Z.testbit b4 3) && negb ignore_end_positions_not_set
          then Some (Raises NoEndPositionsException, w', answers)
          else run (wrapped m) answers w')
    /\ run (requires_favorite_position favorite__wrapped tt) answers w'
       = (if negb (Z.testbit b4 3) && (b6 =? 0) && (b7 =? 0)
          then Some (Raises NoFavoritePositionException, w', answers)
          else run (favorite__wrapped tt) answers w').
Proof.
  intros Hhex Hpre Hcb Hlen.
  destruct (nth_error_in_range bs 4) as [b4 H4]; [lia|].
  destruct (nth_error_in_range bs 6) as [b6 H6]; [lia|].
  destruct (nth_error_in_range bs 7) as [b7 H7]; [lia|].
  pose proof (fromhex_bytes _ bs Hhex) as Hbytes.
  pose proof (nth_error_byte bs 6 b6 Hbytes H6) as Hb6.
  pose proof (nth_error_byte bs 7 b7 Hbytes H7) as Hb7.
  pose proof (position_frame_decoded byte_array bs b4 b6 b7 w Hhex Hpre Hcb H4 H6 H7) as Hdec.
  cbv zeta in Hdec.
  change (Py.int_from_bytes [b6; b7]) with ((0 * 256 + b6) * 256 + b7) in Hdec.
  replace ((0 * 256 + b6) * 256 + b7) with (b6 * 256 + b7) in Hdec by lia.
  eexists b4, b6, b7, _.
  split; [exact H4|]. split; [exact H6|]. split; [exact H7|]. split; [exact Hdec|].
  assert (Hup : UP (new_MotionPositionInfo b4 (b6 * 256 + b7)) = Z.testbit b4 3).
  { unfold new_MotionPositionInfo. cbn [UP]. change 8 with (2 ^ 3).
    rewrite land_pow2_eqb by lia. apply negb_involutive. }
  split.
  - rewrite run_guarded. unfold guard_fails. cbn [dev end_position_info with_end_position_info].
    rewrite Hup. reflexivity.
  - rewrite run_requires_favorite_position. unfold favorite_guard_fails.
    cbn [dev end_position_info with_end_position_info].
    rewrite Hup, favorite_truthy by lia.
    replace (negb (negb (b6 * 256 + b7 =? 0))) with ((b6 =? 0) && (b7 =? 0)) by lia.
    now rewrite andb_assoc.
Qed.

End GuardsAfterFrames.

(** ** Tilt commands *)

(** [round(180 * p / 100)] and back, evaluated in binary64 for every
    percentage. *)
Lemma tilt_table :
  forallb (fun p =>
             match Py.round (Py.truediv (180 * p) 100) with
             | Some angle =>
                 (angle =? (180 * p + 50) / 100)
                 && (0 <=? angle) && (angle <=? 180)
                 && ((100 * angle + 90) / 180 =? p)
             | None => false
             end) (map Z.of_nat (seq 0 101)) = true.
Proof. vm_compute. reflexivity. Qed.

Lemma tilt_angle p :
  0 <= p <= 100 ->
  Py.round (Py.truediv (180 * p) 100) = Some ((180 * p + 50) / 100)
  /\ 0 <= (180 * p + 50) / 100 <= 180
  /\ (100 * ((180 * p + 50) / 100) + 90) / 180 = p.
Proof.
  intros Hp.
  assert (Hr : 0 <= p < Z.of_nat 101) by lia.
  pose proof (@forallb_Z_range _ 101 tilt_table p Hr) as H. cbv beta in H.
  destruct (Py.round (Py.truediv (180 * p) 100)) as [angle|]; [|discriminate].
  repeat (apply andb_true_iff in H; destruct H as [H ?]).
  assert (angle = (180 * p + 50) / 100) by lia. subst angle.
  repeat split; lia.
Qed.

Section Tilt.

Context {K : Const} {crypt : MotionCrypt}.

(** X9. The tilt percentage survives the round trip through the angle
    byte.  For [0 <= p <= 100], [percentage_tilt] sends the angle command
    type, a ["00"] byte and the angle [round(180 * p / 100)], which lies
    in 0..180 and is written as exactly two hexadecimal digits; a
    position frame carrying that angle byte is decoded to the tilt
    percentage [p].  [open_tilt] and [close_tilt] send the frames of
    [percentage_tilt] at 0 and 100. *)
Theorem tilt_percentage_round_trip p :
  0 <= p <= 100 ->
  exists angle,
    0 <= angle <= 180
    /\ Py.round (Py.truediv (180 * p) 100) = Some angle
    /\ (forall answers w,
           run (percentage_tilt__wrapped p) answers w
           = run (_send_command (MotionCommandType_ANGLE ++ "00" ++ two_hex_digits angle)
                                false) answers w)
    /\ Py.fromhex ("00" ++ two_hex_digits angle) = Some [0; angle]
    /\ Py.round (Py.truediv (100 * angle) 180) = Some p
    /\ (forall byte_array bs b4 b6 w,
           Py.fromhex (decrypt (Py.bytes_hex byte_array)) = Some bs ->
           Py.startswith (decrypt (Py.bytes_hex byte_array))
                         MotionNotificationType_PERCENT = true ->
           _position_callback (dev w) = true ->
           nth_error bs 4 = Some b4 -> nth_error bs 6 = Some b6 ->
           nth_error bs 7 = Some angle ->
           exists info,
             log (snd (_notification_callback byte_array w))
             = (log w ++ [PositionCallback b6 p info])%list)
    /\ (forall answers w,
           run (open_tilt__wrapped tt) answers w = run (percentage_tilt__wrapped 0) answers w
           /\ run (close_tilt__wrapped tt) answers w
              = run (percentage_tilt__wrapped 100) answers w).
Proof.
  intros Hp. destruct (tilt_angle p Hp) as (Hround & Hrange & Hback).
  exists ((180 * p + 50) / 100).
  split; [exact Hrange|]. split; [exact Hround|]. split; [|split; [|split; [|split]]].
  - intros answers w. unfold percentage_tilt__wrapped.
    rewrite run_cbind, run_call. unfold round_div. rewrite Hround. reflexivity.
  - destruct (two_hex_digits_byte ((180 * p + 50) / 100)) as [Hd Hf]; [lia|].
    clear Hd.
    change (Py.fromhex ("00" ++ two_hex_digits ((180 * p + 50) / 100)))
      with (match Py.fromhex (two_hex_digits ((180 * p + 50) / 100)) with
            | Some bs => Some (0 :: bs)
            | None => None
            end).
    now rewrite Hf.
  - rewrite round_angle by lia. now rewrite Hback.
  - intros byte_array bs b4 b6 w Hhex Hpre Hcb H4 H6 H7.
    pose proof (position_frame_decoded byte_array bs b4 b6 _ w Hhex Hpre Hcb H4 H6 H7)
      as Hdec.
    cbv zeta in Hdec. rewrite Hdec. cbn [snd log]. rewrite Hback. eauto.
  - intros answers w. split.
    + destruct (tilt_angle 0) as (H0 & _ & _); [lia|].
      unfold percentage_tilt__wrapped, open_tilt__wrapped.
      rewrite run_cbind, run_call. unfold round_div. rewrite H0. reflexivity.
    + destruct (tilt_angle 100) as (H100 & _ & _); [lia|].
      unfold percentage_tilt__wrapped, close_tilt__wrapped.
      rewrite run_cbind, run_call. unfold round_div. rewrite H100. reflexivity.
Qed.

End Tilt.

(** ** Connection attempts that fail *)

Section CoordinatorFailures.

Context {K : Const} {crypt : MotionCrypt}.

(** A caller resumed by an exception other than [CancelledError]: the two
    handled connection errors reset the connection state before they are
    raised again, any other exception passes through untouched. *)
Lemma connect_resumes_raises flag w e w2 :
  connected w = false ->
  e <> CancelledError ->
  resume (fst (step (connect flag) w)) (Raises e) w2
  = (Done (Raises e),
     match e with
     | BleakOutOfConnectionSlotsError | BleakNotFoundError =>
         snd (set_self (with_connection_task None)
                (snd (_set_connection DISCONNECTED w2)))
     | _ => w2
     end).
Proof.
  intros Hc He.
  unfold connect. cbn [step cbind call]. rewrite is_connected_reads, Hc.
  cbn [negb].
  unfold _connect_if_not_connecting. cbn [step cbind call time_ns set_self self dev].
  destruct (_connection_task (dev w)) as [t|] eqn:Ht;
    do 3 (cbn; rewrite ?Ht);
    destruct e; try congruence; try reflexivity;
    destruct (_connection_callback (dev w2)) eqn:Hcb; cbn; rewrite ?Hcb; reflexivity.
Qed.

(** Every waiter of a coalesced attempt is a call of [connect], suspended
    in a world where the device was not connected. *)
Lemma coalescing_waiters t w0 waiters w :
  coalescing t w0 waiters w ->
  Forall (fun sw => exists flag w1,
              connected w1 = false
              /\ fst sw = fst (step (connect flag) w1)
              /\ snd sw = clock w1 (ticks w1))
         waiters.
Proof.
  induction 1 as [flag w s w' Hc Hnone Ht Hstep
                 | flag w0 waiters w s w' Hco IH Hc Hstep
                 | w0 waiters w w' Hco IH Hun].
  - constructor; [|constructor]. exists flag, w. rewrite Hstep. auto.
  - apply Forall_app. split; [exact IH|].
    constructor; [|constructor]. exists flag, w. rewrite Hstep. auto.
  - exact IH.
Qed.

(** The world after [n] callers have gone through the handler of the two
    connection errors. *)
Lemma resume_all_connection_error (waiters : list (Susp bool * Z)) e :
  e = BleakOutOfConnectionSlotsError \/ e = BleakNotFoundError ->
  Forall (fun sw => exists flag w1,
              connected w1 = false
              /\ fst sw = fst (step (connect flag) w1)
              /\ snd sw = clock w1 (ticks w1))
         waiters ->
  forall w2,
    resume_all (map fst waiters) (Raises e) w2
    = (map (fun _ => Done (Raises e)) waiters,
       match waiters with
       | [] => w2
       | _ :: _ =>
           {| dev := with_connection_task None (with_connection_type DISCONNECTED (dev w2));
              log := (log w2
                      ++ if _connection_callback (dev w2)
                         then repeat (ConnectionCallback DISCONNECTED) (List.length waiters)
                         else [])%list;
              clock := clock w2; ticks := ticks w2; next_id := next_id w2 |}
       end).
Proof.
  intros He Hall. induction Hall as [|[s token] waiters Hs Hall IH]; intros w2.
  - reflexivity.
  - destruct Hs as (flag & w1 & Hc & Hs & _). cbn [fst] in Hs.
    cbn [map fst resume_all]. rewrite Hs.
    rewrite connect_resumes_raises by (destruct He; subst; congruence || assumption).
    rewrite IH.
    replace (match e with
             | BleakOutOfConnectionSlotsError | BleakNotFoundError =>
                 snd (set_self (with_connection_task None)
                        (snd (_set_connection DISCONNECTED w2)))
             | _ => w2
             end)
      with (snd (set_self (with_connection_task None)
                   (snd (_set_connection DISCONNECTED w2))))
      by (destruct He; subst; reflexivity).
    f_equal.
    destruct w2 as [d l ck tk n]. destruct d.
    unfold _set_connection, set_self, bind, self, emit, ret, logged.
    cbn.
    destruct _connection_callback0, waiters as [|sw waiters]; cbn;
      rewrite ?app_nil_r, <- ?app_assoc; reflexivity.
Qed.

(** X10. A connection attempt that ends in
    [BleakOutOfConnectionSlotsError] or [BleakNotFoundError] raises that
    error in every coalesced caller, in calling order.  Each caller's
    handler sets the connection to [DISCONNECTED] (so a registered
    connection callback is called once per caller) and clears
    [_connection_task]; the client attribute is left alone. *)
Theorem connection_error_reaches_every_waiter t w0 waiters w e w2 :
  coalescing t w0 waiters w ->
  e = BleakOutOfConnectionSlotsError \/ e = BleakNotFoundError ->
  let after := resume_all (map fst waiters) (Raises e) w2 in
  returned (fst after) = repeat (Some (Raises e)) (List.length waiters)
  /\ _connection_task (dev (snd after)) = None
  /\ _connection_type (dev (snd after)) = DISCONNECTED
  /\ _current_bleak_client (dev (snd after)) = _current_bleak_client (dev w2)
  /\ log (snd after)
     = (log w2
        ++ if _connection_callback (dev w2)
           then repeat (ConnectionCallback DISCONNECTED) (List.length waiters)
           else [])%list.
Proof.
  intros Hco He after. subst after.
  pose proof (coalescing_invariant t w0 waiters w Hco) as (_ & _ & Hne & _).
  rewrite (resume_all_connection_error waiters e He (coalescing_waiters _ _ _ _ Hco)).
  cbn [fst snd]. split.
  - unfold returned. rewrite map_map. cbn [finished].
    clear. induction waiters; cbn; congruence.
  - destruct waiters as [|sw waiters]; [congruence|]. cbn [dev log].
    repeat split.
Qed.

(** The world is left alone by callers that see the attempt fail in a way
    the handlers do not cover. *)
Lemma resume_all_unhandled (waiters : list (Susp bool * Z)) o r :
  Forall (fun sw => forall w2, resume (fst sw) o w2 = (Done r, w2)) waiters ->
  forall w2,
    resume_all (map fst waiters) o w2 = (map (fun _ => Done r) waiters, w2).
Proof.
  intros Hall. induction Hall as [|[s token] waiters Hs Hall IH]; intros w2.
  - reflexivity.
  - cbn [map fst resume_all]. cbn [fst] in Hs. now rewrite Hs, IH.
Qed.

(** X11. A connection task that returns a falsy value, or raises an
    exception other than [BleakOutOfConnectionSlotsError],
    [BleakNotFoundError] and [CancelledError], ends every coalesced caller
    (with [False], or with that exception) without any change to the
    device: [_connection_task] still names the finished task.  A later
    call of [connect] on the still unconnected device therefore creates no
    task and awaits the finished one again. *)
Theorem failed_attempt_stays_recorded t w0 waiters w w2 :
  coalescing t w0 waiters w ->
  (forall v, value_truthy v = false ->
             resume_all (map fst waiters) (Returns v) w2
             = (map (fun _ => Done (Returns false)) waiters, w2))
  /\ (forall e, e <> BleakOutOfConnectionSlotsError -> e <> BleakNotFoundError ->
                e <> CancelledError ->
                resume_all (map fst waiters) (Raises e) w2
                = (map (fun _ => Done (Raises e)) waiters, w2))
  /\ (_connection_task (dev w2) = Some t -> connected w2 = false ->
      forall flag,
        awaited (fst (step (connect flag) w2)) = Some (AwaitTask t)
        /\ tasks_created (log (snd (step (connect flag) w2))) = tasks_created (log w2)).
Proof.
  intros Hco. pose proof (coalescing_waiters _ _ _ _ Hco) as Hall.
  split; [|split].
  - intros v Hv. apply resume_all_unhandled.
    eapply Forall_impl; [|exact Hall].
    intros [s token] (flag & w1 & Hc & Hs & _) w3. cbn [fst] in *. rewrite Hs.
    now apply connect_resumes_not_ready.
  - intros e H1 H2 H3. apply resume_all_unhandled.
    eapply Forall_impl; [|exact Hall].
    intros [s token] (flag & w1 & Hc & Hs & _) w3. cbn [fst] in *. rewrite Hs.
    rewrite connect_resumes_raises by assumption.
    destruct e; congruence.
  - intros Ht Hc flag.
    pose proof (connect_suspends flag w2 Hc) as Hs. cbv zeta in Hs.
    rewrite Ht in Hs. destruct Hs as (Haw & _ & _ & Hcreated & _).
    split; [exact Haw|]. now rewrite Hcreated, app_nil_r.
Qed.

End CoordinatorFailures.

(** ** The connection task *)

Section ConnectionTask.

Context {K : Const} {crypt : MotionCrypt}.

Lemma awaits_app l1 l2 : awaits (l1 ++ l2) = (awaits l1 ++ awaits l2)%list.
Proof. apply flat_map_app. Qed.

Lemma set_connection_awaits c w :
  awaits (log (snd (_set_connection c w))) = awaits (log w).
Proof.
  unfold _set_connection, bind, self, emit, ret, set_self, logged.
  destruct (_connection_callback (dev w)); cbn [snd log]; [|reflexivity].
  rewrite awaits_app. cbn. now rewrite app_nil_r.
Qed.

Lemma set_connection_clock c w :
  clock (snd (_set_connection c w)) = clock w
  /\ ticks (snd (_set_connection c w)) = ticks w.
Proof.
  unfold _set_connection, bind, self, emit, ret, set_self, logged.
  destruct (_connection_callback (dev w)); split; reflexivity.
Qed.

(** A refresh with [force=False] on a device whose armed timer has a
    deadline: it reads the clock once, awaits nothing and leaves a timer
    and a deadline recorded. *)
Lemma refresh_unforced_reads_clock timeout w :
  (_disconnect_timer (dev w) <> None -> _disconnect_time (dev w) <> None) ->
  exists w1 time timer,
    refresh_disconnect_timer timeout false w = (Returns tt, w1)
    /\ dev w1 = with_disconnect_timer (Some time) (Some timer) (dev w)
    /\ clock w1 = clock w
    /\ ticks w1 = S (ticks w)
    /\ awaits (log w1) = awaits (log w).
Proof.
  intros Hok.
  destruct (_disconnect_timer (dev w)) as [timer|] eqn:Htimer.
  - destruct (_disconnect_time (dev w)) as [current|] eqn:Htime;
      [|exfalso; now apply Hok].
    destruct (Z_gt_le_dec current
                (new_disconnect_time_of (clock w (ticks w)) (seconds_of timeout)))
      as [Hlater | Hle].
    + exists (snd (time_ns w)), current, timer.
      split; [apply (refresh_kept timeout w timer current Htimer Htime Hlater)|].
      split; [|repeat split].
      cbn. destruct w as [d l ck tk n]. destruct d. cbn in *. now subst.
    + eexists _, _, _. split.
      * apply (refresh_replaced timeout false w). right. right.
        exists current. split; [exact Htime | exact Hle].
      * split; [reflexivity|]. cbn [clock ticks log]. repeat split.
        rewrite Htimer, !awaits_app. cbn. now rewrite app_nil_r.
  - eexists _, _, _. split.
    + apply (refresh_replaced timeout false w). right. now left.
    + split; [reflexivity|]. cbn [clock ticks log]. repeat split.
      rewrite Htimer, !awaits_app. cbn. now rewrite app_nil_r.
Qed.

(** A command behind [requires_connection] on a live link whose first
    write is acknowledged: the clock is read twice, first for the timer
    and then for the frame, and the one write is awaited. *)
Lemma run_query_connected_frame (command_prefix : string) c data v rest w :
  _current_bleak_client (dev w) = Some c ->
  is_connected_now c = true ->
  1 <= SETTING_MAX_COMMAND_ATTEMPTS ->
  Py.fromhex (encrypt (command_prefix ++ get_time (clock w (S (ticks w))))) = Some data ->
  (_disconnect_timer (dev w) <> None -> _disconnect_time (dev w) <> None) ->
  exists w1 time timer,
    run (requires_connection (fun _ : unit => _send_command command_prefix true) tt)
        (Returns v :: rest) w
    = Some (Returns (Some true), w1, rest)
    /\ dev w1 = with_disconnect_timer (Some time) (Some timer) (dev w)
    /\ clock w1 = clock w
    /\ ticks w1 = S (S (ticks w))
    /\ awaits (log w1)
       = (awaits (log w) ++ [WriteGattChar c MotionCharacteristic_COMMAND data])%list.
Proof.
  intros Hc Hlive Hmax Hhex Hok.
  destruct (refresh_unforced_reads_clock None w Hok)
    as (w1 & time & timer & Hr & Hdev & Hck & Htk & Haw).
  assert (Hc1 : _current_bleak_client (dev w1) = Some c) by (rewrite Hdev; exact Hc).
  assert (Hdata : Py.fromhex (encrypt (command_prefix ++ get_time (clock w1 (ticks w1))))
                  = Some data) by (now rewrite Hck, Htk).
  unfold requires_connection. rewrite run_cbind.
  unfold connect. rewrite run_cbind, run_call, is_connected_reads.
  unfold connected. rewrite Hc, Hlive. cbn [fst snd negb].
  rewrite run_cbind, run_call, Hr. cbn [fst snd run negb].
  unfold _send_command. rewrite run_cbind, run_call. cbn [time_ns fst snd].
  destruct (Z.to_nat SETTING_MAX_COMMAND_ATTEMPTS) as [|remaining] eqn:Hn; [lia|].
  rewrite send_loop_successful_pass with (c := c) (data := data);
    [|exact Hc1 | exact Hdata].
  eexists _, time, timer. split; [reflexivity|].
  cbn [logged dev clock ticks log]. rewrite Hdev, Hck, Htk.
  repeat split.
  rewrite awaits_app, Haw. reflexivity.
Qed.

(** X12. A connection task whose [establish_connection] raises leaves the
    device [CONNECTING]: [_connect] has announced [CONNECTING], awaited
    the connection and done nothing else.  Any further run of [_connect]
    then returns [False] at once, without awaiting anything and without
    changing the device. *)
Theorem failed_establish_blocks_next_attempt
    use_notification_delay use_notification_delay' e rest answers w :
  _connection_type (dev w) <> CONNECTING ->
  exists w',
    run (_connect use_notification_delay) (Raises e :: rest) w = Some (Raises e, w', rest)
    /\ dev w' = with_connection_type CONNECTING (dev w)
    /\ log w' = (log w
                 ++ (if _connection_callback (dev w)
                     then [ConnectionCallback CONNECTING] else [])
                 ++ [Awaited (EstablishConnection SETTING_MAX_CONNECT_ATTEMPTS)])%list
    /\ run (_connect use_notification_delay') answers w'
       = Some (Returns false, w', answers).
Proof.
  intros Htype.
  unfold _connect at 1. rewrite run_cbind, run_call. cbn [self fst snd].
  assert (Hbranch : forall (X : Type) (x y : X),
             match _connection_type (dev w) with CONNECTING => x | _ => y end = y).
  { intros X x y. destruct (_connection_type (dev w)); congruence. }
  rewrite Hbranch. clear Hbranch.
  rewrite run_cbind, run_call, set_connection_returns. cbn [fst snd].
  rewrite run_cbind. cbn [await run cbind emit snd].
  eexists. split; [reflexivity|].
  assert (Hdev : dev (snd (_set_connection CONNECTING w))
                 = with_connection_type CONNECTING (dev w))
    by apply set_connection_effect.
  cbn [logged dev log]. split; [exact Hdev|]. split.
  - unfold _set_connection, bind, self, emit, ret, set_self, logged.
    destruct (_connection_callback (dev w)); cbn [snd log];
      rewrite <- ?app_assoc; reflexivity.
  - unfold _connect. rewrite run_cbind, run_call. cbn [self fst snd logged dev].
    rewrite Hdev. reflexivity.
Qed.

(** X13. A connection task whose every request is answered, on a link
    that stays up: [_connect] returns [True] with the device [CONNECTED]
    and a disconnect timer and deadline recorded.  It awaits, in this
    order, the connection, the start of notifications, the write of the
    set-key frame, the notification delay (only when asked for) and the
    write of the status-query frame.  The clock is read five times; the
    two frames carry the second and the fourth reading, the other three
    go to the disconnect timer. *)
Theorem connect_task_sequence use_notification_delay c key_frame status_frame
    v1 v2 v3 v4 rest w :
  _connection_type (dev w) <> CONNECTING ->
  is_connected_now c = true ->
  1 <= SETTING_MAX_COMMAND_ATTEMPTS ->
  Py.fromhex (encrypt (MotionCommandType_SET_KEY ++ get_time (clock w (ticks w + 1)%nat)))
  = Some key_frame ->
  Py.fromhex (encrypt (MotionCommandType_STATUS_QUERY
                       ++ get_time (clock w (ticks w + 3)%nat)))
  = Some status_frame ->
  (_disconnect_timer (dev w) <> None -> _disconnect_time (dev w) <> None) ->
  exists w' time timer,
    run (_connect use_notification_delay)
        (Returns (VClient c) :: Returns v1 :: Returns v2
         :: (if use_notification_delay then [Returns v3] else [])
         ++ Returns v4 :: rest)%list w
    = Some (Returns true, w', rest)
    /\ dev w'
       = with_disconnect_timer (Some time) (Some timer)
           (with_connection_type CONNECTED
              (with_current_bleak_client (Some c) (dev w)))
    /\ ticks w' = (ticks w + 5)%nat
    /\ awaits (log w')
       = (awaits (log w)
          ++ [EstablishConnection SETTING_MAX_CONNECT_ATTEMPTS;
              StartNotify c MotionCharacteristic_NOTIFICATION;
              WriteGattChar c MotionCharacteristic_COMMAND key_frame]
          ++ (if use_notification_delay then [Sleep SETTING_NOTIFICATION_DELAY] else [])
          ++ [WriteGattChar c MotionCharacteristic_COMMAND status_frame])%list.
Proof.
  intros Htype Hlive Hmax Hkey Hstatus Hok.
  replace (ticks w + 1)%nat with (S (ticks w)) in Hkey by lia.
  replace (ticks w + 3)%nat with (S (S (S (ticks w)))) in Hstatus by lia.
  unfold _connect. rewrite run_cbind, run_call. cbn [self fst snd].
  assert (Hbranch : forall (X : Type) (x y : X),
             match _connection_type (dev w) with CONNECTING => x | _ => y end = y).
  { intros X x y. destruct (_connection_type (dev w)); congruence. }
  rewrite Hbranch. clear Hbranch.
  rewrite run_cbind, run_call, set_connection_returns. cbn [fst snd].
  rewrite run_cbind, run_await.
  rewrite run_cbind, run_call. cbn [set_self fst snd].
  rewrite run_cbind, run_call, set_connection_returns. cbn [fst snd].
  rewrite run_cbind, run_await.
  match goal with |- context [run _ _ ?x] => remember x as wa eqn:Ewa end.
  assert (Hdeva : dev wa
                  = with_connection_type CONNECTED
                      (with_current_bleak_client (Some c)
                         (with_connection_type CONNECTING (dev w)))).
  { subst wa. cbn [logged dev].
    rewrite (proj1 (set_connection_effect CONNECTED _)). cbn [dev].
    rewrite (proj1 (set_connection_effect CONNECTING _)). reflexivity. }
  assert (Hcka : clock wa = clock w /\ ticks wa = ticks w).
  { subst wa. cbn [logged clock ticks]. split.
    - rewrite (proj1 (set_connection_clock CONNECTED _)). cbn [clock logged].
      apply set_connection_clock.
    - rewrite (proj2 (set_connection_clock CONNECTED _)). cbn [ticks logged].
      apply set_connection_clock. }
  assert (Hawa : awaits (log wa)
                 = (awaits (log w)
                    ++ [EstablishConnection SETTING_MAX_CONNECT_ATTEMPTS;
                        StartNotify c MotionCharacteristic_NOTIFICATION])%list).
  { subst wa. cbn [logged log]. rewrite awaits_app, set_connection_awaits.
    cbn [log logged]. rewrite awaits_app, set_connection_awaits. cbn.
    now rewrite <- app_assoc. }
  clear Ewa. destruct Hcka as [Hcka Htka].
  assert (Hca : _current_bleak_client (dev wa) = Some c) by (now rewrite Hdeva).
  assert (Hoka : _disconnect_timer (dev wa) <> None -> _disconnect_time (dev wa) <> None)
    by (rewrite Hdeva; exact Hok).
  assert (Hkeya : Py.fromhex (encrypt (MotionCommandType_SET_KEY
                                       ++ get_time (clock wa (S (ticks wa)))))
                  = Some key_frame) by (now rewrite Hcka, Htka).
  destruct (run_query_connected_frame MotionCommandType_SET_KEY c key_frame v2
              ((if use_notification_delay then [Returns v3] else []) ++ Returns v4 :: rest)%list
              wa Hca Hlive Hmax Hkeya Hoka)
    as (wb & tb & rb & Hrunb & Hdevb & Hckb & Htkb & Hawb).
  rewrite run_cbind. unfold set_key, set_key__wrapped. rewrite Hrunb.
  set (wc := if use_notification_delay
             then logged wb [Awaited (Sleep SETTING_NOTIFICATION_DELAY)] else wb).
  assert (Hsleep :
            run (if use_notification_delay
                 then cbind (await (Sleep SETTING_NOTIFICATION_DELAY)) (fun _ => Ret tt)
                 else Ret tt)
                ((if use_notification_delay then [Returns v3] else []) ++ Returns v4 :: rest)%list
                wb
            = Some (Returns tt, wc, Returns v4 :: rest)).
  { subst wc. destruct use_notification_delay; reflexivity. }
  assert (Hdevc : dev wc = dev wb) by (subst wc; now destruct use_notification_delay).
  assert (Hckc : clock wc = clock wb /\ ticks wc = ticks wb)
    by (subst wc; now destruct use_notification_delay).
  assert (Hawc : awaits (log wc)
                 = (awaits (log wb)
                    ++ if use_notification_delay
                       then [Sleep SETTING_NOTIFICATION_DELAY] else [])%list).
  { subst wc. destruct use_notification_delay; [|now rewrite app_nil_r].
    cbn [logged log]. now rewrite awaits_app. }
  clearbody wc. destruct Hckc as [Hckc Htkc].
  rewrite run_cbind, Hsleep.
  assert (Hcc : _current_bleak_client (dev wc) = Some c)
    by (now rewrite Hdevc, Hdevb, Hdeva).
  assert (Hokc : _disconnect_timer (dev wc) <> None -> _disconnect_time (dev wc) <> None)
    by (rewrite Hdevc, Hdevb; discriminate).
  assert (Hstatusc : Py.fromhex (encrypt (MotionCommandType_STATUS_QUERY
                                          ++ get_time (clock wc (S (ticks wc)))))
                     = Some status_frame)
    by (now rewrite Hckc, Hckb, Hcka, Htkc, Htkb, Htka).
  destruct (run_query_connected_frame MotionCommandType_STATUS_QUERY c status_frame v4 rest wc
              Hcc Hlive Hmax Hstatusc Hokc)
    as (wd & td & rd & Hrund & Hdevd & Hckd & Htkd & Hawd).
  rewrite run_cbind. unfold status_query, status_query__wrapped. rewrite Hrund.
  rewrite run_cbind, run_call. cbn [fst snd emit].
  destruct (refresh_unforced_reads_clock None (logged wd [SetDisconnectedCallback c]))
    as (we & te & re & Hre & Hdeve & Hcke & Htke & Hawe).
  { cbn [logged dev]. rewrite Hdevd. discriminate. }
  rewrite run_cbind, run_call, Hre. cbn [fst snd run].
  exists we, te, re.
  split; [reflexivity|]. split; [|split].
  - rewrite Hdeve. cbn [logged dev]. rewrite Hdevd, Hdevc, Hdevb, Hdeva.
    destruct (dev w). reflexivity.
  - rewrite Htke. cbn [logged ticks]. rewrite Htkd, Htkc, Htkb, Htka. lia.
  - rewrite Hawe. cbn [logged log]. rewrite awaits_app, Hawd, Hawc, Hawb, Hawa.
    cbn [awaits flat_map app]. rewrite app_nil_r, <- !app_assoc. reflexivity.
Qed.

End ConnectionTask.

(** ** Disconnecting a live connection *)

Section Disconnecting.

(** X14. [disconnect] on a device that holds a client.  Up to its
    [await] it announces [DISCONNECTING], cancels a recorded connection
    task and clears [_connection_task], and cancels the recorded timer:
    once for the task and once for the client, so twice when both are
    there.  The timer and its deadline stay recorded.  When the
    transport's [disconnect] returns, the client is dropped and
    [DISCONNECTED] is announced; when it raises, the exception leaves
    [disconnect] and nothing more is done: the client stays and the
    connection stays [DISCONNECTING]. *)
Theorem disconnect_live_connection c w :
  _current_bleak_client (dev w) = Some c ->
  let cancels := match _disconnect_timer (dev w) with
                 | Some timer => [TimerCancelled timer]
                 | None => []
                 end in
  awaited (fst (step disconnect w)) = Some (ClientDisconnect c)
  /\ dev (snd (step disconnect w))
     = with_connection_task None (with_connection_type DISCONNECTING (dev w))
  /\ log (snd (step disconnect w))
     = (log w
        ++ (if _connection_callback (dev w) then [ConnectionCallback DISCONNECTING] else [])
        ++ match _connection_task (dev w) with
           | Some t => TaskCancelRequested t :: cancels
           | None => []
           end
        ++ cancels)%list
  /\ (forall v w2,
         resume (fst (step disconnect w)) (Returns v) w2
         = (Done (Returns tt),
            {| dev := with_connection_type DISCONNECTED
                        (with_current_bleak_client None (dev w2));
               log := (log w2 ++ if _connection_callback (dev w2)
                                 then [ConnectionCallback DISCONNECTED] else [])%list;
               clock := clock w2; ticks := ticks w2; next_id := next_id w2 |}))
  /\ (forall e w2,
         resume (fst (step disconnect w)) (Raises e) w2 = (Done (Raises e), w2)).
Proof.
  destruct w as [d l ck tk n]. destruct d.
  cbn [dev log _connection_task _disconnect_timer _current_bleak_client
       _connection_callback].
  intros ->. cbv zeta.
  destruct _connection_callback0, _disconnect_timer0 as [[id|id]|],
           _connection_task0 as [t|].
  all: cbn.
  all: rewrite <- ?app_assoc, ?app_nil_r.
  all: repeat split.
  all: try reflexivity.
  all: intros v w2; destruct w2 as [d2 l2 ck2 tk2 n2]; destruct d2; cbn.
  all: destruct _connection_callback0; cbn; rewrite ?app_nil_r; reflexivity.
Qed.

End Disconnecting.

(** ** The disconnect timer *)

Section Timers.

Context {K : Const}.

Lemma pending_timers_app l1 l2 :
  pending_timers (l1 ++ l2)
  = fold_left (fun pending e =>
                 match e with
                 | TimerArmed t _ => (pending ++ [t])%list
                 | TimerCancelled t => filter (fun t' => negb (timer_eqb t t')) pending
                 | _ => pending
                 end) l2 (pending_timers l1).
Proof. apply fold_left_app. Qed.

Lemma timer_eqb_refl t : timer_eqb t t = true.
Proof. destruct t; apply Nat.eqb_refl. Qed.

(** Cancelling the recorded timer of a device that tracks its timers
    leaves none pending. *)
Lemma cancel_recorded_timer w timer :
  timers_tracked w ->
  _disconnect_timer (dev w) = Some timer ->
  filter (fun t' => negb (timer_eqb timer t')) (pending_timers (log w)) = [].
Proof.
  unfold timers_tracked. intros Htr Htimer.
  destruct (pending_timers (log w)) as [|t [|t' rest]]; [reflexivity | | contradiction].
  rewrite Htimer in Htr. injection Htr as <-. cbn. now rewrite timer_eqb_refl.
Qed.

Lemma cancel_effect w :
  _cancel_disconnect_timer w
  = (Returns tt,
     logged w match _disconnect_timer (dev w) with
              | Some timer => [TimerCancelled timer]
              | None => []
              end).
Proof.
  unfold _cancel_disconnect_timer, bind, self, emit, ret.
  destruct (_disconnect_timer (dev w)) as [[id|id]|]; try reflexivity.
  now rewrite logged_nil.
Qed.

Lemma set_connection_pending c w :
  dev (snd (_set_connection c w)) = with_connection_type c (dev w)
  /\ pending_timers (log (snd (_set_connection c w))) = pending_timers (log w).
Proof.
  unfold _set_connection, bind, self, emit, ret, set_self, logged.
  destruct (_connection_callback (dev w)); cbn [snd log dev]; split; try reflexivity.
  now rewrite pending_timers_app.
Qed.

(** What [refresh_disconnect_timer] can do to a world, whatever its
    arguments: nothing but read the clock (also when it raises), or
    cancel the recorded timer and arm and record a new one. *)
Lemma refresh_cases timeout force w :
  let w1 := snd (refresh_disconnect_timer timeout force w) in
  (dev w1 = dev w /\ log w1 = log w)
  \/ exists time timer,
       dev w1 = with_disconnect_timer (Some time) (Some timer) (dev w)
       /\ log w1 = (log w
                    ++ match _disconnect_timer (dev w) with
                       | Some old => [TimerCancelled old]
                       | None => []
                       end
                    ++ [TimerArmed timer (seconds_of timeout)])%list.
Proof.
  cbv zeta.
  destruct force.
  - right. rewrite (refresh_replaced timeout true w) by now left.
    cbn [snd dev log]. eauto.
  - destruct (_disconnect_timer (dev w)) as [timer|] eqn:Htimer.
    + destruct (_disconnect_time (dev w)) as [current|] eqn:Htime.
      * destruct (Z_gt_le_dec current
                    (new_disconnect_time_of (clock w (ticks w)) (seconds_of timeout)))
          as [Hlater | Hle].
        -- left. rewrite (refresh_kept timeout w timer current Htimer Htime Hlater).
           split; reflexivity.
        -- right. rewrite (refresh_replaced timeout false w)
             by (right; right; exists current; split; assumption).
           cbn [snd dev log]. rewrite Htimer. eauto.
      * left. unfold refresh_disconnect_timer, bind, time_ns, self, raise, ret.
        cbn. rewrite Htimer, Htime. cbn. split; reflexivity.
    + right. rewrite (refresh_replaced timeout false w) by (right; now left).
      cbn [snd dev log]. rewrite Htimer. eauto.
Qed.

(** X15. The device never leaves two disconnect timers armed.  If every
    timer the log shows armed and not cancelled is the one recorded in
    [_disconnect_timer] (and there is at most one), the same holds after
    [refresh_disconnect_timer] with any arguments, after
    [_cancel_disconnect_timer], [_set_connection], [_disconnect_callback]
    and after [disconnect] has run to its [await] or its end.  After
    [_cancel_disconnect_timer], and after [disconnect] on a device with a
    connection task or a client, no timer is left armed. *)
Theorem at_most_one_timer_pending w :
  timers_tracked w ->
  (forall timeout force, timers_tracked (snd (refresh_disconnect_timer timeout force w)))
  /\ (timers_tracked (snd (_cancel_disconnect_timer w))
      /\ (_disconnect_timer (dev w) <> None ->
          pending_timers (log (snd (_cancel_disconnect_timer w))) = []))
  /\ (forall c, timers_tracked (snd (_set_connection c w)))
  /\ timers_tracked (snd (_disconnect_callback w))
  /\ timers_tracked (snd (step disconnect w))
  /\ (_connection_task (dev w) <> None \/ _current_bleak_client (dev w) <> None ->
      _disconnect_timer (dev w) <> None ->
      pending_timers (log (snd (step disconnect w))) = []).
Proof.
  intros Htr.
  assert (Hcancel : forall timer, _disconnect_timer (dev w) = Some timer ->
            pending_timers (log w ++ [TimerCancelled timer]) = []).
  { intros timer Htimer. rewrite pending_timers_app. cbn [fold_left].
    now apply cancel_recorded_timer. }
  split; [|split; [|split; [|split; [|split]]]].
  - intros timeout force.
    destruct (refresh_cases timeout force w) as [[Hdev Hlog] | (time & timer & Hdev & Hlog)];
      unfold timers_tracked; rewrite Hdev, Hlog; [exact Htr|].
    rewrite app_assoc, pending_timers_app. cbn [fold_left].
    destruct (_disconnect_timer (dev w)) as [old|] eqn:Hold.
    + rewrite (Hcancel old eq_refl). reflexivity.
    + rewrite app_nil_r. unfold timers_tracked in Htr. rewrite Hold in Htr.
      destruct (pending_timers (log w)) as [|t [|t' rest]];
        [reflexivity | discriminate | contradiction].
  - rewrite cancel_effect. cbn [snd]. unfold timers_tracked. cbn [logged dev log].
    destruct (_disconnect_timer (dev w)) as [timer|] eqn:Htimer.
    + rewrite (Hcancel timer eq_refl). split; [exact I | reflexivity].
    + rewrite app_nil_r. unfold timers_tracked in Htr. rewrite Htimer in Htr.
      split; [exact Htr | congruence].
  - intros c. unfold timers_tracked.
    destruct (set_connection_pending c w) as [-> ->]. exact Htr.
  - unfold _disconnect_callback, bind.
    pose proof (set_connection_returns DISCONNECTED w) as Hret.
    destruct (_set_connection DISCONNECTED w) as [r w1] eqn:Hset. cbn [fst] in Hret.
    subst r. cbn [set_self snd]. unfold timers_tracked. cbn [dev log].
    pose proof (set_connection_pending DISCONNECTED w) as [Hdev Hlog].
    rewrite Hset in Hdev, Hlog. cbn [snd] in Hdev, Hlog. rewrite Hlog.
    unfold timers_tracked in Htr.
    destruct (pending_timers (log w)) as [|t [|t' rest]]; try exact Htr.
    cbn [with_current_bleak_client _disconnect_timer]. now rewrite Hdev.
  - unfold timers_tracked in *.
    destruct w as [d l ck tk n]. destruct d. cbn [dev log _disconnect_timer] in *.
    destruct _connection_callback0, _disconnect_timer0 as [timer|],
             _connection_task0 as [t|], _current_bleak_client0 as [c|].
    all: cbn [disconnect step cbind call _set_connection bind self emit ret set_self
              _cancel_disconnect_timer await logged dev log snd fst
              _connection_callback _connection_task _current_bleak_client
              _disconnect_timer with_connection_type with_connection_task
              with_current_bleak_client].
    all: try (destruct timer).
    all: cbn [disconnect step cbind call _set_connection bind self emit ret set_self
              _cancel_disconnect_timer await logged dev log snd fst
              _connection_callback _connection_task _current_bleak_client
              _disconnect_timer with_connection_type with_connection_task
              with_current_bleak_client].
    all: rewrite ?pending_timers_app; cbn [fold_left].
    all: destruct (pending_timers l) as [|t0 [|t1 rest]]; try contradiction;
      try exact I; try exact Htr.
    all: try (injection Htr as <-).
    all: cbn [filter timer_eqb negb app]; rewrite ?Nat.eqb_refl; cbn [negb filter];
      try exact I; try reflexivity.
  - intros Hsome Htimer.
    destruct (_disconnect_timer (dev w)) as [timer|] eqn:Hrec; [|congruence].
    specialize (Hcancel timer eq_refl).
    destruct w as [d l ck tk n]. destruct d. cbn [dev log _disconnect_timer] in *.
    subst _disconnect_timer0.
    rewrite pending_timers_app in Hcancel. cbn [fold_left] in Hcancel.
    destruct _connection_callback0, _connection_task0 as [t|],
             _current_bleak_client0 as [c|], timer as [id|id].
    all: try (exfalso; destruct Hsome as [H | H]; now apply H).
    all: cbn [disconnect step cbind call _set_connection bind self emit ret set_self
              _cancel_disconnect_timer await logged dev log snd fst
              _connection_callback _connection_task _current_bleak_client
              _disconnect_timer with_connection_type with_connection_task
              with_current_bleak_client].
    all: rewrite ?pending_timers_app; cbn [fold_left]; rewrite ?Hcancel; reflexivity.
Qed.

(** X16. A cancelled timer stays recorded.  [_cancel_disconnect_timer]
    cancels the timer and leaves [_disconnect_timer] and
    [_disconnect_time] as they are.  A later
    [refresh_disconnect_timer(force=False)] therefore still compares with
    the deadline of the cancelled timer: when that deadline is later than
    the candidate, it returns with no timer armed at all; otherwise it
    cancels the cancelled timer once more and arms a new one. *)
Theorem cancelled_timer_stays_recorded timeout w timer current :
  timers_tracked w ->
  _disconnect_timer (dev w) = Some timer ->
  _disconnect_time (dev w) = Some current ->
  let w1 := snd (_cancel_disconnect_timer w) in
  let w2 := snd (refresh_disconnect_timer timeout false w1) in
  let candidate := new_disconnect_time_of (clock w (ticks w)) (seconds_of timeout) in
  dev w1 = dev w
  /\ log w1 = (log w ++ [TimerCancelled timer])%list
  /\ fst (refresh_disconnect_timer timeout false w1) = Returns tt
  /\ (current > candidate ->
      dev w2 = dev w /\ log w2 = log w1 /\ pending_timers (log w2) = [])
  /\ (current <= candidate ->
      exists timer',
        _disconnect_timer (dev w2) = Some timer'
        /\ _disconnect_time (dev w2) = Some candidate
        /\ log w2 = (log w ++ [TimerCancelled timer; TimerCancelled timer;
                               TimerArmed timer' (seconds_of timeout)])%list
        /\ pending_timers (log w2) = [timer']).
Proof.
  intros Htr Htimer Htime. cbv zeta.
  rewrite cancel_effect, Htimer. cbn [snd].
  assert (Hnone : pending_timers (log w ++ [TimerCancelled timer]) = []).
  { rewrite pending_timers_app. cbn [fold_left]. now apply cancel_recorded_timer. }
  split; [reflexivity|]. split; [reflexivity|].
  destruct (Z_gt_le_dec current
              (new_disconnect_time_of (clock w (ticks w)) (seconds_of timeout)))
    as [Hlater | Hle].
  - rewrite (refresh_kept timeout (logged w [TimerCancelled timer]) timer current)
      by assumption.
    cbn [fst snd time_ns logged dev log]. split; [reflexivity|]. split.
    + intros _. repeat split. exact Hnone.
    + intros Hle. lia.
  - rewrite (refresh_replaced timeout false (logged w [TimerCancelled timer]))
      by (right; right; exists current; split; assumption).
    cbn [fst snd logged dev log clock ticks next_id]. split; [reflexivity|]. split.
    + intros Hlater. lia.
    + intros _. rewrite Htimer. eexists. split; [reflexivity|]. split; [reflexivity|].
      split.
      * rewrite <- !app_assoc. reflexivity.
      * rewrite app_assoc, pending_timers_app. cbn [fold_left].
        rewrite pending_timers_app. cbn [fold_left]. rewrite Hnone. reflexivity.
Qed.

End Timers.

(** ** Commands on a live connection, and after the link is lost *)

Section LiveConnection.

Context {K : Const} {crypt : MotionCrypt}.

(** X17. [connect] on a device whose client reports a live link never
    suspends: it returns [True] after one reading of the clock, awaits
    nothing, creates no task and changes nothing on the device but the
    recorded timer and deadline, both of which are set afterwards. *)
Theorem connect_on_live_connection flag w :
  connected w = true ->
  (_disconnect_timer (dev w) <> None -> _disconnect_time (dev w) <> None) ->
  exists w1 time timer,
    step (connect flag) w = (Done (Returns true), w1)
    /\ dev w1 = with_disconnect_timer (Some time) (Some timer) (dev w)
    /\ ticks w1 = S (ticks w)
    /\ awaits (log w1) = awaits (log w)
    /\ tasks_created (log w1) = tasks_created (log w)
    /\ connected w1 = true.
Proof.
  intros Hc Hok.
  destruct (refresh_unforced_reads_clock None w Hok)
    as (w1 & time & timer & Hr & Hdev & _ & Htk & Haw).
  destruct (refresh_unforced None w Hok) as (w1' & _ & _ & Hr' & _ & _ & Htasks).
  assert (w1' = w1) by congruence. subst w1'.
  exists w1, time, timer.
  split; [exact (connect_when_connected flag w w1 Hc Hr)|].
  repeat split; try assumption.
  unfold connected in *. now rewrite Hdev.
Qed.

(** X18. [favorite] on a live connection.  After the timer refresh of
    [connect], the command is refused with [NoFavoritePositionException]
    exactly when the last decoded frame reported no upper end position
    and a falsy favorite; otherwise, also when no frame has been decoded
    yet, the favorite command type is sent.  The refusal writes nothing
    to the device, and there is no flag to bypass it. *)
Theorem favorite_command_guard answers w :
  connected w = true ->
  (_disconnect_timer (dev w) <> None -> _disconnect_time (dev w) <> None) ->
  exists w1,
    refresh_disconnect_timer None false w = (Returns tt, w1)
    /\ run (favorite tt) answers w
       = (if favorite_guard_fails w
          then Some (Raises NoFavoritePositionException, w1, answers)
          else run (_send_command MotionCommandType_FAVORITE false) answers w1)
    /\ writes (log w1) = writes (log w)
    /\ (end_position_info (dev w) = None -> favorite_guard_fails w = false)
    /\ (forall info, end_position_info (dev w) = Some info ->
                     favorite_guard_fails w
                     = negb (UP info) && negb (Py.truthy (FAVORITE info))).
Proof.
  intros Hc Hok.
  destruct (refresh_unforced None w Hok) as (w1 & _ & _ & Hr & _ & _ & _).
  exists w1. split; [exact Hr|]. split; [|split; [|split]].
  - unfold favorite, requires_connection. rewrite run_cbind.
    unfold connect. rewrite run_cbind, run_call, is_connected_reads, Hc.
    cbn [fst snd negb]. rewrite run_cbind, run_call, Hr. cbn [fst snd run negb].
    rewrite run_requires_favorite_position.
    unfold favorite_guard_fails.
    rewrite (refresh_keeps_end_position_info None false w w1 Hr). reflexivity.
  - exact (refresh_writes_nothing None false w w1 Hr).
  - intros Hnone. unfold favorite_guard_fails. now rewrite Hnone.
  - intros info Hinfo. unfold favorite_guard_fails. now rewrite Hinfo.
Qed.

(** X19. When the transport reports the link lost,
    [_disconnect_callback] announces [DISCONNECTED] and drops the client,
    and that is all: the disconnect timer is neither cancelled nor
    forgotten.  The next call of [connect], with no attempt in flight,
    starts a new connection task and waits for it. *)
Theorem link_loss_then_connect flag w :
  _connection_task (dev w) = None ->
  let w1 := snd (_disconnect_callback w) in
  fst (_disconnect_callback w) = Returns tt
  /\ dev w1 = with_current_bleak_client None (with_connection_type DISCONNECTED (dev w))
  /\ log w1 = (log w ++ if _connection_callback (dev w)
                        then [ConnectionCallback DISCONNECTED] else [])%list
  /\ pending_timers (log w1) = pending_timers (log w)
  /\ awaited (fst (step (connect flag) w1)) = Some (AwaitTask (first_task flag w1))
  /\ tasks_created (log (snd (step (connect flag) w1)))
     = (tasks_created (log w) ++ [first_task flag w1])%list.
Proof.
  intros Hnone. cbv zeta.
  assert (Hcb : _disconnect_callback w
                = (Returns tt,
                   {| dev := with_current_bleak_client None
                               (with_connection_type DISCONNECTED (dev w));
                      log := (log w ++ if _connection_callback (dev w)
                                       then [ConnectionCallback DISCONNECTED]
                                       else [])%list;
                      clock := clock w; ticks := ticks w; next_id := next_id w |})).
  { unfold _disconnect_callback, _set_connection, bind, self, emit, ret, set_self, logged.
    destruct (_connection_callback (dev w)); cbn; rewrite ?app_nil_r; reflexivity. }
  rewrite Hcb. cbn [fst snd dev log].
  split; [reflexivity|]. split; [reflexivity|]. split; [reflexivity|].
  match goal with |- context [step (connect flag) ?x] => set (w1 := x) end.
  assert (Hc1 : connected w1 = false) by reflexivity.
  assert (Ht1 : _connection_task (dev w1) = None) by exact Hnone.
  pose proof (connect_suspends flag w1 Hc1) as Hs. cbv zeta in Hs.
  rewrite Ht1 in Hs. destruct Hs as (Haw & _ & _ & Hcreated & _).
  split; [|split; [exact Haw|]].
  - rewrite pending_timers_app. destruct (_connection_callback (dev w)); reflexivity.
  - rewrite Hcreated. subst w1. cbn [log]. rewrite tasks_created_app.
    destruct (_connection_callback (dev w)); cbn; now rewrite ?app_nil_r.
Qed.

End LiveConnection.

(* ================================================================== *)
(** * The further properties on the sample device *)
(* ================================================================== *)

(** One failed and one acknowledged write of the open command on the
    connected sample device: two of the three answers are used. *)
Lemma send_command_is_bounded_witness :
  exists n used,
    (n <= 3)%nat
    /\ [Raises (BleakError 1); Returns VNone; Returns VNone] = (used ++ [Returns VNone])%list
    /\ List.length used = n
    /\ (1 <= n)%nat.
Proof.
  eassert (Hrun : run (_send_command (K := sample_const) (crypt := sample_crypt)
                         "03020301" false)
                      [Raises (BleakError 1); Returns VNone; Returns VNone]
                      (world_of connected_device sample_clock)
                  = Some (Returns (Some true), _, [Returns VNone])) by reflexivity.
  destruct (send_command_is_bounded (K := sample_const) (crypt := sample_crypt)
              _ _ _ _ _ _ _ Hrun)
    as (n & used & Hn & Hused & Hlen & _ & _ & _ & Hone & _).
  exists n, used. repeat split; try assumption. now apply Hone.
Defined.

(** The open command on a new device, which has no client. *)
Lemma send_command_without_client_witness :
  run (_send_command (K := sample_const) (crypt := sample_crypt)
         "03020301" false)
      [] (world_of new_device sample_clock)
  = Some (Returns (Some false), snd (time_ns (world_of new_device sample_clock)), []).
Proof.
  apply (send_command_without_client (K := sample_const) (crypt := sample_crypt)
           "03020301" false [] (world_of new_device sample_clock)).
  - reflexivity.
  - cbn. lia.
Defined.

(** Two failed writes of the open command, then an acknowledged one. *)
Lemma transient_write_failures_are_retried_witness :
  exists w',
    run (_send_command (K := sample_const) (crypt := sample_crypt)
           "03020301" false)
        [Raises (BleakError 1); Raises (BleakError 2); Returns VNone]
        (world_of connected_device sample_clock)
    = Some (Returns (Some true), w', [])
    /\ dev w' = connected_device
    /\ log w'
       = repeat (Awaited (WriteGattChar sample_client
                            (MotionCharacteristic_COMMAND (Const := sample_const))
                            sample_open_frame)) 3.
Proof.
  destruct (transient_write_failures_are_retried (K := sample_const) (crypt := sample_crypt)
              "03020301" false sample_client sample_open_frame
              [Raises (BleakError 1); Raises (BleakError 2)] VNone []
              (world_of connected_device sample_clock))
    as (w' & Hrun & Hdev & Hlog & _).
  - reflexivity.
  - reflexivity.
  - cbn. lia.
  - reflexivity.
  - exists w'. repeat split; assumption.
Defined.

(** The sample status frame on the device with every callback registered:
    the status callback gets position 50, tilt 50, battery 80 and speed
    level 2. *)
Lemma status_frame_reports_status_witness :
  exists w',
    _notification_callback (K := sample_const) (crypt := sample_crypt)
      sample_status_frame (world_of listening_device sample_clock)
    = (Returns tt, w')
    /\ log w' = [StatusCallback 50 50 80 (Some 2) (new_MotionPositionInfo 12 (50 * 256 + 90))].
Proof.
  destruct (status_frame_reports_status (K := sample_const) (crypt := sample_crypt)
              sample_status_frame sample_status_frame
              (world_of listening_device sample_clock))
    as (b4 & b6 & b7 & b12 & b17 & tilt & w' & H4 & H6 & H7 & H12 & H17 & Htilt
        & Hrun & _ & Hlog);
    try reflexivity.
  cbn in H4, H6, H7, H12, H17.
  injection H4 as <-. injection H6 as <-. injection H7 as <-.
  injection H12 as <-. injection H17 as <-.
  assert (Ht : tilt = 50).
  { pose proof (round_angle 90 ltac:(lia)) as Hr. rewrite Htilt in Hr.
    injection Hr as ->. reflexivity. }
  subst tilt. exists w'. split; [exact Hrun | exact Hlog].
Defined.

(** A running frame on a device with only the running callback: byte 5
    is read and nothing else happens. *)
Lemma running_frame_changes_nothing_witness :
  _notification_callback (K := sample_const) (crypt := sample_crypt)
    sample_running_frame (world_of running_listener sample_clock)
  = (Returns tt, world_of running_listener sample_clock).
Proof.
  apply (running_frame_changes_nothing (K := sample_const) (crypt := sample_crypt)
           sample_running_frame sample_running_frame
           (world_of running_listener sample_clock));
    reflexivity.
Defined.

(** After the sample position frame, whose flags byte [0x0c] has bit 3
    set, both guards let the command through. *)
Lemma guards_follow_last_frame_witness :
  exists w',
    _notification_callback (K := sample_const) (crypt := sample_crypt)
      sample_position_frame (world_of listening_device sample_clock)
    = (Returns tt, w')
    /\ run (guarded (K := sample_const) (crypt := sample_crypt) Open false) [] w'
       = run (wrapped (K := sample_const) (crypt := sample_crypt) Open) [] w'
    /\ run (requires_favorite_position
              (favorite__wrapped (K := sample_const) (crypt := sample_crypt)) tt) [] w'
       = run (favorite__wrapped (K := sample_const) (crypt := sample_crypt) tt) [] w'.
Proof.
  destruct (guards_follow_last_frame (K := sample_const) (crypt := sample_crypt)
              sample_position_frame sample_position_frame Open false []
              (world_of listening_device sample_clock))
    as (b4 & b6 & b7 & w' & H4 & H6 & H7 & Hrun & Hmove & Hfav);
    try reflexivity.
  cbn in H4, H6, H7. injection H4 as <-. injection H6 as <-. injection H7 as <-.
  exists w'. split; [exact Hrun|]. split; [exact Hmove | exact Hfav].
Defined.

(** Half tilt: 50 percent is sent as 90 degrees, and 90 degrees is
    reported as 50 percent. *)
Lemma tilt_percentage_round_trip_witness :
  exists angle,
    0 <= angle <= 180
    /\ Py.round (Py.truediv (180 * 50) 100) = Some angle
    /\ Py.round (Py.truediv (100 * angle) 180) = Some 50.
Proof.
  destruct (tilt_percentage_round_trip (K := sample_const) (crypt := sample_crypt) 50)
    as (angle & Hrange & Hround & _ & _ & Hback & _); [lia|].
  exists angle. repeat split; try assumption; lia.
Defined.

(** The task of three coalesced callers ends in [BleakNotFoundError]:
    each of the three raises it. *)
Lemma connection_error_reaches_every_waiter_witness :
  let waiters := fst (three_callers sample_clock) in
  let w := snd (three_callers sample_clock) in
  let after := resume_all (map fst waiters) (Raises BleakNotFoundError) w in
  returned (fst after) = repeat (Some (Raises BleakNotFoundError)) 3
  /\ _connection_task (dev (snd after)) = None
  /\ _connection_type (dev (snd after)) = DISCONNECTED.
Proof.
  cbv zeta.
  destruct (connection_error_reaches_every_waiter (K := sample_const)
              (first_task false (world_of new_device sample_clock))
              (world_of new_device sample_clock)
              (fst (three_callers sample_clock))
              (snd (three_callers sample_clock))
              BleakNotFoundError
              (snd (three_callers sample_clock)))
    as (Hret & Htask & Htype & _).
  - apply (connect_calls_coalescing (K := sample_const)
             false [false; false] (world_of new_device sample_clock));
      reflexivity.
  - now right.
  - repeat split; assumption.
Defined.

(** The task of three coalesced callers returns [False]: each caller
    returns [False], the world is as before, and a fourth caller awaits
    the same task. *)
Lemma failed_attempt_stays_recorded_witness :
  let waiters := fst (three_callers sample_clock) in
  let w := snd (three_callers sample_clock) in
  resume_all (map fst waiters) (Returns (VBool false)) w
  = (map (fun _ => Done (Returns false)) waiters, w)
  /\ awaited (fst (step (connect (K := sample_const) true) w))
     = Some (AwaitTask (first_task false (world_of new_device sample_clock))).
Proof.
  cbv zeta.
  destruct (failed_attempt_stays_recorded (K := sample_const)
              (first_task false (world_of new_device sample_clock))
              (world_of new_device sample_clock)
              (fst (three_callers sample_clock))
              (snd (three_callers sample_clock))
              (snd (three_callers sample_clock)))
    as (Hfalse & _ & Hnext).
  - apply (connect_calls_coalescing (K := sample_const)
             false [false; false] (world_of new_device sample_clock));
      reflexivity.
  - split.
    + apply Hfalse. reflexivity.
    + apply Hnext; reflexivity.
Defined.

(** [establish_connection] raises on a new device. *)
Lemma failed_establish_blocks_next_attempt_witness :
  exists w',
    run (_connect (K := sample_const) (crypt := sample_crypt) false)
        [Raises (BleakError 1)] (world_of new_device sample_clock)
    = Some (Raises (BleakError 1), w', [])
    /\ dev w' = with_connection_type CONNECTING new_device
    /\ run (_connect (K := sample_const) (crypt := sample_crypt) true) [] w'
       = Some (Returns false, w', []).
Proof.
  destruct (failed_establish_blocks_next_attempt (K := sample_const) (crypt := sample_crypt)
              false true (BleakError 1) [] [] (world_of new_device sample_clock))
    as (w' & Hrun & Hdev & _ & Hnext).
  - discriminate.
  - exists w'. repeat split; assumption.
Defined.

(** The connection task on a new device, with the notification delay. *)
Lemma connect_task_sequence_witness :
  exists w' time timer,
    run (_connect (K := sample_const) (crypt := sample_crypt) true)
        [Returns (VClient sample_client); Returns VNone; Returns VNone;
         Returns VNone; Returns VNone]
        (world_of new_device sample_clock)
    = Some (Returns true, w', [])
    /\ dev w' = with_disconnect_timer (Some time) (Some timer)
                  (with_connection_type CONNECTED
                     (with_current_bleak_client (Some sample_client) new_device))
    /\ awaits (log w')
       = [EstablishConnection 5;
          StartNotify sample_client (MotionCharacteristic_NOTIFICATION (Const := sample_const));
          WriteGattChar sample_client (MotionCharacteristic_COMMAND (Const := sample_const))
            sample_key_frame;
          Sleep 1;
          WriteGattChar sample_client (MotionCharacteristic_COMMAND (Const := sample_const))
            sample_query_frame].
Proof.
  destruct (connect_task_sequence (K := sample_const) (crypt := sample_crypt)
              true sample_client sample_key_frame sample_query_frame
              VNone VNone VNone VNone [] (world_of new_device sample_clock))
    as (w' & time & timer & Hrun & Hdev & _ & Hawaits).
  - discriminate.
  - reflexivity.
  - cbn. lia.
  - reflexivity.
  - reflexivity.
  - intros H. now contradiction H.
  - exists w', time, timer. split; [exact Hrun|]. split; [exact Hdev | exact Hawaits].
Defined.

(** [disconnect] on the connected sample device, with its timer armed. *)
Lemma disconnect_live_connection_witness :
  awaited (fst (step disconnect (world_of connected_device sample_clock)))
  = Some (ClientDisconnect sample_client)
  /\ log (snd (step disconnect (world_of connected_device sample_clock)))
     = [TimerCancelled (LoopTimerHandle 0)]
  /\ _disconnect_timer (dev (snd (step disconnect (world_of connected_device sample_clock))))
     = Some (LoopTimerHandle 0).
Proof.
  destruct (disconnect_live_connection sample_client
              (world_of connected_device sample_clock) eq_refl)
    as (Haw & Hdev & Hlog & _).
  split; [exact Haw|]. split; [exact Hlog|]. now rewrite Hdev.
Defined.

(** The armed sample device: after a forced refresh one timer is pending,
    after [disconnect] none. *)
Lemma at_most_one_timer_pending_witness :
  timers_tracked armed_world
  /\ timers_tracked (snd (refresh_disconnect_timer (K := sample_const) (Some 30) true
                            armed_world))
  /\ pending_timers (log (snd (step disconnect armed_world))) = [].
Proof.
  assert (Htr : timers_tracked armed_world) by reflexivity.
  destruct (at_most_one_timer_pending (K := sample_const) armed_world Htr)
    as (Hrefresh & _ & _ & _ & _ & Hgone).
  split; [exact Htr|]. split; [apply Hrefresh|].
  apply Hgone; [right|]; discriminate.
Defined.

(** The armed sample device has a deadline a minute away; after its timer
    is cancelled, a refresh by the default fifteen seconds arms nothing. *)
Lemma cancelled_timer_stays_recorded_witness :
  let w1 := snd (_cancel_disconnect_timer armed_world) in
  let w2 := snd (refresh_disconnect_timer (K := sample_const) None false w1) in
  dev w1 = connected_device
  /\ fst (refresh_disconnect_timer (K := sample_const) None false w1) = Returns tt
  /\ pending_timers (log w2) = [].
Proof.
  cbv zeta.
  destruct (cancelled_timer_stays_recorded (K := sample_const) None armed_world
              (LoopTimerHandle 0) 1700000060000)
    as (Hdev & _ & Hret & Hkept & _); try reflexivity.
  split; [exact Hdev|]. split; [exact Hret|].
  apply Hkept. reflexivity.
Defined.

(** [connect] on the connected sample device. *)
Lemma connect_on_live_connection_witness :
  exists w1,
    step (connect (K := sample_const) false) (world_of connected_device sample_clock)
    = (Done (Returns true), w1)
    /\ awaits (log w1) = []
    /\ tasks_created (log w1) = [].
Proof.
  destruct (connect_on_live_connection (K := sample_const) false
              (world_of connected_device sample_clock))
    as (w1 & time & timer & Hstep & _ & _ & Haw & Htasks & _).
  - reflexivity.
  - discriminate.
  - exists w1. repeat split; assumption.
Defined.

(** [favorite] on the connected sample device, which has decoded no frame
    yet: the guard passes. *)
Lemma favorite_command_guard_witness :
  exists w1,
    refresh_disconnect_timer (K := sample_const) None false
      (world_of connected_device sample_clock) = (Returns tt, w1)
    /\ run (favorite (K := sample_const) (crypt := sample_crypt) tt) [Returns VNone]
           (world_of connected_device sample_clock)
       = run (_send_command (K := sample_const) (crypt := sample_crypt) "03020306" false)
             [Returns VNone] w1.
Proof.
  destruct (favorite_command_guard (K := sample_const) (crypt := sample_crypt)
              [Returns VNone] (world_of connected_device sample_clock))
    as (w1 & Hr & Hrun & _).
  - reflexivity.
  - discriminate.
  - exists w1. split; [exact Hr | exact Hrun].
Defined.

(** The link of the connected sample device is lost: the next [connect]
    creates a task. *)
Lemma link_loss_then_connect_witness :
  let w1 := snd (_disconnect_callback armed_world) in
  connected w1 = false
  /\ pending_timers (log w1) = [LoopTimerHandle 0]
  /\ awaited (fst (step (connect (K := sample_const) false) w1))
     = Some (AwaitTask (first_task false w1)).
Proof.
  cbv zeta.
  destruct (link_loss_then_connect (K := sample_const) false armed_world eq_refl)
    as (_ & Hdev & _ & Hpending & Haw & _).
  split; [|split; [|exact Haw]].
  - unfold connected. now rewrite Hdev.
  - rewrite Hpending. reflexivity.
Defined.

(* ================================================================== *)
(** * Calls with positional arguments *)
(* ================================================================== *)

Section PositionalCalls.

Context {K : Const} {crypt : MotionCrypt}.

(** On a connected device a command behind [requires_connection] is the
    refresh of the disconnect timer followed by the wrapped function. *)
Lemma run_requires_connection_connected {A} (func : A -> Coro (option bool))
    args answers w w1 :
  connected w = true ->
  refresh_disconnect_timer None false w = (Returns tt, w1) ->
  run (requires_connection func args) answers w = run (func args) answers w1.
Proof.
  intros Hc Hr. unfold requires_connection. rewrite run_cbind.
  unfold connect. rewrite run_cbind, run_call, is_connected_reads, Hc.
  cbn [fst snd negb]. rewrite run_cbind, run_call, Hr. reflexivity.
Qed.

(** X20. The wrapper of [requires_end_positions] takes the first
    positional argument of a call for its own flag.  So the positional
    order of [percentage] and [percentage_tilt] is flag first, percentage
    second; and a call with the percentage alone, [percentage(p)], on a
    connected device, never reaches the method: [p] is the flag, so for
    [p = 0] the guard is evaluated as without a flag, and otherwise it is
    bypassed, and then the call of the method, which lacks its
    percentage, raises [TypeError].  Nothing is written.  For the methods
    without a percentage the first positional argument is the flag, as
    their signatures say. *)
Theorem first_positional_argument_is_the_flag p flag answers w w1 :
  connected w = true ->
  refresh_disconnect_timer None false w = (Returns tt, w1) ->
  (forall m,
      m = percentage_method \/ m = percentage_tilt_method ->
      run (invoke m {| positional := [Py.PyInt p]; keywords := [] |}) answers w
      = Some (Raises (if guard_fails (negb (p =? 0)) w
                      then NoEndPositionsException else TypeError),
              w1, answers))
  /\ filter is_write (log w1) = filter is_write (log w)
  /\ invoke percentage_method {| positional := [flag; Py.PyInt p]; keywords := [] |}
     = percentage (Py.truthy flag, p)
  /\ invoke percentage_tilt_method {| positional := [flag; Py.PyInt p]; keywords := [] |}
     = percentage_tilt (Py.truthy flag, p)
  /\ (forall m,
         m = Open \/ m = Close \/ m = Stop \/ m = OpenTilt \/ m = CloseTilt ->
         invoke (method_of m) {| positional := [flag]; keywords := [] |}
         = issue m (Py.truthy flag)).
Proof.
  intros Hc Hr. split; [|split; [|split; [|split]]].
  - intros m Hm.
    assert (Hrun : run (invoke m {| positional := [Py.PyInt p]; keywords := [] |}) answers w
                   = run (requires_end_positions
                            (fun _ : Call => Throw TypeError)
                            (negb (p =? 0), {| positional := []; keywords := [] |}))
                         answers w1).
    { destruct Hm as [-> | ->];
        exact (run_requires_connection_connected _ _ answers w w1 Hc Hr). }
    rewrite Hrun, run_requires_end_positions.
    replace (guard_fails (negb (p =? 0)) w1) with (guard_fails (negb (p =? 0)) w)
      by (unfold guard_fails;
          now rewrite (refresh_keeps_end_position_info None false w w1 Hr)).
    destruct (guard_fails (negb (p =? 0)) w); reflexivity.
  - exact (refresh_writes_nothing None false w w1 Hr).
  - reflexivity.
  - reflexivity.
  - intros m [-> | [-> | [-> | [-> | ->]]]]; reflexivity.
Qed.

End PositionalCalls.

(** [percentage(50)] on the connected sample device, calibrated or not:
    [TypeError]. *)
Lemma first_positional_argument_is_the_flag_witness :
  option_map (fun r => fst (fst r))
    (run (invoke (K := sample_const) (crypt := sample_crypt) percentage_method
            {| positional := [Py.PyInt 50]; keywords := [] |})
         [] (world_of (with_end_position_info (Some uncalibrated) connected_device)
                      sample_clock))
  = Some (Raises TypeError)
  /\ invoke (K := sample_const) (crypt := sample_crypt) percentage_method
       {| positional := [Py.PyBool true; Py.PyInt 50]; keywords := [] |}
     = percentage (K := sample_const) (crypt := sample_crypt) (true, 50).
Proof.
  destruct (first_positional_argument_is_the_flag
              (K := sample_const) (crypt := sample_crypt) 50 (Py.PyBool true) []
              (world_of (with_end_position_info (Some uncalibrated) connected_device)
                        sample_clock)
              (snd (refresh_disconnect_timer (K := sample_const) None false
                      (world_of (with_end_position_info (Some uncalibrated)
                                   connected_device) sample_clock))))
    as (Hcall & _ & Hboth & _).
  - reflexivity.
  - reflexivity.
  - split; [|exact Hboth].
    rewrite (Hcall percentage_method (or_introl eq_refl)). reflexivity.
Defined.
